(** * Performance benchmark harness: model and properties

    A shallow embedding of [scripts/performance_benchmark.py]
    (class [PerformanceBenchmark]) and the properties of its measurement,
    load, summary and baseline-comparison code.

    Conventions of the embedding.
    - Python numbers (the [float] and [int] values the script computes
      with) are exact rationals [Q]; statements about computed values use
      [Qeq] ([==]).  Rounding is not modelled.
    - A Python exception is a value of [exn]; a computation that may raise
      returns [result].  [try ... except Exception] is [try_except].
    - The outside world (whether a database connection opens, query
      outcomes, clock readings, process metrics) is an explicit argument,
      the record [World].
    - Dictionaries with string keys are [gmap string _]. *)

From Stdlib Require Import QArith Qabs Lqa Lia List.
From stdpp Require Import gmap strings list fin_maps pretty.
Import ListNotations.

(** ** Exceptions and fallible computations *)

Inductive exn : Type :=
  | ZeroDivisionError
  | StatisticsError
  | ValueError
  | IndexError
  | OtherError (msg : string).

Inductive result (A : Type) : Type :=
  | Ok (a : A)
  | Raise (e : exn).
Arguments Ok {A} a.
Arguments Raise {A} e.

Definition bind {A B : Type} (r : result A) (k : A -> result B) : result B :=
  match r with
  | Ok a => k a
  | Raise e => Raise e
  end.

Notation "'let*' x ':=' r 'in' k" := (bind r (fun x => k))
  (at level 10, x name, r at level 100, k at level 200).

Fixpoint foldM {A B : Type} (f : A -> B -> result A) (l : list B) (a : A)
  : result A :=
  match l with
  | [] => Ok a
  | b :: l' => let* a' := f a b in foldM f l' a'
  end.

(** [try: r except Exception: h] *)
Definition try_except {A : Type} (r : result A) (h : exn -> result A) : result A :=
  match r with
  | Ok a => Ok a
  | Raise e => h e
  end.

Definition raises {A : Type} (r : result A) : Prop :=
  match r with
  | Ok _ => False
  | Raise _ => True
  end.

(** ** Numbers *)

Definition Qltb (a b : Q) : bool := negb (Qle_bool b a).

(** [len(xs)] as a number. *)
Definition len (xs : list Q) : Q := inject_Z (Z.of_nat (length xs)).

Definition of_nat (n : nat) : Q := inject_Z (Z.of_nat n).

(** Python's true division [a / b]: raises on a zero divisor. *)
Definition pydiv (a b : Q) : result Q :=
  if Qeq_bool b 0 then Raise ZeroDivisionError else Ok (a / b)%Q.

(** ** Built-ins and the [statistics] module

    [min], [max], [sorted] and [statistics.mean], [median], [variance],
    [stdev], after their documented behaviour: all of them reject empty
    data, [variance] and [stdev] need two points. *)

Definition py_sum (xs : list Q) : Q := fold_right Qplus 0%Q xs.

Definition py_min (xs : list Q) : result Q :=
  match xs with
  | [] => Raise ValueError
  | x :: rest => Ok (fold_left (fun m y => if Qltb y m then y else m) rest x)
  end.

Definition py_max (xs : list Q) : result Q :=
  match xs with
  | [] => Raise ValueError
  | x :: rest => Ok (fold_left (fun m y => if Qltb m y then y else m) rest x)
  end.

Fixpoint insert_sorted (x : Q) (l : list Q) : list Q :=
  match l with
  | [] => [x]
  | y :: l' => if Qle_bool x y then x :: l else y :: insert_sorted x l'
  end.

Definition py_sorted (xs : list Q) : list Q := fold_right insert_sorted [] xs.

(** [data[i]] *)
Definition index (xs : list Q) (i : nat) : result Q :=
  match xs !! i with
  | Some x => Ok x
  | None => Raise IndexError
  end.

Module statistics.

Definition mean (data : list Q) : result Q :=
  match data with
  | [] => Raise StatisticsError
  | _ => Ok (py_sum data / len data)%Q
  end.

Definition median (data : list Q) : result Q :=
  let data := py_sorted data in
  let n := length data in
  if Nat.eqb n 0 then Raise StatisticsError
  else if Nat.eqb (n mod 2) 1 then index data (n / 2)
  else
    let i := (n / 2)%nat in
    let* a := index data (i - 1) in
    let* b := index data i in
    Ok ((a + b) / 2)%Q.

(** Sum of squared deviations from the mean [c]. *)
Definition sum_sq_dev (c : Q) (data : list Q) : Q :=
  py_sum (map (fun x => (x - c) * (x - c))%Q data).

Definition variance (data : list Q) : result Q :=
  if Nat.ltb (length data) 2 then Raise StatisticsError
  else
    let* c := mean data in
    Ok (sum_sq_dev c data / (len data - 1))%Q.

Section Stdev.

(** The square root of the floating-point library. *)
Variable fsqrt : Q -> Q.

Definition stdev (data : list Q) : result Q :=
  let* v := variance data in
  Ok (fsqrt v).

End Stdev.

End statistics.

(** ** Data classes *)

Record BenchmarkResult : Type := {
  test_name : string;
  duration_ms : Q;
  success : bool;
  error_message : option string;
  metadata : option (gmap string string)
}.

Record PerformanceMetrics : Type := {
  cpu_percent : Q;
  memory_mb : Q;
  memory_percent : Q;
  disk_io_read_mb : Q;
  disk_io_write_mb : Q;
  network_io_sent_mb : Q;
  network_io_recv_mb : Q;
  timestamp : string
}.

(** The mutable attributes of a [PerformanceBenchmark] instance. *)
Record PerformanceBenchmark : Type := {
  results : list BenchmarkResult;
  metrics_history : list PerformanceMetrics
}.

(** [PerformanceBenchmark.__init__] *)
Definition init : PerformanceBenchmark :=
  {| results := []; metrics_history := [] |}.

(** ** The outside world *)

(** Two readings of [time.perf_counter()], taken around a measured call. *)
Record timing : Type := { start_time : Q; end_time : Q }.

(** [(end_time - start_time) * 1000] *)
Definition elapsed_ms (t : timing) : Q := ((end_time t - start_time t) * 1000)%Q.

Record ApiTest : Type := { endpoint : string; params : list (string * nat) }.

(** One reading of the process counters by [psutil]. *)
Record Reading : Type := {
  r_cpu_percent : Q;
  r_rss : Q;
  r_memory_percent : Q;
  r_read_bytes : Q;
  r_write_bytes : Q;
  r_now : string
}.

(** An open connection: what [conn.execute(query)] does, with the
    [cursor.fetchall()] that follows it in the database benchmark, for the
    query text and the number of the call on that query: the clock
    readings around it and the number of rows, or the exception raised. *)
Record Connection : Type := {
  execute : string -> nat -> result (timing * nat)
}.

Record World : Type := {
  (** [sqlite3.connect(self.db_path)] in the method of the given name: the
      connection, or the exception raised *)
  sqlite_connect : string -> result Connection;
  (** the mocked API call of a test, per repetition *)
  api_request : ApiTest -> nat -> result timing;
  (** clock readings around a session, and around a whole load level *)
  session_clock : nat -> nat -> timing;
  level_clock : nat -> timing;
  (** what the sampler reads in each iteration it makes before the
      requested duration has passed *)
  sampler_reads : Q -> list (result Reading);
  (** [datetime.now().isoformat()] *)
  now : string
}.

(** Repetition [i] of a query in the database benchmark, as the world has
    it: [conn.execute(query); cursor.fetchall()] on the connection the
    benchmark opens, and the exception of [sqlite3.connect] when it
    cannot be opened. *)
Definition db_execute (w : World) (query : string) (i : nat)
  : result (timing * nat) :=
  let* conn := sqlite_connect w "benchmark_database_performance" in
  execute conn query i.

(** Run [k] (0 or 1) of a query in the cache benchmark, likewise: the
    clock readings around [conn.execute(query)]. *)
Definition cache_execute (w : World) (query : string) (k : nat) : result timing :=
  let* conn := sqlite_connect w "benchmark_cache_performance" in
  let* r := execute conn query k in
  Ok (fst r).


(** ** Database benchmark *)

Record DbStats : Type := {
  db_average_ms : Q;
  db_median_ms : Q;
  db_min_ms : Q;
  db_max_ms : Q;
  db_std_dev_ms : Q;
  db_success_rate : Q;
  db_rows_returned : nat
}.

Definition queries : list (string * string) := [
  ("select_all_draws",
   "SELECT * FROM super_lotto_draws_optimized ORDER BY draw_date DESC LIMIT 100");
  ("select_with_filters",
   "SELECT * FROM super_lotto_draws_optimized WHERE draw_date >= '2024-01-01' LIMIT 50");
  ("count_query",
   "SELECT COUNT(*) FROM super_lotto_draws_optimized");
  ("complex_join",
   "
                SELECT d.*, f.frequency
                FROM super_lotto_draws_optimized d
                LEFT JOIN number_frequency_cache f ON f.number = 1
                LIMIT 100
            ");
  ("index_test",
   "SELECT * FROM super_lotto_draws_optimized WHERE front_sum BETWEEN 100 AND 200")
].

(** The locals a repetition loop updates: [durations], [success_count]
    and, in the database benchmark, [rows] (unbound until a fetch
    succeeds, and never reset between queries). *)
Definition loop_state : Type := (list Q * nat * option nat)%type.

(** One pass of the [try] block in the repetition loop. *)
Definition db_attempt (conn : Connection) (query : string) (st : loop_state)
    (i : nat) : loop_state :=
  let '(durations, success_count, rows) := st in
  match execute conn query i with
  | Ok (t, nrows) => (durations ++ [elapsed_ms t], S success_count, Some nrows)
  | Raise _ => st
  end.

Section WithSqrt.

Variable fsqrt : Q -> Q.

(** The dictionary stored for a query with at least one success. *)
Definition db_entry (durations : list Q) (success_count : nat)
    (rows : option nat) : result DbStats :=
  let* average := statistics.mean durations in
  let* med := statistics.median durations in
  let* lo := py_min durations in
  let* hi := py_max durations in
  let* sd := (if Nat.ltb 1 (length durations)
              then statistics.stdev fsqrt durations else Ok 0%Q) in
  Ok {| db_average_ms := average;
        db_median_ms := med;
        db_min_ms := lo;
        db_max_ms := hi;
        db_std_dev_ms := sd;
        db_success_rate := (of_nat success_count / 10)%Q;
        db_rows_returned := match rows with Some n => n | None => 0%nat end |}.

(** The body of [for query_name, query in queries.items()]. *)
Definition db_query (conn : Connection)
    (acc : gmap string DbStats * option nat) (q : string * string)
  : result (gmap string DbStats * option nat) :=
  let '(res, rows0) := acc in
  let '(durations, success_count, rows) :=
    fold_left (db_attempt conn (snd q)) (seq 0 10) ([], 0%nat, rows0) in
  match durations with
  | [] => Ok (res, rows)
  | _ =>
    let* entry := db_entry durations success_count rows in
    Ok (<[fst q := entry]> res, rows)
  end.

(** The connection is opened before the loop and outside every [try]: an
    exception of [sqlite3.connect] leaves the function. *)
Definition benchmark_database_performance (w : World)
  : result (gmap string DbStats) :=
  let* conn := sqlite_connect w "benchmark_database_performance" in
  let* final := foldM (db_query conn) queries (∅, None) in
  Ok (fst final).

End WithSqrt.

(** ** API benchmark *)

Record ApiStats : Type := {
  api_average_ms : Q;
  api_median_ms : Q;
  api_min_ms : Q;
  api_max_ms : Q;
  api_success_rate : Q
}.

Definition api_tests : list ApiTest := [
  {| endpoint := "/api/lottery/draws"; params := [("limit", 100%nat)] |};
  {| endpoint := "/api/lottery/draws"; params := [("limit", 50%nat); ("offset", 100%nat)] |};
  {| endpoint := "/api/analysis/hot_numbers"; params := [("days", 30%nat)] |};
  {| endpoint := "/api/analysis/cold_numbers"; params := [("days", 90%nat)] |}
].

Definition api_attempt (w : World) (test : ApiTest) (st : list Q * nat) (i : nat)
  : list Q * nat :=
  let '(durations, success_count) := st in
  match api_request w test i with
  | Ok t => (durations ++ [elapsed_ms t], S success_count)
  | Raise _ => st
  end.

(** The dictionary stored for a test with at least one success. *)
Definition api_entry (durations : list Q) (success_count : nat) : result ApiStats :=
  let* average := statistics.mean durations in
  let* med := statistics.median durations in
  let* lo := py_min durations in
  let* hi := py_max durations in
  Ok {| api_average_ms := average;
        api_median_ms := med;
        api_min_ms := lo;
        api_max_ms := hi;
        api_success_rate := (of_nat success_count / 10)%Q |}.

(** The body of [for test in api_tests]. *)
Definition api_test (w : World) (res : gmap string ApiStats) (test : ApiTest)
  : result (gmap string ApiStats) :=
  let '(durations, success_count) :=
    fold_left (api_attempt w test) (seq 0 10) ([], 0%nat) in
  match durations with
  | [] => Ok res
  | _ =>
    let* entry := api_entry durations success_count in
    Ok (<[endpoint test := entry]> res)
  end.

Definition benchmark_api_performance (w : World) : result (gmap string ApiStats) :=
  foldM (api_test w) api_tests ∅.

(** ** Cache benchmark *)

Record CacheStats : Type := {
  first_run_ms : Q;
  second_run_ms : Q;
  cache_effectiveness : Q
}.

Definition cache_queries : list (string * string) := [
  ("cache_hit_test",
   "SELECT * FROM number_frequency_cache WHERE period_days = 30");
  ("cache_miss_test",
   "SELECT * FROM super_lotto_draws_optimized WHERE draw_number LIKE '2024%' LIMIT 100")
].

(** The loop body; the two [conn.execute] calls are not guarded, so an
    exception of either leaves the function. *)
Definition cache_query (conn : Connection) (res : gmap string CacheStats)
    (q : string * string) : result (gmap string CacheStats) :=
  let* r1 := execute conn (snd q) 0 in
  let first := elapsed_ms (fst r1) in
  let* r2 := execute conn (snd q) 1 in
  let second := elapsed_ms (fst r2) in
  let* eff := (if Qltb 0 first
               then let* r := pydiv (first - second) first in Ok (r * 100)%Q
               else Ok 0%Q) in
  Ok (<[fst q := {| first_run_ms := first;
                    second_run_ms := second;
                    cache_effectiveness := eff |}]> res).

(** The connection is opened before the loop, and nothing in the
    function is inside a [try]. *)
Definition benchmark_cache_performance (w : World)
  : result (gmap string CacheStats) :=
  let* conn := sqlite_connect w "benchmark_cache_performance" in
  foldM (cache_query conn) cache_queries ∅.

(** ** Load benchmark *)

(** [await asyncio.sleep(delay)]: returns when the delay has passed. *)
Definition asyncio_sleep (delay : Q) : result unit := Ok tt.

(** The five methods of [actions], in order, with the seconds each of
    them sleeps: the body of every one is a single
    [await asyncio.sleep(...)]. *)
Definition actions : list (string * Q) := [
  ("load_main_page", 5 # 100);
  ("fetch_lottery_data", 2 # 100);
  ("analyze_hot_numbers", 1 # 10);
  ("analyze_cold_numbers", 1 # 10);
  ("generate_prediction", 15 # 100)
]%Q.

(** [await action()] *)
Definition run_action (action : string * Q) : result unit :=
  asyncio_sleep (snd action).

(** The user think time after an action, in seconds. *)
Definition think_time : Q := 1 # 10.

(** The [try] block of [for action in actions]: the action, then the
    think time. *)
Definition step_body (action : string * Q) : result unit :=
  let* _ := run_action action in asyncio_sleep think_time.

(** The body of [for action in actions]: an exception of the [try] block
    is dropped by [except Exception: pass]. *)
Definition session_step (_ : unit) (action : string * Q) : result unit :=
  try_except (step_body action) (fun _ => Ok tt).

(** Session number [k] of the load level [users]. *)
Definition simulate_user_session (w : World) (users k : nat) : result Q :=
  let* _ := foldM session_step actions tt in
  Ok (elapsed_ms (session_clock w users k)).

(** An element of the list [asyncio.gather(..., return_exceptions=True)]
    returns: the value of the task, or the exception object it raised. *)
Inductive gathered : Type :=
  | Value (x : Q)
  | Exc (e : exn).

Definition gather (tasks : list (result Q)) : list gathered :=
  map (fun r => match r with Ok x => Value x | Raise e => Exc e end) tasks.

(** [isinstance(result, Exception)] *)
Definition is_exception (g : gathered) : bool :=
  match g with Exc _ => true | Value _ => false end.

Record LoadLevel : Type := {
  total_time_ms : Q;
  successful_sessions : nat;
  load_success_rate : Q;
  average_session_time_ms : Q;
  throughput_sessions_per_second : Q
}.

Definition concurrent_users : list nat := [1; 5; 10; 20]%nat.

(** [sum(1 for result in session_results if not isinstance(result, Exception))] *)
Definition count_successful (session_results : list gathered) : nat :=
  length (List.filter (fun g => negb (is_exception g)) session_results).

(** [[result for result in session_results if isinstance(result, (int, float)) ...]] *)
Definition session_times_of (session_results : list gathered) : list Q :=
  flat_map (fun g => match g with Value x => [x] | Exc _ => [] end)
           session_results.

(** The session results of a level: one task per user, gathered. *)
Definition level_sessions (w : World) (users : nat) : list gathered :=
  gather (map (simulate_user_session w users) (seq 0 users)).

(** The body of [for users in concurrent_users], up to the entry stored
    under the key of the level. *)
Definition load_level (w : World) (users : nat) : result LoadLevel :=
  let session_results := level_sessions w users in
  let total_time := elapsed_ms (level_clock w users) in
  let successful := count_successful session_results in
  let session_times := session_times_of session_results in
  let* rate := pydiv (of_nat successful) (of_nat users) in
  let* average := (match session_times with
                   | [] => Ok 0%Q
                   | _ => statistics.mean session_times
                   end) in
  let* throughput := pydiv (of_nat successful) (total_time / 1000) in
  Ok {| total_time_ms := total_time;
        successful_sessions := successful;
        load_success_rate := rate;
        average_session_time_ms := average;
        throughput_sessions_per_second := throughput |}.

(** The key [f"{users}_users"]. *)
Definition level_key (users : nat) : string := pretty users +:+ "_users".

Definition load_step (w : World) (res : gmap string LoadLevel) (users : nat)
  : result (gmap string LoadLevel) :=
  let* entry := load_level w users in
  Ok (<[level_key users := entry]> res).

Definition benchmark_load_performance (w : World)
  : result (gmap string LoadLevel) :=
  foldM (load_step w) concurrent_users ∅.

(** ** Resource sampler *)

Definition metrics_of (r : Reading) : PerformanceMetrics := {|
  cpu_percent := r_cpu_percent r;
  memory_mb := (r_rss r / 1024 / 1024)%Q;
  memory_percent := r_memory_percent r;
  disk_io_read_mb := (r_read_bytes r / 1024 / 1024)%Q;
  disk_io_write_mb := (r_write_bytes r / 1024 / 1024)%Q;
  network_io_sent_mb := 0%Q;
  network_io_recv_mb := 0%Q;
  timestamp := r_now r
|}.

(** What happens during a run, in order: a method of the instance is
    entered or left, a snapshot is appended to [metrics_history]. *)
Inductive event : Type :=
  | Enter (method : string)
  | Leave (method : string)
  | Sampled (m : PerformanceMetrics).

(** The instance together with the events so far (oldest first). *)
Record Run : Type := { self : PerformanceBenchmark; trace : list event }.

Definition append_metrics (m : PerformanceMetrics) (st : Run) : Run :=
  {| self := {| results := results (self st);
                metrics_history := metrics_history (self st) ++ [m] |};
     trace := trace st ++ [Sampled m] |}.

(** One iteration of the [while] loop: a failed read appends nothing. *)
Definition sample_tick (st : Run) (r : result Reading) : Run :=
  match r with
  | Ok reading => append_metrics (metrics_of reading) st
  | Raise _ => st
  end.

Definition collect_system_metrics (w : World) (duration : Q) (st : Run) : Run :=
  fold_left sample_tick (sampler_reads w duration) st.

(** ** Summary and recommendations *)

Definition count_success (rs : list BenchmarkResult) : nat :=
  length (List.filter (fun r => success r) rs).

Definition count_failed (rs : list BenchmarkResult) : nat :=
  length (List.filter (fun r => negb (success r)) rs).

Definition successful_durations (rs : list BenchmarkResult) : list Q :=
  map duration_ms (List.filter (fun r => success r) rs).

(** [f(xs) if xs else 0] *)
Definition or_zero (f : list Q -> result Q) (xs : list Q) : result Q :=
  match xs with
  | [] => Ok 0%Q
  | _ => f xs
  end.

Definition generate_summary (b : PerformanceBenchmark) : result (gmap string Q) :=
  match results b with
  | [] => Ok ∅
  | _ =>
    let all_durations := successful_durations (results b) in
    let* success_rate :=
      pydiv (of_nat (count_success (results b))) (of_nat (length (results b))) in
    let* average := or_zero statistics.mean all_durations in
    let* med := or_zero statistics.median all_durations in
    let* hi := or_zero py_max all_durations in
    let* lo := or_zero py_min all_durations in
    let summary : gmap string Q :=
      <["min_response_time_ms" := lo]>
      (<["max_response_time_ms" := hi]>
      (<["median_response_time_ms" := med]>
      (<["average_response_time_ms" := average]>
      (<["success_rate" := success_rate]>
      (<["failed_tests" := of_nat (count_failed (results b))]>
      (<["successful_tests" := of_nat (count_success (results b))]>
      (<["total_tests" := of_nat (length (results b))]> ∅))))))) in
    match metrics_history b with
    | [] => Ok summary
    | _ =>
      let cpu_values := map cpu_percent (metrics_history b) in
      let memory_values := map memory_percent (metrics_history b) in
      let* avg_cpu := statistics.mean cpu_values in
      let* max_cpu := py_max cpu_values in
      let* avg_mem := statistics.mean memory_values in
      let* max_mem := py_max memory_values in
      let* peak := py_max (map memory_mb (metrics_history b)) in
      Ok (<["peak_memory_mb" := peak]>
         (<["max_memory_percent" := max_mem]>
         (<["average_memory_percent" := avg_mem]>
         (<["max_cpu_percent" := max_cpu]>
         (<["average_cpu_percent" := avg_cpu]> summary)))))
    end
  end.

Definition when (c : bool) (line : string) : list string :=
  if c then [line] else [].

Definition generate_recommendations (b : PerformanceBenchmark)
  : result (list string) :=
  let* response :=
    (match results b with
     | [] => Ok []
     | _ =>
       let* avg_response := statistics.mean (successful_durations (results b)) in
       Ok (when (Qltb 500 avg_response)
             "High average response time detected - consider optimizing database queries and API endpoints"
           ++ when (Qltb 1000 avg_response)
             "Very high response times - implement aggressive caching strategies")
     end) in
  let* memory :=
    (match metrics_history b with
     | [] => Ok []
     | _ =>
       let* avg_memory := statistics.mean (map memory_percent (metrics_history b)) in
       let* max_memory := py_max (map memory_percent (metrics_history b)) in
       Ok (when (Qltb 70 avg_memory)
             "High memory usage - implement memory optimization and leak detection"
           ++ when (Qltb 90 max_memory)
             "Critical memory usage - immediate optimization required")
     end) in
  Ok (response ++ memory ++ [
    "Implement comprehensive monitoring and alerting";
    "Regular performance testing and regression detection";
    "Database query optimization and indexing review";
    "API response compression and caching strategies";
    "Frontend code splitting and lazy loading"
  ]).

(** ** Orchestrator *)

(** A method running on the instance: it may raise, and otherwise returns
    a value and the instance and trace it leaves. *)
Definition M (A : Type) : Type := Run -> result (A * Run).

Definition ret {A : Type} (a : A) : M A := fun st => Ok (a, st).

Definition mbind {A B : Type} (m : M A) (k : A -> M B) : M B :=
  fun st => let* r := m st in k (fst r) (snd r).

Notation "'do*' x ':=' m 'in' k" := (mbind m (fun x => k))
  (at level 10, x name, m at level 100, k at level 200).

(** A computation that does not touch the instance. *)
Definition lift {A : Type} (r : result A) : M A :=
  fun st => let* a := r in Ok (a, st).

Definition emit (e : event) : M unit :=
  fun st => Ok (tt, {| self := self st; trace := trace st ++ [e] |}).

Definition get_self : M PerformanceBenchmark := fun st => Ok (self st, st).

(** [await self.method(...)]: the trace records entry and return. *)
Definition await {A : Type} (method : string) (m : M A) : M A :=
  do* _ := emit (Enter method) in
  do* a := m in
  do* _ := emit (Leave method) in
  ret a.

Definition warmup_queries : list string := [
  "SELECT COUNT(*) FROM super_lotto_draws_optimized LIMIT 1";
  "SELECT * FROM super_lotto_draws_optimized LIMIT 10";
  "SELECT * FROM number_frequency_cache LIMIT 5"
].

(** The whole body, the connect included, is inside
    [try ... except Exception]. *)
Definition warm_up_application (w : World) : result unit :=
  try_except
    (let* conn := sqlite_connect w "warm_up_application" in
     foldM (fun _ query => let* _ := execute conn query 0 in Ok tt)
           warmup_queries tt)
    (fun _ => Ok tt).

Record Report : Type := {
  report_timestamp : string;
  database_performance : gmap string DbStats;
  api_performance : gmap string ApiStats;
  cache_performance : gmap string CacheStats;
  load_performance : gmap string LoadLevel;
  system_metrics : list PerformanceMetrics;
  summary : gmap string Q;
  recommendations : list string
}.

Section Orchestrator.

Variable fsqrt : Q -> Q.

(** Up to the assembled report; writing the report file and drawing the
    charts, which follow, are left out. *)
Definition run_comprehensive_benchmark (w : World) : M Report :=
  do* _ := await "warm_up_application" (lift (warm_up_application w)) in
  do* db_results := await "benchmark_database_performance"
                      (lift (benchmark_database_performance fsqrt w)) in
  do* api_results := await "benchmark_api_performance"
                       (lift (benchmark_api_performance w)) in
  do* cache_results := await "benchmark_cache_performance"
                         (lift (benchmark_cache_performance w)) in
  do* load_results := await "benchmark_load_performance"
                        (lift (benchmark_load_performance w)) in
  do* _ := await "collect_system_metrics"
             (fun st => Ok (tt, collect_system_metrics w 60 st)) in
  do* b := get_self in
  do* the_summary := lift (generate_summary b) in
  do* the_recommendations := lift (generate_recommendations b) in
  ret {| report_timestamp := now w;
         database_performance := db_results;
         api_performance := api_results;
         cache_performance := cache_results;
         load_performance := load_results;
         system_metrics := metrics_history b;
         summary := the_summary;
         recommendations := the_recommendations |}.

(** [main]: a fresh instance runs the suite. *)
Definition main_run (w : World) : result (Report * Run) :=
  run_comprehensive_benchmark w {| self := init; trace := [] |}.

End Orchestrator.

(** ** Comparison with a baseline *)

(** A baseline report as [json.load] returns it, as far as it is read,
    for a file of the shape the reports of this program have: an object
    whose [timestamp], when present, is a string and whose [summary],
    when present, is an object of numbers.  A file of another shape (a
    [summary] that is [null], values that are not numbers) is not a
    [Baseline]; what the comparison does with one is not described
    here. *)
Record Baseline : Type := {
  baseline_timestamp_field : option string;
  baseline_summary_field : option (gmap string Q)
}.

Record Change : Type := {
  ch_baseline : Q;
  ch_current : Q;
  ch_change_percent : Q
}.

Record Regression : Type := {
  reg_metric : string;
  reg_severity : string;
  reg_change_percent : Q
}.

Record Improvement : Type := {
  imp_metric : string;
  imp_improvement_percent : Q
}.

Record Comparison : Type := {
  cmp_timestamp : string;
  cmp_baseline_timestamp : option string;
  performance_changes : gmap string Change;
  regressions_detected : list Regression;
  improvements_detected : list Improvement
}.

(** What [compare_with_baseline] returns: the comparison, or the
    dictionary [{"error": ...}] of its [except] clause. *)
Inductive compare_output : Type :=
  | Compared (c : Comparison)
  | ErrorDict (e : exn).

Definition metrics_to_compare : list string :=
  ["average_response_time_ms"; "success_rate"; "average_cpu_percent";
   "average_memory_percent"].

(** [metric in [...]] *)
Definition member (metric : string) (l : list string) : bool :=
  existsb (String.eqb metric) l.

Definition set_change (metric : string) (ch : Change) (c : Comparison) : Comparison :=
  {| cmp_timestamp := cmp_timestamp c;
     cmp_baseline_timestamp := cmp_baseline_timestamp c;
     performance_changes := <[metric := ch]> (performance_changes c);
     regressions_detected := regressions_detected c;
     improvements_detected := improvements_detected c |}.

Definition add_regression (r : Regression) (c : Comparison) : Comparison :=
  {| cmp_timestamp := cmp_timestamp c;
     cmp_baseline_timestamp := cmp_baseline_timestamp c;
     performance_changes := performance_changes c;
     regressions_detected := regressions_detected c ++ [r];
     improvements_detected := improvements_detected c |}.

Definition add_improvement (i : Improvement) (c : Comparison) : Comparison :=
  {| cmp_timestamp := cmp_timestamp c;
     cmp_baseline_timestamp := cmp_baseline_timestamp c;
     performance_changes := performance_changes c;
     regressions_detected := regressions_detected c;
     improvements_detected := improvements_detected c ++ [i] |}.

(** The two [if] blocks that follow the computation of [change_percent]. *)
Definition flag_regression (metric : string) (change_percent : Q)
    (c : Comparison) : Comparison :=
  if Qltb 10 change_percent then
    if member metric ["average_response_time_ms"; "average_cpu_percent";
                      "average_memory_percent"]
    then add_regression
           {| reg_metric := metric;
              reg_severity := if Qltb 50 change_percent then "high" else "medium";
              reg_change_percent := change_percent |} c
    else c
  else c.

Definition flag_improvement (metric : string) (change_percent : Q)
    (c : Comparison) : Comparison :=
  if Qltb change_percent (-10) then
    if member metric ["average_response_time_ms"]
       || (String.eqb metric "success_rate" && Qltb change_percent (-10))
    then add_improvement
           {| imp_metric := metric;
              imp_improvement_percent := Qabs change_percent |} c
    else c
  else c.

(** The body of [for metric in metrics_to_compare]. *)
Definition compare_metric (current_summary baseline_summary : gmap string Q)
    (c : Comparison) (metric : string) : result Comparison :=
  let current_value := default 0%Q (current_summary !! metric) in
  let baseline_value := default 0%Q (baseline_summary !! metric) in
  if Qltb 0 baseline_value then
    let* ratio := pydiv (current_value - baseline_value) baseline_value in
    let change_percent := (ratio * 100)%Q in
    let c := set_change metric
               {| ch_baseline := baseline_value;
                  ch_current := current_value;
                  ch_change_percent := change_percent |} c in
    let c := flag_regression metric change_percent c in
    let c := flag_improvement metric change_percent c in
    Ok c
  else Ok c.

(** The [try] block, given the current summary. *)
Definition compare_summaries (w : World) (baseline : Baseline)
    (current_summary : gmap string Q) : result Comparison :=
  let baseline_summary := default ∅ (baseline_summary_field baseline) in
  foldM (compare_metric current_summary baseline_summary) metrics_to_compare
    {| cmp_timestamp := now w;
       cmp_baseline_timestamp := baseline_timestamp_field baseline;
       performance_changes := ∅;
       regressions_detected := [];
       improvements_detected := [] |}.

(** [loaded] is what opening and parsing the baseline file gives. *)
Definition compare_with_baseline (w : World) (b : PerformanceBenchmark)
    (loaded : result Baseline) : compare_output :=
  match (let* baseline := loaded in
         let* current_summary := generate_summary b in
         compare_summaries w baseline current_summary) with
  | Ok c => Compared c
  | Raise e => ErrorDict e
  end.

(** ** Auxiliary definitions for the statements *)

(** The durations of the repetitions in [l] of a query that succeed. *)
Definition db_successes (w : World) (query : string) (l : list nat) : list Q :=
  flat_map (fun i => match db_execute w query i with
                     | Ok (t, _) => [elapsed_ms t]
                     | Raise _ => []
                     end) l.

(** The successful durations of the ten repetitions of a query. *)
Definition db_durations (w : World) (query : string) : list Q :=
  db_successes w query (seq 0 10).

Definition api_successes (w : World) (test : ApiTest) (l : list nat) : list Q :=
  flat_map (fun i => match api_request w test i with
                     | Ok t => [elapsed_ms t]
                     | Raise _ => []
                     end) l.

Definition api_durations (w : World) (test : ApiTest) : list Q :=
  api_successes w test (seq 0 10).

(** [lo <= x <= hi] *)
Definition within (lo hi : Q) (x : Q) : Prop := (lo <= x /\ x <= hi)%Q.

(** [e] is the entry computed from the successful durations of [sql]. *)
Definition db_entry_of (fsqrt : Q -> Q) (w : World) (sql : string) (e : DbStats)
  : Prop :=
  db_durations w sql <> [] /\
  exists rows,
    db_entry fsqrt (db_durations w sql) (length (db_durations w sql)) rows = Ok e.

(** The ordering and range invariants of an emitted entry. *)
Definition db_invariants (e : DbStats) : Prop :=
  within (db_min_ms e) (db_max_ms e) (db_median_ms e) /\
  within (db_min_ms e) (db_max_ms e) (db_average_ms e) /\
  (0 <= db_std_dev_ms e)%Q /\
  within (1 # 10) 1 (db_success_rate e).

Definition api_invariants (e : ApiStats) : Prop :=
  within (api_min_ms e) (api_max_ms e) (api_median_ms e) /\
  within (api_min_ms e) (api_max_ms e) (api_average_ms e) /\
  within (1 # 10) 1 (api_success_rate e).

(** A rational square root from below, [floor (sqrt (n * d)) / d] for
    [n / d], to run the model on examples. *)
Definition sqrt_floor (q : Q) : Q :=
  Z.sqrt (Qnum q * Zpos (Qden q)) # Qden q.

(** ** Example worlds *)

Definition ten_ms : timing := {| start_time := 0; end_time := 1 # 100 |}.

Definition one_second : timing := {| start_time := 0; end_time := 1 |}.

Definition sample_reading : Reading := {|
  r_cpu_percent := 25;
  r_rss := 104857600;
  r_memory_percent := 5;
  r_read_bytes := 1048576;
  r_write_bytes := 2097152;
  r_now := "2024-01-01T00:01:00"
|}.

(** A connection on which every call succeeds in 10 ms, with 3 rows. *)
Definition calm_connection : Connection :=
  {| execute := fun _ _ => Ok (ten_ms, 3%nat) |}.

(** Every call succeeds: a measured call takes 10 ms, a session and a load
    level one second; the sampler reads three times, the second read fails. *)
Definition calm_world : World := {|
  sqlite_connect := fun _ => Ok calm_connection;
  api_request := fun _ _ => Ok ten_ms;
  session_clock := fun _ _ => one_second;
  level_clock := fun _ => one_second;
  sampler_reads := fun _ =>
    [Ok sample_reading; Raise (OtherError "access denied"); Ok sample_reading];
  now := "2024-01-01T00:00:00"
|}.

(** [w] with a database benchmark whose connection executes as [f]. *)
Definition with_db (f : string -> nat -> result (timing * nat)) (w : World)
  : World := {|
  sqlite_connect := fun method =>
    if String.eqb method "benchmark_database_performance"
    then Ok {| execute := f |}
    else sqlite_connect w method;
  api_request := api_request w;
  session_clock := session_clock w;
  level_clock := level_clock w;
  sampler_reads := sampler_reads w;
  now := now w
|}.

(** The default configuration without its database directory: no
    connection can be opened. *)
Definition offline_world : World := {|
  sqlite_connect := fun _ => Raise (OtherError "unable to open database file");
  api_request := api_request calm_world;
  session_clock := session_clock calm_world;
  level_clock := level_clock calm_world;
  sampler_reads := sampler_reads calm_world;
  now := now calm_world
|}.

Definition index_test_sql : string :=
  "SELECT * FROM super_lotto_draws_optimized WHERE front_sum BETWEEN 100 AND 200".

Definition count_query_sql : string :=
  "SELECT COUNT(*) FROM super_lotto_draws_optimized".

(** The index query always fails, the count query succeeds once (10 ms),
    the other queries always succeed, repetition [i] taking [i + 1] ms. *)
Definition flaky_db (sql : string) (i : nat) : result (timing * nat) :=
  if String.eqb sql index_test_sql then
    Raise (OtherError "no such column: front_sum")
  else if String.eqb sql count_query_sql then
    if Nat.eqb i 0 then Ok (ten_ms, 1%nat)
    else Raise (OtherError "database is locked")
  else
    Ok ({| start_time := 0; end_time := (of_nat (S i) / 1000)%Q |}, 100%nat).

Definition flaky_world : World := with_db flaky_db calm_world.

(** What the database benchmark stores in [flaky_world]. *)
Definition flaky_db_results : gmap string DbStats :=
  match benchmark_database_performance sqrt_floor flaky_world with
  | Ok res => res
  | Raise _ => ∅
  end.

(** The snapshots a sequence of sampler reads leaves. *)
Definition snapshots_of (reads : list (result Reading)) : list PerformanceMetrics :=
  flat_map (fun r => match r with
                     | Ok reading => [metrics_of reading]
                     | Raise _ => []
                     end) reads.

(** The events of the warm-up and the four benchmark categories. *)
Definition category_trace : list event := [
  Enter "warm_up_application"; Leave "warm_up_application";
  Enter "benchmark_database_performance"; Leave "benchmark_database_performance";
  Enter "benchmark_api_performance"; Leave "benchmark_api_performance";
  Enter "benchmark_cache_performance"; Leave "benchmark_cache_performance";
  Enter "benchmark_load_performance"; Leave "benchmark_load_performance"
].

(** The metrics for which a higher value is worse. *)
Definition higher_is_worse : list string :=
  ["average_response_time_ms"; "average_cpu_percent"; "average_memory_percent"].

(** What the comparison records for a metric: nothing unless the baseline
    value is positive. *)
Definition metric_change (current_summary baseline_summary : gmap string Q)
    (metric : string) : option Change :=
  let current_value := default 0%Q (current_summary !! metric) in
  let baseline_value := default 0%Q (baseline_summary !! metric) in
  if Qltb 0 baseline_value then
    Some {| ch_baseline := baseline_value;
            ch_current := current_value;
            ch_change_percent :=
              ((current_value - baseline_value) / baseline_value * 100)%Q |}
  else None.

(** The regression and the improvement flagged for a change of a metric. *)
Definition regression_of (metric : string) (change_percent : Q) : list Regression :=
  if Qltb 10 change_percent && member metric higher_is_worse then
    [{| reg_metric := metric;
        reg_severity := if Qltb 50 change_percent then "high" else "medium";
        reg_change_percent := change_percent |}]
  else [].

Definition improvement_of (metric : string) (change_percent : Q) : list Improvement :=
  if Qltb change_percent (-10)
     && (member metric ["average_response_time_ms"]
         || (String.eqb metric "success_rate" && Qltb change_percent (-10)))
  then [{| imp_metric := metric;
           imp_improvement_percent := Qabs change_percent |}]
  else [].

Definition metric_regressions (current_summary baseline_summary : gmap string Q)
    (metric : string) : list Regression :=
  match metric_change current_summary baseline_summary metric with
  | Some ch => regression_of metric (ch_change_percent ch)
  | None => []
  end.

Definition metric_improvements (current_summary baseline_summary : gmap string Q)
    (metric : string) : list Improvement :=
  match metric_change current_summary baseline_summary metric with
  | Some ch => improvement_of metric (ch_change_percent ch)
  | None => []
  end.

(** A benchmark instance holding one successful result of the given
    duration. *)
Definition bench_with_duration (d : Q) : PerformanceBenchmark := {|
  results := [{| test_name := "select_all_draws"; duration_ms := d;
                 success := true; error_message := None; metadata := None |}];
  metrics_history := []
|}.

(** A benchmark instance with one successful and one failed result. *)
Definition bench_half_failed : PerformanceBenchmark := {|
  results := [{| test_name := "select_all_draws"; duration_ms := 100;
                 success := true; error_message := None; metadata := None |};
              {| test_name := "index_test"; duration_ms := 0;
                 success := false;
                 error_message := Some "no such column: front_sum";
                 metadata := None |}];
  metrics_history := []
|}.

(** A baseline with a response time of 100 ms, every test successful, and
    a CPU average of 0. *)
Definition baseline_100 : Baseline := {|
  baseline_timestamp_field := Some "2023-12-31T00:00:00";
  baseline_summary_field := Some (
    <["average_cpu_percent" := 0%Q]>
    (<["success_rate" := 1%Q]>
    (<["average_response_time_ms" := 100%Q]> ∅)))
|}.

(** ** Auxiliary definitions for further properties *)

(** The row count of the last repetition in [l] of a query that succeeds,
    [rows] when none does. *)
Definition db_last_rows (w : World) (query : string) (l : list nat)
    (rows : option nat) : option nat :=
  fold_left (fun r i => match db_execute w query i with
                        | Ok (_, nrows) => Some nrows
                        | Raise _ => r
                        end) l rows.

(** [e] is the entry of [sql]: computed from its successful durations and
    the rows of its last successful repetition. *)
Definition db_exact_entry (fsqrt : Q -> Q) (w : World) (sql : string)
    (e : DbStats) : Prop :=
  db_durations w sql <> [] /\
  db_entry fsqrt (db_durations w sql) (length (db_durations w sql))
    (db_last_rows w sql (seq 0 10) None) = Ok e.

(** The two API tests that share the endpoint [/api/lottery/draws]. *)
Definition draws_first_test : ApiTest :=
  {| endpoint := "/api/lottery/draws"; params := [("limit", 100%nat)] |}.

Definition draws_second_test : ApiTest :=
  {| endpoint := "/api/lottery/draws";
     params := [("limit", 50%nat); ("offset", 100%nat)] |}.

(** What a cache query stores for its two timings. *)
Definition cache_entry_of (t1 t2 : timing) (e : CacheStats) : Prop :=
  first_run_ms e = elapsed_ms t1 /\
  second_run_ms e = elapsed_ms t2 /\
  ((0 < elapsed_ms t1)%Q ->
     (cache_effectiveness e
      == (elapsed_ms t1 - elapsed_ms t2) / elapsed_ms t1 * 100)%Q) /\
  ((elapsed_ms t1 <= 0)%Q -> cache_effectiveness e = 0%Q).

(** The durations of the sessions of a load level. *)
Definition session_durations (w : World) (users : nat) : list Q :=
  map (fun k => elapsed_ms (session_clock w users k)) (seq 0 users).

(** What the entry of a load level holds. *)
Definition load_entry_of (w : World) (users : nat) (entry : LoadLevel) : Prop :=
  total_time_ms entry = elapsed_ms (level_clock w users) /\
  ~ (total_time_ms entry == 0)%Q /\
  successful_sessions entry = users /\
  (load_success_rate entry == 1)%Q /\
  statistics.mean (session_durations w users) = Ok (average_session_time_ms entry) /\
  (throughput_sessions_per_second entry * total_time_ms entry
   == 1000 * of_nat users)%Q.

(** [isinstance(r, Exception)] for a sampler read. *)
Definition read_failed (r : result Reading) : bool :=
  match r with Ok _ => false | Raise _ => true end.

(** The five recommendations every report ends with. *)
Definition general_recommendations : list string := [
  "Implement comprehensive monitoring and alerting";
  "Regular performance testing and regression detection";
  "Database query optimization and indexing review";
  "API response compression and caching strategies";
  "Frontend code splitting and lazy loading"
].

(** A benchmark instance with one successful result and two snapshots. *)
Definition bench_with_metrics : PerformanceBenchmark := {|
  results := [{| test_name := "count_query"; duration_ms := 1200;
                 success := true; error_message := None; metadata := None |}];
  metrics_history :=
    [metrics_of sample_reading;
     metrics_of {| r_cpu_percent := 75; r_rss := 209715200;
                   r_memory_percent := 95; r_read_bytes := 0;
                   r_write_bytes := 0; r_now := "2024-01-01T00:01:01" |}]
|}.

(** A benchmark instance whose only result failed. *)
Definition bench_all_failed : PerformanceBenchmark := {|
  results := [{| test_name := "index_test"; duration_ms := 0;
                 success := false;
                 error_message := Some "no such column: front_sum";
                 metadata := None |}];
  metrics_history := []
|}.

(** ** The command-line entry point *)

(** [comparison.get('regressions_detected', [])] and
    [comparison.get('improvements_detected', [])] *)
Definition get_regressions (comparison : compare_output) : list Regression :=
  match comparison with
  | Compared c => regressions_detected c
  | ErrorDict _ => []
  end.

Definition get_improvements (comparison : compare_output) : list Improvement :=
  match comparison with
  | Compared c => improvements_detected c
  | ErrorDict _ => []
  end.

(** What [main] has to show: the report, and the regressions and
    improvements it lists (none without a baseline file). *)
Record MainOutcome : Type := {
  main_report : Report;
  listed_regressions : list Regression;
  listed_improvements : list Improvement
}.

Section Main.

Variable fsqrt : Q -> Q.

(** [baseline_file] is [None] when [benchmark_results/latest_baseline.json]
    does not exist, and otherwise what opening and parsing it gives.  The
    formatting of the printed lines is left out. *)
Definition main (w : World) (baseline_file : option (result Baseline))
  : result MainOutcome :=
  let* r := main_run fsqrt w in
  match baseline_file with
  | Some loaded =>
    let comparison := compare_with_baseline w (self (snd r)) loaded in
    Ok {| main_report := fst r;
          listed_regressions := get_regressions comparison;
          listed_improvements := get_improvements comparison |}
  | None =>
    Ok {| main_report := fst r;
          listed_regressions := [];
          listed_improvements := [] |}
  end.

End Main.

(** The metrics that can be listed as an improvement. *)
Definition improvable : list string :=
  ["average_response_time_ms"; "success_rate"].

(** ** Auxiliary definitions for the load levels and the entries *)



(** Whether the [try] block of a step returned, that is, whether the
    step succeeded. *)
Definition step_succeeded (action : string * Q) : bool :=
  match step_body action with
  | Ok _ => true
  | Raise _ => false
  end.


(** The dictionary an entry of the database results is (the keys of the
    literal stored under the query name). *)
Definition db_entry_dict (e : DbStats) : gmap string Q :=
  <["rows_returned" := of_nat (db_rows_returned e)]>
  (<["success_rate" := db_success_rate e]>
  (<["std_dev_ms" := db_std_dev_ms e]>
  (<["max_ms" := db_max_ms e]>
  (<["min_ms" := db_min_ms e]>
  (<["median_ms" := db_median_ms e]>
  (<["average_ms" := db_average_ms e]> ∅)))))).

(** The dictionary an entry of the API results is. *)
Definition api_entry_dict (e : ApiStats) : gmap string Q :=
  <["success_rate" := api_success_rate e]>
  (<["max_ms" := api_max_ms e]>
  (<["min_ms" := api_min_ms e]>
  (<["median_ms" := api_median_ms e]>
  (<["average_ms" := api_average_ms e]> ∅)))).

(** The first query of the database benchmark. *)
Definition select_all_draws_sql : string :=
  "SELECT * FROM super_lotto_draws_optimized ORDER BY draw_date DESC LIMIT 100".

(** ** Properties *)

(** *** Comparisons, minimum, maximum, mean and median *)

Lemma Qltb_lt (a b : Q) : Qltb a b = true <-> (a < b)%Q.
Proof.
  unfold Qltb. rewrite negb_true_iff. split.
  - intros H. apply Qnot_le_lt. intros Hle.
    apply Qle_bool_iff in Hle. congruence.
  - intros H. destruct (Qle_bool b a) eqn:E; [|reflexivity].
    apply Qle_bool_iff in E. exfalso. apply (Qlt_not_le _ _ H E).
Qed.

Lemma Qltb_ge (a b : Q) : Qltb a b = false <-> (b <= a)%Q.
Proof.
  unfold Qltb. rewrite negb_false_iff. apply Qle_bool_iff.
Qed.

Lemma fold_min_le (rest : list Q) (x : Q) :
  let m := fold_left (fun m y => if Qltb y m then y else m) rest x in
  (m <= x)%Q /\ Forall (fun y => m <= y)%Q rest /\ (m = x \/ In m rest).
Proof.
  revert x. induction rest as [|y rest IH]; intros x; simpl.
  - split; [lra|]. split; [constructor | now left].
  - destruct (Qltb y x) eqn:E.
    + apply Qltb_lt in E. destruct (IH y) as (H1 & H2 & H3).
      split; [lra|]. split; [constructor; assumption|].
      destruct H3 as [->|H3]; auto.
    + apply Qltb_ge in E. destruct (IH x) as (H1 & H2 & H3).
      split; [assumption|]. split; [constructor; [lra|assumption]|].
      destruct H3 as [->|H3]; auto.
Qed.

Lemma fold_max_ge (rest : list Q) (x : Q) :
  let m := fold_left (fun m y => if Qltb m y then y else m) rest x in
  (x <= m)%Q /\ Forall (fun y => y <= m)%Q rest /\ (m = x \/ In m rest).
Proof.
  revert x. induction rest as [|y rest IH]; intros x; simpl.
  - split; [lra|]. split; [constructor | now left].
  - destruct (Qltb x y) eqn:E.
    + apply Qltb_lt in E. destruct (IH y) as (H1 & H2 & H3).
      split; [lra|]. split; [constructor; assumption|].
      destruct H3 as [->|H3]; auto.
    + apply Qltb_ge in E. destruct (IH x) as (H1 & H2 & H3).
      split; [assumption|]. split; [constructor; [lra|assumption]|].
      destruct H3 as [->|H3]; auto.
Qed.

Lemma py_min_spec (xs : list Q) :
  xs <> [] ->
  exists m, py_min xs = Ok m /\ In m xs /\ Forall (fun y => m <= y)%Q xs.
Proof.
  destruct xs as [|x rest]; [congruence|]. intros _.
  destruct (fold_min_le rest x) as (H1 & H2 & H3).
  eexists. split; [reflexivity|]. split.
  - simpl. destruct H3; [left; congruence | right; assumption].
  - constructor; assumption.
Qed.

Lemma py_max_spec (xs : list Q) :
  xs <> [] ->
  exists m, py_max xs = Ok m /\ In m xs /\ Forall (fun y => y <= m)%Q xs.
Proof.
  destruct xs as [|x rest]; [congruence|]. intros _.
  destruct (fold_max_ge rest x) as (H1 & H2 & H3).
  eexists. split; [reflexivity|]. split.
  - simpl. destruct H3; [left; congruence | right; assumption].
  - constructor; assumption.
Qed.

Lemma len_cons (x : Q) (xs : list Q) : (len (x :: xs) == len xs + 1)%Q.
Proof.
  unfold len. cbn [length]. rewrite Nat2Z.inj_succ, <- Z.add_1_r.
  rewrite inject_Z_plus. reflexivity.
Qed.

Lemma len_nonneg (xs : list Q) : (0 <= len xs)%Q.
Proof.
  unfold len. change 0%Q with (inject_Z 0). rewrite <- Zle_Qle. lia.
Qed.

Lemma sum_within (lo hi : Q) (xs : list Q) :
  Forall (within lo hi) xs ->
  (len xs * lo <= py_sum xs /\ py_sum xs <= len xs * hi)%Q.
Proof.
  induction 1 as [|x xs [Hlo Hhi] _ [IH1 IH2]].
  - change (len []) with 0%Q. cbn [py_sum fold_right]. lra.
  - pose proof (len_cons x xs) as E. cbn [py_sum fold_right].
    fold (py_sum xs). rewrite E.
    assert ((len xs + 1) * lo == len xs * lo + lo)%Q as -> by ring.
    assert ((len xs + 1) * hi == len xs * hi + hi)%Q as -> by ring.
    lra.
Qed.

Lemma mean_within (lo hi : Q) (xs : list Q) :
  xs <> [] -> Forall (within lo hi) xs ->
  exists a, statistics.mean xs = Ok a /\ within lo hi a.
Proof.
  intros Hne HF. destruct xs as [|x xs]; [congruence|].
  eexists. split; [reflexivity|].
  destruct (sum_within _ _ _ HF) as [H1 H2].
  assert (0 < len (x :: xs))%Q as Hpos.
  { rewrite len_cons. pose proof (len_nonneg xs). lra. }
  split.
  - apply Qle_shift_div_l; [assumption|]. lra.
  - apply Qle_shift_div_r; [assumption|]. lra.
Qed.

Lemma insert_sorted_In (x y : Q) (l : list Q) :
  In y (insert_sorted x l) <-> y = x \/ In y l.
Proof.
  induction l as [|z l IH]; simpl.
  - intuition.
  - destruct (Qle_bool x z); simpl; rewrite ?IH; intuition.
Qed.

Lemma insert_sorted_length (x : Q) (l : list Q) :
  length (insert_sorted x l) = S (length l).
Proof.
  induction l as [|z l IH]; simpl; [reflexivity|].
  destruct (Qle_bool x z); simpl; congruence.
Qed.

Lemma py_sorted_In (y : Q) (xs : list Q) : In y (py_sorted xs) <-> In y xs.
Proof.
  induction xs as [|x xs IH]; simpl; [tauto|].
  rewrite insert_sorted_In, IH. intuition.
Qed.

Lemma py_sorted_length (xs : list Q) : length (py_sorted xs) = length xs.
Proof.
  induction xs as [|x xs IH]; simpl; [reflexivity|].
  rewrite insert_sorted_length. congruence.
Qed.

Lemma index_within (lo hi : Q) (xs : list Q) (i : nat) :
  Forall (within lo hi) xs -> (i < length xs)%nat ->
  exists x, index xs i = Ok x /\ within lo hi x.
Proof.
  intros HF Hi. unfold index.
  destruct (lookup_lt_is_Some_2 xs i Hi) as [x Hx]. rewrite Hx.
  exists x. split; [reflexivity|].
  rewrite List.Forall_forall in HF. apply HF.
  apply list_elem_of_In. eapply list_elem_of_lookup_2; eassumption.
Qed.

Lemma median_within (lo hi : Q) (xs : list Q) :
  xs <> [] -> Forall (within lo hi) xs ->
  exists m, statistics.median xs = Ok m /\ within lo hi m.
Proof.
  intros Hne HF. unfold statistics.median.
  assert (Forall (within lo hi) (py_sorted xs)) as HS.
  { rewrite List.Forall_forall in *. intros y Hy. apply HF.
    apply py_sorted_In; assumption. }
  pose proof (py_sorted_length xs) as HL.
  assert (0 < length xs)%nat as Hpos by (destruct xs; [congruence | simpl; lia]).
  set (s := py_sorted xs) in *. set (n := length s) in *.
  destruct (Nat.eqb_spec n 0) as [E0|_]; [lia|].
  assert (n / 2 < n)%nat as Hmid by (apply Nat.div_lt; lia).
  destruct (Nat.eqb_spec (n mod 2) 1) as [Eodd|Eeven].
  - apply index_within; assumption.
  - destruct (index_within lo hi s (n / 2 - 1) HS) as (a & Ha & [Ha1 Ha2]); [lia|].
    destruct (index_within lo hi s (n / 2) HS) as (b & Hb & [Hb1 Hb2]); [lia|].
    rewrite Ha, Hb. cbn [bind]. eexists. split; [reflexivity|].
    split.
    + apply Qle_shift_div_l; lra.
    + apply Qle_shift_div_r; lra.
Qed.

Lemma mean_ok (xs : list Q) :
  xs <> [] -> statistics.mean xs = Ok (py_sum xs / len xs)%Q.
Proof. destruct xs; [congruence | reflexivity]. Qed.

(** *** The database benchmark *)

Lemma db_successes_length (w : World) (query : string) (l : list nat) :
  (length (db_successes w query l) <= length l)%nat.
Proof.
  induction l as [|i l IH]; simpl; [lia|].
  rewrite length_app. destruct (db_execute w query i) as [[t n]|e]; simpl; lia.
Qed.

(** On the connection of the database benchmark, [db_execute] is its
    [execute]. *)
Lemma db_execute_on (w : World) (conn : Connection) (query : string) (i : nat) :
  sqlite_connect w "benchmark_database_performance" = Ok conn ->
  db_execute w query i = execute conn query i.
Proof. intros H. unfold db_execute. rewrite H. reflexivity. Qed.

Lemma db_benchmark_connected (fsqrt : Q -> Q) (w : World)
    (res : gmap string DbStats) :
  benchmark_database_performance fsqrt w = Ok res ->
  exists conn, sqlite_connect w "benchmark_database_performance" = Ok conn.
Proof.
  unfold benchmark_database_performance. intros H.
  destruct (sqlite_connect w "benchmark_database_performance") as [conn|e];
    [eauto | discriminate].
Qed.

Lemma db_attempts_spec (w : World) (conn : Connection) (query : string)
    (l : list nat) (durations : list Q) (count : nat) (rows : option nat) :
  sqlite_connect w "benchmark_database_performance" = Ok conn ->
  exists rows',
    fold_left (db_attempt conn query) l (durations, count, rows)
    = (durations ++ db_successes w query l,
       (count + length (db_successes w query l))%nat, rows').
Proof.
  intros Hconn. revert durations count rows.
  induction l as [|i l IH]; intros durations count rows; simpl.
  - exists rows. rewrite app_nil_r, Nat.add_0_r. reflexivity.
  - rewrite <- (db_execute_on w conn query i Hconn).
    destruct (db_execute w query i) as [[t n]|e]; simpl.
    + destruct (IH (durations ++ [elapsed_ms t]) (S count) (Some n)) as [r Hr].
      exists r. rewrite Hr, <- app_assoc. simpl. f_equal. f_equal. lia.
    + apply IH.
Qed.

Section DbLemmas.
Variable fsqrt : Q -> Q.
Variable w : World.
Variable conn : Connection.
Hypothesis Hconn : sqlite_connect w "benchmark_database_performance" = Ok conn.

Lemma variance_ok (data : list Q) :
  (2 <= length data)%nat -> exists v, statistics.variance data = Ok v.
Proof.
  intros H. unfold statistics.variance.
  destruct (Nat.ltb_spec (length data) 2) as [?|_]; [lia|].
  destruct data as [|x data]; [simpl in H; lia|].
  eexists. reflexivity.
Qed.

Lemma db_entry_ok (durations : list Q) (count : nat) (rows : option nat) :
  durations <> [] -> exists e, db_entry fsqrt durations count rows = Ok e.
Proof.
  intros Hne. unfold db_entry.
  destruct (py_min_spec durations Hne) as (lo & Hlo & _ & Hlo').
  destruct (py_max_spec durations Hne) as (hi & Hhi & _ & Hhi').
  assert (Forall (within lo hi) durations) as HF.
  { rewrite List.Forall_forall in *. intros x Hx. split; auto. }
  destruct (mean_within lo hi durations Hne HF) as (a & Ha & _).
  destruct (median_within lo hi durations Hne HF) as (m & Hm & _).
  rewrite Ha, Hm, Hlo, Hhi. cbn [bind].
  destruct (Nat.ltb_spec 1 (length durations)) as [H2|H1].
  - destruct (variance_ok durations H2) as [v Hv].
    unfold statistics.stdev. rewrite Hv. cbn [bind]. eexists. reflexivity.
  - cbn [bind]. eexists. reflexivity.
Qed.

Lemma db_query_step (acc : gmap string DbStats * option nat) (q : string * string) :
  let ds := db_durations w (snd q) in
  exists rows',
    match ds with
    | [] => db_query fsqrt conn acc q = Ok (fst acc, rows')
    | _ => exists e, db_entry fsqrt ds (length ds) rows' = Ok e /\
           db_query fsqrt conn acc q = Ok (<[fst q := e]> (fst acc), rows')
    end.
Proof.
  intros ds. destruct acc as [res rows0]. unfold db_query.
  destruct (db_attempts_spec w conn (snd q) (seq 0 10) [] 0 rows0 Hconn)
    as [rows' Hr].
  rewrite Hr. cbn [app Nat.add fst]. fold (db_durations w (snd q)). fold ds.
  exists rows'. destruct ds as [|d ds'] eqn:E; [reflexivity|].
  destruct (db_entry_ok (d :: ds') (length (d :: ds')) rows') as [e He]; [congruence|].
  exists e. split; [assumption|]. rewrite He. reflexivity.
Qed.

Lemma db_fold (qs : list (string * string)) :
  forall acc, exists acc',
    foldM (db_query fsqrt conn) qs acc = Ok acc' /\
    (forall name, name ∉ qs.*1 -> fst acc' !! name = fst acc !! name) /\
    (NoDup qs.*1 -> forall name sql, (name, sql) ∈ qs ->
       (db_durations w sql = [] -> fst acc' !! name = fst acc !! name) /\
       (db_durations w sql <> [] ->
          exists e, fst acc' !! name = Some e /\ db_entry_of fsqrt w sql e)) /\
    (forall name e, fst acc' !! name = Some e ->
       fst acc !! name = Some e \/
       exists sql, (name, sql) ∈ qs /\ db_entry_of fsqrt w sql e).
Proof.
  induction qs as [|q qs IH]; intros acc.
  - exists acc. split; [reflexivity|]. split; [reflexivity|].
    split; [|auto]. intros _ name sql Hin. inversion Hin.
  - destruct (db_query_step acc q) as [rows1 Hstep].
    cbn [foldM].
    assert (exists acc1, db_query fsqrt conn acc q = Ok acc1 /\
              (forall name, name <> fst q -> fst acc1 !! name = fst acc !! name) /\
              (db_durations w (snd q) = [] -> fst acc1 !! fst q = fst acc !! fst q) /\
              (db_durations w (snd q) <> [] ->
                 exists e, fst acc1 !! fst q = Some e /\ db_entry_of fsqrt w (snd q) e) /\
              (forall name e, fst acc1 !! name = Some e ->
                 fst acc !! name = Some e \/ (name = fst q /\ db_entry_of fsqrt w (snd q) e)))
      as (acc1 & Hq & Hother & Hnil & Hcons & Hfrom).
    { destruct (db_durations w (snd q)) as [|d ds] eqn:E.
      - eexists. split; [exact Hstep|]. cbn [fst].
        repeat split; auto. congruence.
      - destruct Hstep as (e & He & Hstep).
        eexists. split; [exact Hstep|]. cbn [fst].
        assert (db_entry_of fsqrt w (snd q) e) as Hof.
        { split; [congruence|]. exists rows1. rewrite E. exact He. }
        split; [intros name Hne; apply lookup_insert_ne; congruence|].
        split; [congruence|].
        split; [intros _; exists e; split; [apply lookup_insert_eq | exact Hof]|].
        intros name e' Hl. destruct (decide (fst q = name)) as [<-|Hne].
        + rewrite lookup_insert_eq in Hl. right. split; congruence.
        + rewrite lookup_insert_ne in Hl by assumption. left; assumption. }
    rewrite Hq. cbn [bind].
    destruct (IH acc1) as (acc' & Hfold & Hout & Hin & Hsrc).
    exists acc'. split; [exact Hfold|]. split; [|split].
    + intros name Hnot. rewrite fmap_cons in Hnot.
      apply not_elem_of_cons in Hnot as [Hne Hnot].
      rewrite Hout by assumption. apply Hother; assumption.
    + intros Hnd name sql Hmem. rewrite fmap_cons in Hnd.
      apply NoDup_cons in Hnd as [Hfresh Hnd].
      apply elem_of_cons in Hmem as [Heq|Hmem].
      * subst q. cbn [fst snd] in *. rewrite (Hout name) by assumption.
        split; assumption.
      * assert (name <> fst q) as Hne.
        { intros ->. apply Hfresh. apply list_elem_of_fmap.
          exists (fst q, sql). split; [reflexivity | assumption]. }
        destruct (Hin Hnd name sql Hmem) as [H1 H2].
        split; [|exact H2]. intros E. rewrite (H1 E). apply Hother; assumption.
    + intros name e Hl. destruct (Hsrc name e Hl) as [Hl1|(sql & Hmem & Hof)].
      * destruct (Hfrom name e Hl1) as [?|[-> Hof]]; [left; assumption|].
        right. exists (snd q). split; [|assumption].
        destruct q; apply list_elem_of_here.
      * right. exists sql. split; [|assumption]. apply list_elem_of_further; assumption.
Qed.

Lemma queries_NoDup : NoDup queries.*1.
Proof. apply (bool_decide_unpack (NoDup queries.*1)). vm_compute. exact I. Qed.

(** The database benchmark returns, and what it stores under each name. *)
Lemma db_results_spec :
  exists res,
    benchmark_database_performance fsqrt w = Ok res /\
    (forall name sql, (name, sql) ∈ queries ->
       (db_durations w sql = [] -> res !! name = None) /\
       (db_durations w sql <> [] ->
          exists e, res !! name = Some e /\ db_entry_of fsqrt w sql e)) /\
    (forall name e, res !! name = Some e ->
       exists sql, (name, sql) ∈ queries /\ db_entry_of fsqrt w sql e).
Proof.
  unfold benchmark_database_performance. rewrite Hconn. cbn [bind].
  destruct (db_fold queries (∅, None)) as (acc' & Hfold & _ & Hin & Hsrc).
  rewrite Hfold. cbn [bind]. exists (fst acc'). split; [reflexivity|]. split.
  - intros name sql Hmem. destruct (Hin queries_NoDup name sql Hmem) as [H1 H2].
    split; [|exact H2]. intros E. rewrite (H1 E). apply lookup_empty.
  - intros name e Hl. destruct (Hsrc name e Hl) as [Hl0|H]; [|exact H].
    cbn [fst] in Hl0. rewrite lookup_empty in Hl0. discriminate.
Qed.

End DbLemmas.

Lemma bind_Ok {A B : Type} (r : result A) (k : A -> result B) (b : B) :
  bind r k = Ok b -> exists a, r = Ok a /\ k a = Ok b.
Proof. destruct r as [a|e]; simpl; [eauto | discriminate]. Qed.

Lemma db_entry_inv (fsqrt : Q -> Q) (ds : list Q) (count : nat)
    (rows : option nat) (e : DbStats) :
  db_entry fsqrt ds count rows = Ok e ->
  statistics.mean ds = Ok (db_average_ms e) /\
  statistics.median ds = Ok (db_median_ms e) /\
  py_min ds = Ok (db_min_ms e) /\
  py_max ds = Ok (db_max_ms e) /\
  (if Nat.ltb 1 (length ds) then statistics.stdev fsqrt ds else Ok 0%Q)
    = Ok (db_std_dev_ms e) /\
  db_success_rate e = (of_nat count / 10)%Q.
Proof.
  unfold db_entry. intros H.
  apply bind_Ok in H as (a & Ha & H). apply bind_Ok in H as (m & Hm & H).
  apply bind_Ok in H as (lo & Hlo & H). apply bind_Ok in H as (hi & Hhi & H).
  apply bind_Ok in H as (sd & Hsd & H). injection H as <-. cbn.
  repeat split; assumption.
Qed.

Lemma mean_singleton (d : Q) : exists a, statistics.mean [d] = Ok a /\ (a == d)%Q.
Proof.
  eexists. split; [reflexivity|]. unfold len, py_sum. cbn. field.
Qed.

Lemma of_nat_le (n m : nat) : (n <= m)%nat -> (of_nat n <= of_nat m)%Q.
Proof. intros H. unfold of_nat. rewrite <- Zle_Qle. lia. Qed.

Lemma success_rate_range (n : nat) :
  (1 <= n <= 10)%nat -> within (1 # 10) 1 (of_nat n / 10).
Proof.
  intros [H1 H2]. apply of_nat_le in H1, H2.
  change (of_nat 1) with 1%Q in H1. change (of_nat 10) with 10%Q in H2.
  split.
  - apply Qle_shift_div_l; lra.
  - apply Qle_shift_div_r; lra.
Qed.

Lemma nonempty_length (ds : list Q) : ds <> [] -> (1 <= length ds)%nat.
Proof. destruct ds; [congruence | simpl; lia]. Qed.

Lemma stats_within (ds : list Q) (a m lo hi : Q) :
  statistics.mean ds = Ok a -> statistics.median ds = Ok m ->
  py_min ds = Ok lo -> py_max ds = Ok hi ->
  within lo hi m /\ within lo hi a.
Proof.
  intros Ha Hm Hlo Hhi.
  assert (ds <> []) as Hne by (intros ->; discriminate).
  destruct (py_min_spec ds Hne) as (lo' & Hlo' & _ & Hmin).
  destruct (py_max_spec ds Hne) as (hi' & Hhi' & _ & Hmax).
  assert (lo' = lo) as -> by congruence. assert (hi' = hi) as -> by congruence.
  assert (Forall (within lo hi) ds) as HF.
  { rewrite List.Forall_forall in *. intros x Hx. split; auto. }
  destruct (mean_within lo hi ds Hne HF) as (a' & Ha' & Hwa).
  destruct (median_within lo hi ds Hne HF) as (m' & Hm' & Hwm).
  assert (a' = a) as -> by congruence. assert (m' = m) as -> by congruence.
  split; assumption.
Qed.

Lemma db_durations_length (w : World) (sql : string) :
  (length (db_durations w sql) <= 10)%nat.
Proof. apply (db_successes_length w sql (seq 0 10)). Qed.

Lemma db_entry_of_invariants (fsqrt : Q -> Q) (w : World) (sql : string) (e : DbStats) :
  (forall x, 0 <= fsqrt x)%Q -> db_entry_of fsqrt w sql e -> db_invariants e.
Proof.
  intros Hsqrt [Hne [rows He]].
  apply db_entry_inv in He as (Ha & Hm & Hlo & Hhi & Hsd & Hrate).
  destruct (stats_within _ _ _ _ _ Ha Hm Hlo Hhi) as [Hwm Hwa].
  unfold db_invariants. split; [assumption|]. split; [assumption|]. split.
  - destruct (Nat.ltb 1 (length (db_durations w sql))).
    + unfold statistics.stdev in Hsd. apply bind_Ok in Hsd as (v & _ & Hv).
      injection Hv as <-. apply Hsqrt.
    + injection Hsd as <-. lra.
  - rewrite Hrate. apply success_rate_range. split.
    + apply nonempty_length; assumption.
    + apply db_durations_length.
Qed.

(** *** The API benchmark *)

Lemma foldM_invariant {A B : Type} (P : A -> Prop) (f : A -> B -> result A)
    (l : list B) (a : A) :
  P a ->
  (forall a b, P a -> exists a', f a b = Ok a' /\ P a') ->
  exists a', foldM f l a = Ok a' /\ P a'.
Proof.
  intros Ha Hf. revert a Ha. induction l as [|b l IH]; intros a Ha.
  - exists a. split; [reflexivity | assumption].
  - destruct (Hf a b Ha) as (a1 & E & Ha1). cbn [foldM]. rewrite E. cbn [bind].
    apply IH; assumption.
Qed.

Lemma api_successes_length (w : World) (test : ApiTest) (l : list nat) :
  (length (api_successes w test l) <= length l)%nat.
Proof.
  induction l as [|i l IH]; simpl; [lia|].
  rewrite length_app. destruct (api_request w test i) as [t|e]; simpl; lia.
Qed.

Lemma api_attempts_spec (w : World) (test : ApiTest) (l : list nat)
    (durations : list Q) (count : nat) :
  fold_left (api_attempt w test) l (durations, count)
  = (durations ++ api_successes w test l,
     (count + length (api_successes w test l))%nat).
Proof.
  revert durations count.
  induction l as [|i l IH]; intros durations count; simpl.
  - rewrite app_nil_r, Nat.add_0_r. reflexivity.
  - destruct (api_request w test i) as [t|e]; simpl.
    + rewrite IH, <- app_assoc. simpl. f_equal. lia.
    + apply IH.
Qed.

Lemma api_entry_invariants (ds : list Q) :
  ds <> [] -> (length ds <= 10)%nat ->
  exists e, api_entry ds (length ds) = Ok e /\ api_invariants e.
Proof.
  intros Hne Hlen. unfold api_entry.
  destruct (py_min_spec ds Hne) as (lo & Hlo & _ & Hmin).
  destruct (py_max_spec ds Hne) as (hi & Hhi & _ & Hmax).
  assert (Forall (within lo hi) ds) as HF.
  { rewrite List.Forall_forall in *. intros x Hx. split; auto. }
  destruct (mean_within lo hi ds Hne HF) as (a & Ha & Hwa).
  destruct (median_within lo hi ds Hne HF) as (m & Hm & Hwm).
  rewrite Ha, Hm, Hlo, Hhi. cbn [bind]. eexists. split; [reflexivity|].
  unfold api_invariants. cbn. split; [assumption|]. split; [assumption|].
  apply success_rate_range. split; [apply nonempty_length|]; assumption.
Qed.

Lemma api_test_invariant (w : World) (res : gmap string ApiStats) (test : ApiTest) :
  map_Forall (fun _ e => api_invariants e) res ->
  exists res', api_test w res test = Ok res' /\
               map_Forall (fun _ e => api_invariants e) res'.
Proof.
  intros Hres. unfold api_test. rewrite api_attempts_spec. cbn [app Nat.add].
  fold (api_durations w test).
  destruct (api_durations w test) as [|d ds] eqn:E.
  - exists res. split; [reflexivity | assumption].
  - destruct (api_entry_invariants (d :: ds)) as (e & He & Hinv); [congruence| |].
    { rewrite <- E. apply (api_successes_length w test (seq 0 10)). }
    rewrite He. cbn [bind]. eexists. split; [reflexivity|].
    apply map_Forall_insert_2; assumption.
Qed.

Lemma api_results_invariants (w : World) :
  exists res, benchmark_api_performance w = Ok res /\
              map_Forall (fun _ e => api_invariants e) res.
Proof.
  unfold benchmark_api_performance.
  apply (foldM_invariant (map_Forall (fun _ e => api_invariants e))).
  - apply map_Forall_empty.
  - intros res test. apply api_test_invariant.
Qed.

(** *** Entries of the database and API results *)

Lemma sqrt_floor_nonneg (x : Q) : (0 <= sqrt_floor x)%Q.
Proof.
  unfold sqrt_floor, Qle. cbn. rewrite Z.mul_1_r. apply Z.sqrt_nonneg.
Qed.

Lemma all_raise_no_durations (w : World) (sql : string) :
  (forall i, (i < 10)%nat -> raises (db_execute w sql i)) ->
  db_durations w sql = [].
Proof.
  intros H. unfold db_durations.
  assert (forall l, Forall (fun i => (i < 10)%nat) l -> db_successes w sql l = []) as Hl.
  { induction 1 as [|i l Hi _ IH]; [reflexivity|]. cbn.
    specialize (H i Hi). destruct (db_execute w sql i) as [[t n]|e]; [destruct H|].
    exact IH. }
  apply Hl. apply List.Forall_forall. intros i Hi. apply in_seq in Hi. lia.
Qed.

(** C3 as stated fails: in [flaky_world] every repetition of the query
    [index_test] fails, and the results hold no entry for it, so none with
    a success rate of 0 either. *)
Lemma all_failed_query_not_recorded :
  (forall i, (i < 10)%nat -> raises (db_execute flaky_world index_test_sql i)) /\
  benchmark_database_performance sqrt_floor flaky_world = Ok flaky_db_results /\
  flaky_db_results !! "index_test" = None /\
  ~ (exists e, flaky_db_results !! "index_test" = Some e /\
               (db_success_rate e == 0)%Q).
Proof.
  split; [intros i _; vm_compute; exact I|].
  split; [vm_compute; reflexivity|].
  assert (flaky_db_results !! "index_test" = None) as E by (vm_compute; reflexivity).
  split; [exact E|]. intros (e & He & _). rewrite E in He. discriminate.
Qed.

Lemma flaky_connected :
  sqlite_connect flaky_world "benchmark_database_performance"
  = Ok {| execute := flaky_db |}.
Proof. reflexivity. Qed.

(** C9: an entry of the database results reports, for the successful
    durations [ds] of its query, with [n] their number and [mean] their
    sum divided by [n], the sample standard deviation
    [sqrt (sum (x - mean)^2 / (n - 1))] when there are at least two of
    them, and 0 otherwise; with exactly one duration [d], the standard
    deviation is 0 and minimum, maximum, mean and median are all [d]. *)
Theorem std_dev_is_sample_stdev (fsqrt : Q -> Q) (w : World)
    (res : gmap string DbStats) (name : string) (e : DbStats) :
  benchmark_database_performance fsqrt w = Ok res ->
  res !! name = Some e ->
  exists sql, (name, sql) ∈ queries /\
    let ds := db_durations w sql in
    let n := inject_Z (Z.of_nat (length ds)) in
    let mean := (fold_right Qplus 0 ds / n)%Q in
    ((2 <= length ds)%nat ->
       db_std_dev_ms e
       = fsqrt (fold_right Qplus 0
                  (map (fun x => (x - mean) * (x - mean)) ds) / (n - 1))%Q) /\
    ((length ds < 2)%nat -> db_std_dev_ms e = 0%Q) /\
    (forall d, ds = [d] ->
       db_std_dev_ms e = 0%Q /\
       (db_min_ms e == d /\ db_max_ms e == d /\
        db_average_ms e == d /\ db_median_ms e == d)%Q).
Proof.
  intros Hres Hl.
  destruct (db_benchmark_connected fsqrt w res Hres) as [conn Hconn].
  destruct (db_results_spec fsqrt w conn Hconn) as (res' & Hres' & _ & Hsrc).
  assert (res' = res) as -> by congruence.
  destruct (Hsrc name e Hl) as (sql & Hq & Hne & rows & He).
  exists sql. split; [exact Hq|]. cbn zeta.
  apply db_entry_inv in He as (Ha & Hm & Hlo & Hhi & Hsd & _).
  split; [|split].
  - intros H2. destruct (Nat.ltb_spec 1 (length (db_durations w sql))) as [_|?]; [|lia].
    unfold statistics.stdev, statistics.variance in Hsd.
    destruct (Nat.ltb_spec (length (db_durations w sql)) 2) as [?|_]; [lia|].
    rewrite mean_ok in Hsd by exact Hne. cbn [bind] in Hsd.
    injection Hsd as <-. reflexivity.
  - intros H1. destruct (Nat.ltb_spec 1 (length (db_durations w sql))) as [?|_]; [lia|].
    injection Hsd as <-. reflexivity.
  - intros d Hd. rewrite Hd in *. cbn in Hsd, Hlo, Hhi, Hm.
    injection Hsd as <-. injection Hlo as <-. injection Hhi as <-.
    injection Hm as <-. split; [reflexivity|].
    repeat split; try reflexivity.
    destruct (mean_singleton d) as (a & Ha' & Heq).
    assert (a = db_average_ms e) as <- by congruence. exact Heq.
Qed.

(** In [flaky_world] the first query has the ten durations 1, 2, ..., 10
    ms, of sample variance 55/6, and the count query a single one. *)
Lemma std_dev_is_sample_stdev_witness :
  exists res e e1,
    benchmark_database_performance sqrt_floor flaky_world = Ok res /\
    res !! "select_all_draws" = Some e /\
    res !! "count_query" = Some e1 /\
    length (db_durations flaky_world select_all_draws_sql) = 10%nat /\
    (exists v, (v == 55 # 6)%Q /\ db_std_dev_ms e = sqrt_floor v) /\
    length (db_durations flaky_world count_query_sql) = 1%nat /\
    db_std_dev_ms e1 = 0%Q.
Proof.
  destruct (db_results_spec sqrt_floor flaky_world _ flaky_connected)
    as (res & H1 & Hin & _).
  destruct (Hin "select_all_draws" select_all_draws_sql) as [_ Hsome].
  { apply list_elem_of_In. vm_compute. tauto. }
  destruct Hsome as (e & H2 & _); [vm_compute; discriminate|].
  destruct (Hin "count_query" count_query_sql) as [_ Hsome1].
  { apply list_elem_of_In. vm_compute. tauto. }
  destruct Hsome1 as (e1 & H3 & _); [vm_compute; discriminate|].
  exists res, e, e1.
  split; [exact H1|]. split; [exact H2|]. split; [exact H3|].
  split; [vm_compute; reflexivity|].
  assert (forall name sql sql', (name, sql) ∈ queries -> (name, sql') ∈ queries ->
            sql = sql') as Hfun.
  { intros name sql sql' Ha Hb. unfold queries in *.
    repeat (apply elem_of_cons in Ha as [Ha|Ha];
            [injection Ha as -> ->;
             repeat (apply elem_of_cons in Hb as [Hb|Hb];
                     [first [discriminate Hb | injection Hb as <-; reflexivity]|]);
             inversion Hb|]).
    inversion Ha. }
  split; [|split; [vm_compute; reflexivity|]].
  - destruct (std_dev_is_sample_stdev sqrt_floor flaky_world res
                "select_all_draws" e H1 H2) as (sql & Hq & Htwo & _).
    assert (sql = select_all_draws_sql) as ->.
    { apply (Hfun "select_all_draws"); [exact Hq|].
      apply list_elem_of_In. vm_compute. tauto. }
    eexists. split; [|apply Htwo; vm_compute; lia]. vm_compute. reflexivity.
  - destruct (std_dev_is_sample_stdev sqrt_floor flaky_world res
                "count_query" e1 H1 H3) as (sql & Hq & _ & Hone & _).
    assert (sql = count_query_sql) as ->.
    { apply (Hfun "count_query"); [exact Hq|].
      apply list_elem_of_In. vm_compute. tauto. }
    apply Hone. vm_compute. lia.
Defined.

Lemma api_entry_dict_no_std_dev (e : ApiStats) :
  api_entry_dict e !! "std_dev_ms" = None.
Proof. reflexivity. Qed.

(** C10, as the code has it: every entry the database benchmark returns
    and every entry of the API benchmark, which always returns, has
    [min <= median <= max], [min <= average <= max] and a success rate
    between 1/10 and 1; a database entry has a standard deviation, which
    is not negative, and an API entry has no [std_dev_ms] at all.  The
    database benchmark returns whenever its connection opens. *)
Theorem emitted_entries_invariants (fsqrt : Q -> Q) (w : World) :
  (forall x, 0 <= fsqrt x)%Q ->
  (forall res, benchmark_database_performance fsqrt w = Ok res ->
     map_Forall (fun _ e => db_invariants e /\
                   db_entry_dict e !! "std_dev_ms" = Some (db_std_dev_ms e)) res) /\
  (forall conn, sqlite_connect w "benchmark_database_performance" = Ok conn ->
     exists res, benchmark_database_performance fsqrt w = Ok res) /\
  (exists res, benchmark_api_performance w = Ok res /\
     map_Forall (fun _ e => api_invariants e /\
                   api_entry_dict e !! "std_dev_ms" = None) res).
Proof.
  intros Hsqrt. split; [|split].
  - intros res Hres.
    destruct (db_benchmark_connected fsqrt w res Hres) as [conn Hconn].
    destruct (db_results_spec fsqrt w conn Hconn) as (res' & Hres' & _ & Hsrc).
    assert (res' = res) as -> by congruence.
    intros name e Hl. destruct (Hsrc name e Hl) as (sql & _ & Hof).
    split; [eapply db_entry_of_invariants; eassumption | reflexivity].
  - intros conn Hconn.
    destruct (db_results_spec fsqrt w conn Hconn) as (res & Hres & _). eauto.
  - destruct (api_results_invariants w) as (res & Hres & Hinv).
    exists res. split; [exact Hres|]. intros endpoint e Hl.
    split; [exact (Hinv endpoint e Hl) | apply api_entry_dict_no_std_dev].
Qed.

Lemma emitted_entries_invariants_witness :
  (forall x, 0 <= sqrt_floor x)%Q /\
  (forall res, benchmark_database_performance sqrt_floor flaky_world = Ok res ->
     map_Forall (fun _ e => db_invariants e /\
                   db_entry_dict e !! "std_dev_ms" = Some (db_std_dev_ms e)) res) /\
  (forall conn,
     sqlite_connect flaky_world "benchmark_database_performance" = Ok conn ->
     exists res, benchmark_database_performance sqrt_floor flaky_world = Ok res) /\
  (exists res, benchmark_api_performance flaky_world = Ok res /\
     map_Forall (fun _ e => api_invariants e /\
                   api_entry_dict e !! "std_dev_ms" = None) res).
Proof.
  split; [exact sqrt_floor_nonneg|].
  exact (emitted_entries_invariants sqrt_floor flaky_world sqrt_floor_nonneg).
Defined.

(** C10 as stated fails for the API entries: the entry the API benchmark
    stores for [/api/lottery/draws] in [calm_world] has no [std_dev_ms],
    so none that is at least 0. *)
Lemma api_entry_without_std_dev :
  exists res e,
    benchmark_api_performance calm_world = Ok res /\
    res !! "/api/lottery/draws" = Some e /\
    api_entry_dict e !! "std_dev_ms" = None /\
    ~ (exists s, api_entry_dict e !! "std_dev_ms" = Some s /\ (0 <= s)%Q).
Proof.
  destruct (api_results_invariants calm_world) as (res & Hres & _).
  assert (exists e,
            match benchmark_api_performance calm_world with
            | Ok r => r !! "/api/lottery/draws"
            | Raise _ => None
            end = Some e) as [e He] by (vm_compute; eexists; reflexivity).
  rewrite Hres in He. exists res, e.
  split; [exact Hres|]. split; [exact He|].
  split; [reflexivity|]. intros (s & Hs & _). discriminate Hs.
Qed.

(** *** The load benchmark *)

Lemma session_step_ok (u : unit) (action : string * Q) :
  session_step u action = Ok tt.
Proof. reflexivity. Qed.

Lemma simulate_user_session_returns (w : World) (users k : nat) :
  simulate_user_session w users k = Ok (elapsed_ms (session_clock w users k)).
Proof. reflexivity. Qed.

Lemma level_sessions_values (w : World) (users : nat) :
  level_sessions w users
  = map (fun k => Value (elapsed_ms (session_clock w users k))) (seq 0 users).
Proof.
  unfold level_sessions, gather. rewrite map_map. apply map_ext.
  intros k. rewrite simulate_user_session_returns. reflexivity.
Qed.

Lemma count_successful_values (f : nat -> Q) (l : list nat) :
  count_successful (map (fun k => Value (f k)) l) = length l.
Proof.
  unfold count_successful. induction l as [|k l IH]; simpl; congruence.
Qed.

Lemma session_times_values (f : nat -> Q) (l : list nat) :
  session_times_of (map (fun k => Value (f k)) l) = map f l.
Proof.
  unfold session_times_of. induction l as [|k l IH]; simpl; congruence.
Qed.

Lemma count_successful_level (w : World) (users : nat) :
  count_successful (level_sessions w users) = users.
Proof.
  rewrite level_sessions_values, count_successful_values. apply length_seq.
Qed.

Lemma of_nat_nonzero (n : nat) : n <> 0%nat -> Qeq_bool (of_nat n) 0 = false.
Proof.
  intros H. destruct (Qeq_bool (of_nat n) 0) eqn:E; [|reflexivity].
  apply Qeq_bool_iff in E. unfold of_nat, Qeq in E. cbn in E. lia.
Qed.

Lemma pydiv_self (n : nat) :
  n <> 0%nat -> exists r, pydiv (of_nat n) (of_nat n) = Ok r /\ (r == 1)%Q.
Proof.
  intros H. unfold pydiv. rewrite (of_nat_nonzero n H).
  eexists. split; [reflexivity|]. field.
  intros E. apply Qeq_bool_iff in E. rewrite (of_nat_nonzero n H) in E. discriminate.
Qed.

Lemma pydiv_zero (a b : Q) : (b == 0)%Q -> pydiv a b = Raise ZeroDivisionError.
Proof.
  intros H. unfold pydiv. apply Qeq_bool_iff in H. rewrite H. reflexivity.
Qed.

Lemma pydiv_nonzero (a b : Q) : ~ (b == 0)%Q -> pydiv a b = Ok (a / b)%Q.
Proof.
  intros H. unfold pydiv. destruct (Qeq_bool b 0) eqn:E; [|reflexivity].
  apply Qeq_bool_iff in E. contradiction.
Qed.








Lemma all_steps_succeed : forallb step_succeeded actions = true.
Proof. reflexivity. Qed.




(** *** The orchestrated run *)

Lemma collect_system_metrics_spec (w : World) (duration : Q) (st : Run) :
  collect_system_metrics w duration st
  = {| self := {| results := results (self st);
                  metrics_history :=
                    metrics_history (self st)
                    ++ snapshots_of (sampler_reads w duration) |};
       trace := trace st ++ map Sampled (snapshots_of (sampler_reads w duration)) |}.
Proof.
  unfold collect_system_metrics. generalize (sampler_reads w duration) as reads.
  intros reads. revert st. induction reads as [|r reads IH]; intros st.
  - destruct st as [[rs mh] tr]. cbn. rewrite !app_nil_r. reflexivity.
  - cbn [fold_left]. rewrite IH. destruct r as [reading|e]; cbn.
    + rewrite <- !app_assoc. reflexivity.
    + reflexivity.
Qed.

Lemma warm_up_returns (w : World) : warm_up_application w = Ok tt.
Proof.
  unfold warm_up_application.
  match goal with |- try_except ?r _ = _ => destruct r as [[]|e] end; reflexivity.
Qed.

(** The run, with the bookkeeping of the trace carried out. *)
Lemma run_unfold (fsqrt : Q -> Q) (w : World) (st : Run) :
  run_comprehensive_benchmark fsqrt w st
  = (let* db_results := benchmark_database_performance fsqrt w in
     let* api_results := benchmark_api_performance w in
     let* cache_results := benchmark_cache_performance w in
     let* load_results := benchmark_load_performance w in
     let st1 := collect_system_metrics w 60
                  {| self := self st;
                     trace := trace st ++ category_trace
                              ++ [Enter "collect_system_metrics"] |} in
     let* the_summary := generate_summary (self st1) in
     let* the_recommendations := generate_recommendations (self st1) in
     Ok ({| report_timestamp := now w;
            database_performance := db_results;
            api_performance := api_results;
            cache_performance := cache_results;
            load_performance := load_results;
            system_metrics := metrics_history (self st1);
            summary := the_summary;
            recommendations := the_recommendations |},
         {| self := self st1;
            trace := trace st1 ++ [Leave "collect_system_metrics"] |})).
Proof.
  unfold run_comprehensive_benchmark, await, mbind, lift, emit, ret, get_self.
  rewrite warm_up_returns. cbn [bind fst snd self trace].
  destruct (benchmark_database_performance fsqrt w) as [db|e]; [|reflexivity].
  cbn [bind fst snd self trace].
  destruct (benchmark_api_performance w) as [api|e]; [|reflexivity].
  cbn [bind fst snd self trace].
  destruct (benchmark_cache_performance w) as [cache|e]; [|reflexivity].
  cbn [bind fst snd self trace].
  destruct (benchmark_load_performance w) as [load|e]; [|reflexivity].
  cbn [bind fst snd self trace].
  unfold category_trace. rewrite <- !app_assoc. cbn [app].
  destruct (generate_summary _) as [s|e]; [|reflexivity].
  cbn [bind fst snd self trace].
  destruct (generate_recommendations _) as [recs|e]; reflexivity.
Qed.

Lemma main_run_inv (fsqrt : Q -> Q) (w : World) (r : Report) (st : Run) :
  main_run fsqrt w = Ok (r, st) ->
  let ms := snapshots_of (sampler_reads w 60) in
  self st = {| results := []; metrics_history := ms |} /\
  trace st = category_trace ++ [Enter "collect_system_metrics"]
             ++ map Sampled ms ++ [Leave "collect_system_metrics"] /\
  system_metrics r = ms /\
  generate_summary {| results := []; metrics_history := ms |} = Ok (summary r) /\
  benchmark_database_performance fsqrt w = Ok (database_performance r) /\
  benchmark_api_performance w = Ok (api_performance r).
Proof.
  unfold main_run. rewrite run_unfold. intros H.
  apply bind_Ok in H as (db & Hdb & H). apply bind_Ok in H as (api & Hapi & H).
  apply bind_Ok in H as (cache & _ & H). apply bind_Ok in H as (load & _ & H).
  cbn zeta in H. rewrite collect_system_metrics_spec in H.
  cbn [self trace results metrics_history init app] in H.
  apply bind_Ok in H as (s & Hs & H). apply bind_Ok in H as (recs & _ & H).
  injection H as <- <-. cbn.
  repeat split; try assumption.
Qed.

(** C4, where the code departs from it: no benchmark appends to
    [self.results], so the summary of every completed run is the empty
    dictionary, whatever was measured; it holds no count and no duration
    statistic. *)
Theorem run_summary_is_empty (fsqrt : Q -> Q) (w : World) (r : Report) (st : Run) :
  main_run fsqrt w = Ok (r, st) ->
  summary r = ∅ /\ results (self st) = [].
Proof.
  intros H. destruct (main_run_inv fsqrt w r st H) as (Hself & _ & _ & Hs & _).
  cbn in Hs. split; [congruence|]. rewrite Hself. reflexivity.
Qed.

(** In [calm_world] every measured operation succeeds; the report has the
    database entries and an empty summary. *)
Lemma run_summary_is_empty_witness :
  exists r st,
    main_run sqrt_floor calm_world = Ok (r, st) /\
    (summary r = ∅ /\ results (self st) = []) /\
    summary r !! "total_tests" = None /\
    is_Some (database_performance r !! "count_query").
Proof.
  destruct (main_run sqrt_floor calm_world) as [[r st]|e] eqn:E.
  - exists r, st. split; [reflexivity|].
    pose proof (run_summary_is_empty sqrt_floor calm_world r st E) as H.
    split; [exact H|]. split.
    + destruct H as [-> _]. reflexivity.
    + vm_compute in E. injection E as <- _. vm_compute. eauto.
  - vm_compute in E. discriminate.
Defined.

(** C8, where the code departs from it: the sampler is awaited after the
    load benchmark has returned.  The trace of a completed run is the
    trace of the categories, without a snapshot, followed by the
    sampling: every snapshot of the report is taken in that last phase. *)
Theorem sampling_follows_categories (fsqrt : Q -> Q) (w : World)
    (r : Report) (st : Run) :
  main_run fsqrt w = Ok (r, st) ->
  trace st = category_trace
             ++ [Enter "collect_system_metrics"]
             ++ map Sampled (system_metrics r)
             ++ [Leave "collect_system_metrics"] /\
  system_metrics r = snapshots_of (sampler_reads w 60).
Proof.
  intros H. destruct (main_run_inv fsqrt w r st H) as (_ & Htr & Hms & _).
  cbn zeta in *. rewrite Hms. split; [exact Htr | reflexivity].
Qed.

Lemma sampling_follows_categories_witness :
  exists r st,
    main_run sqrt_floor calm_world = Ok (r, st) /\
    (trace st = category_trace
                ++ [Enter "collect_system_metrics"]
                ++ map Sampled (system_metrics r)
                ++ [Leave "collect_system_metrics"] /\
     system_metrics r = snapshots_of (sampler_reads calm_world 60)) /\
    length (system_metrics r) = 2%nat.
Proof.
  destruct (main_run sqrt_floor calm_world) as [[r st]|e] eqn:E.
  - exists r, st. split; [reflexivity|].
    pose proof (sampling_follows_categories sqrt_floor calm_world r st E) as H.
    split; [exact H|]. destruct H as [_ ->]. reflexivity.
  - vm_compute in E. discriminate.
Defined.

(** *** The comparison with a baseline *)

Lemma flag_regression_spec (metric : string) (change : Q) (c : Comparison) :
  flag_regression metric change c
  = {| cmp_timestamp := cmp_timestamp c;
       cmp_baseline_timestamp := cmp_baseline_timestamp c;
       performance_changes := performance_changes c;
       regressions_detected := regressions_detected c ++ regression_of metric change;
       improvements_detected := improvements_detected c |}.
Proof.
  unfold flag_regression, regression_of, higher_is_worse, add_regression.
  destruct c as [t bt pc rs ims]. cbn [cmp_timestamp cmp_baseline_timestamp
    performance_changes regressions_detected improvements_detected].
  destruct (Qltb 10 change); cbn [andb]; [|rewrite app_nil_r; reflexivity].
  destruct (member metric _); [reflexivity | rewrite app_nil_r; reflexivity].
Qed.

Lemma flag_improvement_spec (metric : string) (change : Q) (c : Comparison) :
  flag_improvement metric change c
  = {| cmp_timestamp := cmp_timestamp c;
       cmp_baseline_timestamp := cmp_baseline_timestamp c;
       performance_changes := performance_changes c;
       regressions_detected := regressions_detected c;
       improvements_detected := improvements_detected c ++ improvement_of metric change |}.
Proof.
  unfold flag_improvement, improvement_of, add_improvement.
  destruct c as [t bt pc rs ims]. cbn [cmp_timestamp cmp_baseline_timestamp
    performance_changes regressions_detected improvements_detected].
  destruct (Qltb change (-10)); cbn [andb]; [|rewrite app_nil_r; reflexivity].
  destruct (member metric _ || _); [reflexivity | rewrite app_nil_r; reflexivity].
Qed.

(** One step of the comparison never raises: the division is guarded. *)
Lemma compare_metric_spec (cs bs : gmap string Q) (c : Comparison) (metric : string) :
  compare_metric cs bs c metric
  = Ok {| cmp_timestamp := cmp_timestamp c;
          cmp_baseline_timestamp := cmp_baseline_timestamp c;
          performance_changes :=
            match metric_change cs bs metric with
            | Some ch => <[metric := ch]> (performance_changes c)
            | None => performance_changes c
            end;
          regressions_detected :=
            regressions_detected c ++ metric_regressions cs bs metric;
          improvements_detected :=
            improvements_detected c ++ metric_improvements cs bs metric |}.
Proof.
  unfold compare_metric, metric_regressions, metric_improvements, metric_change.
  destruct (Qltb 0 (default 0%Q (bs !! metric))) eqn:E.
  - apply Qltb_lt in E. rewrite pydiv_nonzero by lra. cbn [bind].
    rewrite flag_improvement_spec, flag_regression_spec.
    destruct c; reflexivity.
  - destruct c; cbn. rewrite !app_nil_r. reflexivity.
Qed.

Lemma compare_fold (cs bs : gmap string Q) (l : list string) (c : Comparison) :
  exists c',
    foldM (compare_metric cs bs) l c = Ok c' /\
    (forall m, performance_changes c' !! m
               = match metric_change cs bs m with
                 | Some ch => if bool_decide (m ∈ l) then Some ch
                              else performance_changes c !! m
                 | None => performance_changes c !! m
                 end) /\
    regressions_detected c'
    = regressions_detected c ++ flat_map (metric_regressions cs bs) l /\
    improvements_detected c'
    = improvements_detected c ++ flat_map (metric_improvements cs bs) l.
Proof.
  revert c. induction l as [|x l IH]; intros c.
  - exists c. split; [reflexivity|]. split.
    + intros m. destruct (metric_change cs bs m); reflexivity.
    + cbn. rewrite !app_nil_r. split; reflexivity.
  - cbn [foldM]. rewrite compare_metric_spec. cbn [bind].
    destruct (IH {| cmp_timestamp := cmp_timestamp c;
                    cmp_baseline_timestamp := cmp_baseline_timestamp c;
                    performance_changes :=
                      match metric_change cs bs x with
                      | Some ch => <[x := ch]> (performance_changes c)
                      | None => performance_changes c
                      end;
                    regressions_detected :=
                      regressions_detected c ++ metric_regressions cs bs x;
                    improvements_detected :=
                      improvements_detected c ++ metric_improvements cs bs x |})
      as (c' & Hfold & Hpc & Hrs & His).
    exists c'. split; [exact Hfold|]. cbn in Hpc, Hrs, His. split; [|split].
    + intros m. rewrite Hpc. destruct (metric_change cs bs m) as [ch|] eqn:Em.
      * destruct (decide (m = x)) as [->|Hne].
        -- rewrite Em, lookup_insert_eq.
           rewrite (bool_decide_eq_true_2 (x ∈ x :: l)) by apply list_elem_of_here.
           destruct (bool_decide (x ∈ l)); reflexivity.
        -- destruct (bool_decide (m ∈ l)) eqn:El.
           ++ apply bool_decide_eq_true in El.
              rewrite bool_decide_eq_true_2 by (apply list_elem_of_further; exact El).
              reflexivity.
           ++ apply bool_decide_eq_false in El.
              rewrite bool_decide_eq_false_2
                by (intros H; apply elem_of_cons in H as [?|?]; contradiction).
              destruct (metric_change cs bs x);
                [apply lookup_insert_ne; congruence | reflexivity].
      * destruct (decide (m = x)) as [->|Hne].
        -- rewrite Em. reflexivity.
        -- destruct (metric_change cs bs x);
             [apply lookup_insert_ne; congruence | reflexivity].
    + rewrite Hrs, <- app_assoc. reflexivity.
    + rewrite His, <- app_assoc. reflexivity.
Qed.

Lemma median_ok (xs : list Q) : xs <> [] -> exists m, statistics.median xs = Ok m.
Proof.
  intros Hne.
  destruct (py_min_spec xs Hne) as (lo & _ & _ & Hlo).
  destruct (py_max_spec xs Hne) as (hi & _ & _ & Hhi).
  assert (Forall (within lo hi) xs) as HF.
  { rewrite List.Forall_forall in *. intros x Hx. split; auto. }
  destruct (median_within lo hi xs Hne HF) as (m & Hm & _). eauto.
Qed.

Lemma or_zero_ok (f : list Q -> result Q) (xs : list Q) :
  (xs <> [] -> exists a, f xs = Ok a) -> exists a, or_zero f xs = Ok a.
Proof.
  intros H. destruct xs as [|x xs]; [cbn; eauto|]. apply H. congruence.
Qed.

Lemma py_max_ok (xs : list Q) : xs <> [] -> exists a, py_max xs = Ok a.
Proof. intros H. destruct (py_max_spec xs H) as (a & Ha & _). eauto. Qed.

Lemma py_min_ok (xs : list Q) : xs <> [] -> exists a, py_min xs = Ok a.
Proof. intros H. destruct (py_min_spec xs H) as (a & Ha & _). eauto. Qed.

Lemma mean_returns (xs : list Q) : xs <> [] -> exists a, statistics.mean xs = Ok a.
Proof. intros H. rewrite mean_ok by assumption. eauto. Qed.

(** The summary never raises. *)
Lemma generate_summary_ok (b : PerformanceBenchmark) :
  exists s, generate_summary b = Ok s.
Proof.
  unfold generate_summary. destruct (results b) as [|r rs] eqn:Er; [eauto|].
  rewrite pydiv_nonzero.
  2:{ intros E. apply Qeq_bool_iff in E.
      rewrite (of_nat_nonzero (length (r :: rs))) in E by (simpl; lia).
      discriminate. }
  cbn [bind].
  destruct (or_zero_ok statistics.mean (successful_durations (r :: rs))
              (mean_returns _)) as [a ->].
  destruct (or_zero_ok statistics.median (successful_durations (r :: rs))
              (median_ok _)) as [m ->].
  destruct (or_zero_ok py_max (successful_durations (r :: rs)) (py_max_ok _))
    as [hi ->].
  destruct (or_zero_ok py_min (successful_durations (r :: rs)) (py_min_ok _))
    as [lo ->].
  cbn [bind]. destruct (metrics_history b) as [|x xs]; [eauto|].
  rewrite !mean_ok by (cbn; congruence). cbn [bind].
  destruct (py_max_ok (map cpu_percent (x :: xs))) as [c1 ->]; [cbn; congruence|].
  destruct (py_max_ok (map memory_percent (x :: xs))) as [c2 ->]; [cbn; congruence|].
  destruct (py_max_ok (map memory_mb (x :: xs))) as [c3 ->]; [cbn; congruence|].
  cbn [bind]. eauto.
Qed.

(** The comparison with a loaded baseline returns a comparison, and what
    it holds. *)
Lemma compare_with_baseline_spec (w : World) (b : PerformanceBenchmark)
    (baseline : Baseline) :
  let bs := default ∅ (baseline_summary_field baseline) in
  exists cs c,
    generate_summary b = Ok cs /\
    compare_with_baseline w b (Ok baseline) = Compared c /\
    (forall m, performance_changes c !! m
               = match metric_change cs bs m with
                 | Some ch => if bool_decide (m ∈ metrics_to_compare)
                              then Some ch else None
                 | None => None
                 end) /\
    regressions_detected c = flat_map (metric_regressions cs bs) metrics_to_compare /\
    improvements_detected c = flat_map (metric_improvements cs bs) metrics_to_compare.
Proof.
  intros bs. destruct (generate_summary_ok b) as [cs Hcs].
  unfold compare_with_baseline, compare_summaries. cbn [bind]. rewrite Hcs.
  cbn [bind]. fold bs.
  destruct (compare_fold cs bs metrics_to_compare
              {| cmp_timestamp := now w;
                 cmp_baseline_timestamp := baseline_timestamp_field baseline;
                 performance_changes := ∅;
                 regressions_detected := [];
                 improvements_detected := [] |})
    as (c & Hfold & Hpc & Hrs & His).
  exists cs, c. rewrite Hfold. split; [reflexivity|]. split; [reflexivity|].
  cbn in Hpc, Hrs, His. split; [|split; assumption].
  intros m. rewrite Hpc, lookup_empty. reflexivity.
Qed.

Lemma regression_of_metric (metric : string) (change : Q) :
  Forall (fun r => reg_metric r = metric) (regression_of metric change).
Proof.
  unfold regression_of. destruct (_ && _); repeat constructor.
Qed.

Lemma improvement_of_metric (metric : string) (change : Q) :
  Forall (fun i => imp_metric i = metric) (improvement_of metric change).
Proof.
  unfold improvement_of. destruct (_ && _); repeat constructor.
Qed.

(** C6: a metric whose baseline value is 0 has no entry in
    [performance_changes], no regression and no improvement, and the
    comparison returns (it does not end in the error dictionary): no
    division takes place for it. *)
Theorem zero_baseline_metric_is_omitted (w : World) (b : PerformanceBenchmark)
    (baseline : Baseline) (metric : string) :
  (default 0 (default ∅ (baseline_summary_field baseline) !! metric) == 0)%Q ->
  exists c,
    compare_with_baseline w b (Ok baseline) = Compared c /\
    performance_changes c !! metric = None /\
    Forall (fun r => reg_metric r <> metric) (regressions_detected c) /\
    Forall (fun i => imp_metric i <> metric) (improvements_detected c).
Proof.
  intros Hzero.
  destruct (compare_with_baseline_spec w b baseline)
    as (cs & c & _ & Hc & Hpc & Hrs & His).
  set (bs := default ∅ (baseline_summary_field baseline)) in *.
  assert (forall m, is_Some (metric_change cs bs m) -> m <> metric) as Hne.
  { intros m [ch Hch] ->. unfold metric_change in Hch.
    destruct (Qltb 0 (default 0%Q (bs !! metric))) eqn:E; [|discriminate].
    apply Qltb_lt in E. lra. }
  exists c. split; [exact Hc|]. split; [|split].
  - rewrite Hpc. destruct (metric_change cs bs metric) as [ch|] eqn:E; [|reflexivity].
    exfalso. apply (Hne metric); [eauto | reflexivity].
  - rewrite Hrs. apply Forall_flat_map, List.Forall_forall. intros m _.
    unfold metric_regressions.
    destruct (metric_change cs bs m) as [ch|] eqn:E; [|constructor].
    eapply Forall_impl; [apply regression_of_metric|].
    cbn. intros r ->. apply Hne. eauto.
  - rewrite His. apply Forall_flat_map, List.Forall_forall. intros m _.
    unfold metric_improvements.
    destruct (metric_change cs bs m) as [ch|] eqn:E; [|constructor].
    eapply Forall_impl; [apply improvement_of_metric|].
    cbn. intros r ->. apply Hne. eauto.
Qed.

Lemma zero_baseline_metric_is_omitted_witness :
  (default 0 (default ∅ (baseline_summary_field baseline_100)
              !! "average_cpu_percent") == 0)%Q /\
  exists c,
    compare_with_baseline calm_world (bench_with_duration 160) (Ok baseline_100)
    = Compared c /\
    performance_changes c !! "average_cpu_percent" = None /\
    Forall (fun r => reg_metric r <> "average_cpu_percent") (regressions_detected c) /\
    Forall (fun i => imp_metric i <> "average_cpu_percent") (improvements_detected c).
Proof.
  split; [reflexivity|].
  apply (zero_baseline_metric_is_omitted calm_world (bench_with_duration 160)
           baseline_100 "average_cpu_percent").
  reflexivity.
Defined.

Lemma filter_regression_of (metric m : string) (change : Q) :
  List.filter (fun r => String.eqb (reg_metric r) metric) (regression_of m change)
  = if String.eqb m metric then regression_of m change else [].
Proof.
  unfold regression_of. destruct (_ && _); cbn; destruct (String.eqb m metric);
    reflexivity.
Qed.

Lemma filter_metric_regressions (cs bs : gmap string Q) (metric m : string) :
  List.filter (fun r => String.eqb (reg_metric r) metric) (metric_regressions cs bs m)
  = if String.eqb m metric then metric_regressions cs bs m else [].
Proof.
  unfold metric_regressions. destruct (metric_change cs bs m).
  - apply filter_regression_of.
  - destruct (String.eqb m metric); reflexivity.
Qed.

(** The regressions flagged for one of the higher-is-worse metrics. *)
Lemma own_regressions (cs bs : gmap string Q) (metric : string) :
  metric ∈ higher_is_worse ->
  List.filter (fun r => String.eqb (reg_metric r) metric)
    (flat_map (metric_regressions cs bs) metrics_to_compare)
  = metric_regressions cs bs metric.
Proof.
  intros Hm. unfold metrics_to_compare. cbn [flat_map].
  rewrite !List.filter_app, !filter_metric_regressions.
  unfold higher_is_worse in Hm.
  repeat (apply elem_of_cons in Hm as [->|Hm]);
    [| | | inversion Hm]; cbn; rewrite ?app_nil_r; reflexivity.
Qed.

(** C7: for a higher-is-worse metric with a positive baseline value
    [base] and the current value [cur], the change recorded is
    [(cur - base) / base * 100]; the metric has a regression exactly when
    the change is above 10, of severity high when it is above 50 and
    medium otherwise. *)
Theorem higher_is_worse_regression (w : World) (b : PerformanceBenchmark)
    (baseline : Baseline) (metric : string) (base : Q) :
  metric ∈ higher_is_worse ->
  default ∅ (baseline_summary_field baseline) !! metric = Some base ->
  (0 < base)%Q ->
  exists c cs,
    compare_with_baseline w b (Ok baseline) = Compared c /\
    generate_summary b = Ok cs /\
    let cur := default 0%Q (cs !! metric) in
    let change := ((cur - base) / base * 100)%Q in
    let flagged :=
      List.filter (fun r => String.eqb (reg_metric r) metric)
                  (regressions_detected c) in
    performance_changes c !! metric
    = Some {| ch_baseline := base; ch_current := cur; ch_change_percent := change |} /\
    ((50 < change)%Q ->
       flagged = [{| reg_metric := metric; reg_severity := "high";
                     reg_change_percent := change |}]) /\
    ((10 < change)%Q -> (change <= 50)%Q ->
       flagged = [{| reg_metric := metric; reg_severity := "medium";
                     reg_change_percent := change |}]) /\
    ((change <= 10)%Q -> flagged = []).
Proof.
  intros Hm Hbase Hpos.
  destruct (compare_with_baseline_spec w b baseline)
    as (cs & c & Hcs & Hc & Hpc & Hrs & _).
  set (bs := default ∅ (baseline_summary_field baseline)) in *.
  exists c, cs. split; [exact Hc|]. split; [exact Hcs|]. cbn zeta.
  assert (metric_change cs bs metric
          = Some {| ch_baseline := base;
                    ch_current := default 0%Q (cs !! metric);
                    ch_change_percent :=
                      ((default 0%Q (cs !! metric) - base) / base * 100)%Q |})
    as Hch.
  { unfold metric_change. rewrite Hbase. simpl.
    apply Qltb_lt in Hpos. rewrite Hpos. reflexivity. }
  assert (member metric higher_is_worse = true) as Hmem.
  { unfold higher_is_worse in *.
    repeat (apply elem_of_cons in Hm as [->|Hm]); [| | | inversion Hm]; reflexivity. }
  assert (metric ∈ metrics_to_compare) as Hreq.
  { unfold higher_is_worse, metrics_to_compare in *.
    repeat (apply elem_of_cons in Hm as [->|Hm]); [| | | inversion Hm];
      set_solver. }
  rewrite Hrs, (own_regressions cs bs metric Hm).
  unfold metric_regressions. rewrite Hch. cbn [ch_change_percent].
  unfold regression_of. rewrite Hmem.
  set (change := ((default 0%Q (cs !! metric) - base) / base * 100)%Q).
  split; [|split; [|split]].
  - rewrite Hpc, Hch. rewrite bool_decide_eq_true_2 by exact Hreq. reflexivity.
  - intros H50. assert (10 < change)%Q as H10 by lra.
    apply Qltb_lt in H50, H10. rewrite H50, H10. reflexivity.
  - intros H10 H50. apply Qltb_lt in H10. apply Qltb_ge in H50.
    rewrite H50, H10. reflexivity.
  - intros H10. apply Qltb_ge in H10. rewrite H10. reflexivity.
Qed.

Lemma higher_is_worse_regression_witness :
  "average_response_time_ms" ∈ higher_is_worse /\
  default ∅ (baseline_summary_field baseline_100) !! "average_response_time_ms"
  = Some 100%Q /\
  (0 < 100)%Q /\
  exists c cs,
    compare_with_baseline calm_world (bench_with_duration 160) (Ok baseline_100)
    = Compared c /\
    generate_summary (bench_with_duration 160) = Ok cs /\
    let cur := default 0%Q (cs !! "average_response_time_ms") in
    let change := ((cur - 100) / 100 * 100)%Q in
    let flagged :=
      List.filter (fun r => String.eqb (reg_metric r) "average_response_time_ms")
                  (regressions_detected c) in
    performance_changes c !! "average_response_time_ms"
    = Some {| ch_baseline := 100; ch_current := cur; ch_change_percent := change |} /\
    ((50 < change)%Q ->
       flagged = [{| reg_metric := "average_response_time_ms";
                     reg_severity := "high"; reg_change_percent := change |}]) /\
    ((10 < change)%Q -> (change <= 50)%Q ->
       flagged = [{| reg_metric := "average_response_time_ms";
                     reg_severity := "medium"; reg_change_percent := change |}]) /\
    ((change <= 10)%Q -> flagged = []).
Proof.
  assert ("average_response_time_ms" ∈ higher_is_worse) as H1
    by apply list_elem_of_here.
  assert (default ∅ (baseline_summary_field baseline_100)
          !! "average_response_time_ms" = Some 100%Q) as H2
    by (vm_compute; reflexivity).
  assert (0 < 100)%Q as H3 by reflexivity.
  split; [exact H1|]. split; [exact H2|]. split; [exact H3|].
  exact (higher_is_worse_regression calm_world (bench_with_duration 160)
           baseline_100 "average_response_time_ms" 100 H1 H2 H3).
Defined.

(** The two sides of the severity boundary: a response time of 160 ms
    against a baseline of 100 ms is a change of 60 and a regression of
    severity high; 150 ms is a change of 50 and of severity medium. *)
Lemma regression_severity_examples :
  (exists c ch,
     compare_with_baseline calm_world (bench_with_duration 160) (Ok baseline_100)
     = Compared c /\
     performance_changes c !! "average_response_time_ms" = Some ch /\
     (ch_change_percent ch == 60)%Q /\
     map (fun r => (reg_metric r, reg_severity r)) (regressions_detected c)
     = [("average_response_time_ms", "high")]) /\
  (exists c ch,
     compare_with_baseline calm_world (bench_with_duration 150) (Ok baseline_100)
     = Compared c /\
     performance_changes c !! "average_response_time_ms" = Some ch /\
     (ch_change_percent ch == 50)%Q /\
     map (fun r => (reg_metric r, reg_severity r)) (regressions_detected c)
     = [("average_response_time_ms", "medium")]).
Proof.
  split; eexists; eexists.
  - split; [vm_compute; reflexivity|]. split; [vm_compute; reflexivity|].
    split; reflexivity.
  - split; [vm_compute; reflexivity|]. split; [vm_compute; reflexivity|].
    split; reflexivity.
Qed.

(** A success rate that falls by more than 10 percent is flagged as an
    improvement. *)
Lemma falling_success_rate_improvement (change : Q) :
  (change < -10)%Q ->
  improvement_of "success_rate" change
  = [{| imp_metric := "success_rate"; imp_improvement_percent := Qabs change |}].
Proof.
  intros H. unfold improvement_of. apply Qltb_lt in H. rewrite H. reflexivity.
Qed.

(** C5, at the failing input: the baseline has a success rate of 1, the
    current run one of 1/2 (one of its two results failed).  The change
    is -50 percent, and the comparison lists [success_rate] among the
    improvements, with an improvement of 50 percent. *)
Theorem falling_success_rate_listed_as_improvement :
  exists cs c ch imp,
    generate_summary bench_half_failed = Ok cs /\
    (default 0 (cs !! "success_rate") == 1 # 2)%Q /\
    compare_with_baseline calm_world bench_half_failed (Ok baseline_100)
    = Compared c /\
    performance_changes c !! "success_rate" = Some ch /\
    (ch_change_percent ch == -50)%Q /\
    improvements_detected c = [imp] /\
    imp_metric imp = "success_rate" /\
    (imp_improvement_percent imp == 50)%Q.
Proof.
  eexists. eexists. eexists. eexists.
  split; [vm_compute; reflexivity|]. split; [reflexivity|].
  split; [vm_compute; reflexivity|]. split; [vm_compute; reflexivity|].
  split; [reflexivity|]. split; [reflexivity|]. split; reflexivity.
Qed.

(** *** Further properties of the benchmarks, the summary and the comparison *)

(** X1: the database results have an entry under a name exactly when the
    name is one of the five queries and at least one of its ten
    repetitions succeeded. *)
Theorem db_entry_iff_some_success (fsqrt : Q -> Q) (w : World)
    (res : gmap string DbStats) (name : string) :
  benchmark_database_performance fsqrt w = Ok res ->
  (is_Some (res !! name) <->
   exists sql, (name, sql) ∈ queries /\ db_durations w sql <> []).
Proof.
  intros Hres.
  destruct (db_benchmark_connected fsqrt w res Hres) as [conn Hconn].
  destruct (db_results_spec fsqrt w conn Hconn) as (res' & Hres' & Hin & Hsrc).
  assert (res' = res) as -> by congruence. split.
  - intros [e He]. destruct (Hsrc name e He) as (sql & Hq & Hne & _). eauto.
  - intros (sql & Hq & Hne). destruct (Hin name sql Hq) as [_ H].
    destruct (H Hne) as (e & He & _). eauto.
Qed.

Lemma db_entry_iff_some_success_witness :
  exists res,
    benchmark_database_performance sqrt_floor flaky_world = Ok res /\
    (is_Some (res !! "count_query") <->
     exists sql, ("count_query", sql) ∈ queries /\
                 db_durations flaky_world sql <> []).
Proof.
  destruct (db_results_spec sqrt_floor flaky_world _ flaky_connected)
    as (res & H & _).
  exists res. split; [exact H|].
  exact (db_entry_iff_some_success sqrt_floor flaky_world res "count_query" H).
Defined.

Lemma db_attempts_rows (w : World) (conn : Connection) (query : string)
    (l : list nat) (durations : list Q) (count : nat) (rows : option nat) :
  sqlite_connect w "benchmark_database_performance" = Ok conn ->
  fold_left (db_attempt conn query) l (durations, count, rows)
  = (durations ++ db_successes w query l,
     (count + length (db_successes w query l))%nat,
     db_last_rows w query l rows).
Proof.
  intros Hconn. revert durations count rows.
  induction l as [|i l IH]; intros durations count rows; simpl.
  - rewrite app_nil_r, Nat.add_0_r. reflexivity.
  - unfold db_last_rows. cbn [fold_left].
    rewrite <- (db_execute_on w conn query i Hconn).
    destruct (db_execute w query i) as [[t n]|e]; simpl.
    + rewrite IH, <- app_assoc. simpl. unfold db_last_rows.
      f_equal. f_equal. lia.
    + apply IH.
Qed.

(** Once a repetition has succeeded, the rows kept do not depend on what
    earlier queries left. *)
Lemma db_last_rows_own (w : World) (query : string) (l : list nat)
    (rows : option nat) :
  db_successes w query l <> [] ->
  db_last_rows w query l rows = db_last_rows w query l None /\
  is_Some (db_last_rows w query l None).
Proof.
  revert rows. induction l as [|i l IH]; intros rows H; [cbn in H; congruence|].
  unfold db_last_rows in *. cbn [fold_left]. cbn [db_successes flat_map] in H.
  fold (db_successes w query l) in H.
  destruct (db_execute w query i) as [[t n]|e].
  - destruct (db_successes w query l) as [|d ds] eqn:E.
    + assert (forall r, fold_left (fun r i => match db_execute w query i with
                                              | Ok (_, nrows) => Some nrows
                                              | Raise _ => r end) l r = r) as Hid.
      { clear -E. induction l as [|j l IHl]; intros r; [reflexivity|].
        cbn [db_successes flat_map] in E. fold (db_successes w query l) in E.
        cbn [fold_left]. destruct (db_execute w query j) as [[t' n']|e'].
        - cbn in E. discriminate.
        - apply IHl. exact E. }
      rewrite !Hid. split; [reflexivity | eauto].
    + destruct (IH (Some n)) as [H1 H2]; [congruence|].
      rewrite H1. split; [reflexivity | exact H2].
  - cbn [app] in H. apply IH. exact H.
Qed.

Lemma foldM_invariant_elem {A B : Type} (P : A -> Prop) (f : A -> B -> result A)
    (l : list B) (a : A) :
  P a ->
  (forall a b, b ∈ l -> P a -> exists a', f a b = Ok a' /\ P a') ->
  exists a', foldM f l a = Ok a' /\ P a'.
Proof.
  revert a. induction l as [|b l IH]; intros a Ha Hf.
  - exists a. split; [reflexivity | assumption].
  - destruct (Hf a b (list_elem_of_here b l) Ha) as (a1 & E & Ha1).
    cbn [foldM]. rewrite E. cbn [bind]. apply IH; [assumption|].
    intros a' b' Hb'. apply Hf. apply list_elem_of_further. exact Hb'.
Qed.

Lemma db_entries_exact (fsqrt : Q -> Q) (w : World) (res : gmap string DbStats)
    (name : string) (e : DbStats) :
  benchmark_database_performance fsqrt w = Ok res ->
  res !! name = Some e ->
  exists sql, (name, sql) ∈ queries /\ db_exact_entry fsqrt w sql e.
Proof.
  intros Hres Hl.
  destruct (db_benchmark_connected fsqrt w res Hres) as [conn Hconn].
  unfold benchmark_database_performance in Hres. rewrite Hconn in Hres.
  cbn [bind] in Hres.
  destruct (foldM_invariant_elem
              (fun acc => forall name e, fst acc !! name = Some e ->
                 exists sql, (name, sql) ∈ queries /\ db_exact_entry fsqrt w sql e)
              (db_query fsqrt conn) queries (∅, None)) as (acc & Hacc & Hinv).
  - intros n e' H. cbn [fst] in H. rewrite lookup_empty in H. discriminate.
  - intros [res0 rows0] [qn sql] Hq Hinv. unfold db_query. cbn [fst snd].
    rewrite (db_attempts_rows w conn sql _ _ _ _ Hconn). cbn [app Nat.add].
    fold (db_durations w sql).
    destruct (db_durations w sql) as [|d ds] eqn:E.
    + eexists. split; [reflexivity|]. exact Hinv.
    + destruct (db_last_rows_own w sql (seq 0 10) rows0) as [Hrows _].
      { fold (db_durations w sql). congruence. }
      rewrite Hrows.
      destruct (db_entry_ok fsqrt (d :: ds) (length (d :: ds))
                  (db_last_rows w sql (seq 0 10) None)) as [e' He']; [congruence|].
      rewrite He'. cbn [bind]. eexists. split; [reflexivity|]. cbn [fst].
      intros n e'' H. destruct (decide (qn = n)) as [<-|Hne].
      * rewrite lookup_insert_eq in H. injection H as <-.
        exists sql. split; [exact Hq|]. split; [congruence|]. rewrite E. exact He'.
      * rewrite lookup_insert_ne in H by assumption. apply Hinv. exact H.
  - rewrite Hacc in Hres. cbn [bind] in Hres. injection Hres as <-.
    apply Hinv. exact Hl.
Qed.

(** X2: the success rate of an entry of the database results is the
    number of successful repetitions of its query divided by 10. *)
Theorem db_success_rate_counts_successes (fsqrt : Q -> Q) (w : World)
    (res : gmap string DbStats) (name : string) (e : DbStats) :
  benchmark_database_performance fsqrt w = Ok res ->
  res !! name = Some e ->
  exists sql, (name, sql) ∈ queries /\
    db_success_rate e = (of_nat (length (db_durations w sql)) / 10)%Q.
Proof.
  intros Hres Hl. destruct (db_entries_exact fsqrt w res name e Hres Hl)
    as (sql & Hq & _ & He).
  exists sql. split; [exact Hq|].
  apply db_entry_inv in He. tauto.
Qed.

Lemma db_success_rate_counts_successes_witness :
  exists res e,
    benchmark_database_performance sqrt_floor flaky_world = Ok res /\
    res !! "count_query" = Some e /\
    exists sql, ("count_query", sql) ∈ queries /\
      db_success_rate e
      = (of_nat (length (db_durations flaky_world sql)) / 10)%Q.
Proof.
  destruct (db_results_spec sqrt_floor flaky_world _ flaky_connected)
    as (res & H1 & Hin & _).
  destruct (Hin "count_query" count_query_sql) as [_ Hsome].
  { apply list_elem_of_In. vm_compute. tauto. }
  destruct Hsome as (e & H2 & _); [vm_compute; discriminate|].
  exists res, e. split; [exact H1|]. split; [exact H2|].
  exact (db_success_rate_counts_successes sqrt_floor flaky_world res
           "count_query" e H1 H2).
Defined.

(** X3: [rows_returned] of an entry is the row count of the last
    successful repetition of its own query: the rows a previous query
    left in the local [rows] never reach an entry, and neither does the
    fallback 0. *)
Theorem db_rows_are_own_last_fetch (fsqrt : Q -> Q) (w : World)
    (res : gmap string DbStats) (name : string) (e : DbStats) :
  benchmark_database_performance fsqrt w = Ok res ->
  res !! name = Some e ->
  exists sql, (name, sql) ∈ queries /\
    db_last_rows w sql (seq 0 10) None = Some (db_rows_returned e).
Proof.
  intros Hres Hl. destruct (db_entries_exact fsqrt w res name e Hres Hl)
    as (sql & Hq & Hne & He).
  exists sql. split; [exact Hq|].
  destruct (db_last_rows_own w sql (seq 0 10) None Hne) as [_ [n Hn]].
  rewrite Hn in *. unfold db_entry in He.
  repeat (apply bind_Ok in He as (? & _ & He)). injection He as <-. reflexivity.
Qed.

Lemma db_rows_are_own_last_fetch_witness :
  exists res e,
    benchmark_database_performance sqrt_floor flaky_world = Ok res /\
    res !! "count_query" = Some e /\
    exists sql, ("count_query", sql) ∈ queries /\
      db_last_rows flaky_world sql (seq 0 10) None
      = Some (db_rows_returned e).
Proof.
  destruct (db_results_spec sqrt_floor flaky_world _ flaky_connected)
    as (res & H1 & Hin & _).
  destruct (Hin "count_query" count_query_sql) as [_ Hsome].
  { apply list_elem_of_In. vm_compute. tauto. }
  destruct Hsome as (e & H2 & _); [vm_compute; discriminate|].
  exists res, e. split; [exact H1|]. split; [exact H2|].
  exact (db_rows_are_own_last_fetch sqrt_floor flaky_world res
           "count_query" e H1 H2).
Defined.

Lemma db_successes_all (w : World) (sql : string) (t : timing) (l : list nat) :
  (forall i, i ∈ l -> exists n, db_execute w sql i = Ok (t, n)) ->
  db_successes w sql l = repeat (elapsed_ms t) (length l).
Proof.
  induction l as [|i l IH]; intros H; [reflexivity|].
  cbn [db_successes flat_map length repeat]. fold (db_successes w sql l).
  destruct (H i (list_elem_of_here i l)) as [n ->]. cbn [app]. f_equal.
  apply IH. intros j Hj. apply H. apply list_elem_of_further. exact Hj.
Qed.

Lemma Qltb_irrefl (d : Q) : Qltb d d = false.
Proof. apply Qltb_ge. apply Qle_refl. Qed.

Lemma Qle_bool_refl (d : Q) : Qle_bool d d = true.
Proof. apply Qle_bool_iff. apply Qle_refl. Qed.

Lemma py_sorted_repeat (d : Q) (n : nat) : py_sorted (repeat d n) = repeat d n.
Proof.
  induction n as [|n IH]; [reflexivity|].
  cbn [repeat py_sorted fold_right]. fold (py_sorted (repeat d n)). rewrite IH.
  destruct n; cbn; [reflexivity|]. rewrite Qle_bool_refl. reflexivity.
Qed.

Lemma fold_min_repeat (d : Q) (n : nat) :
  fold_left (fun m y => if Qltb y m then y else m) (repeat d n) d = d.
Proof.
  induction n as [|n IH]; [reflexivity|]. cbn. rewrite Qltb_irrefl. exact IH.
Qed.

Lemma fold_max_repeat (d : Q) (n : nat) :
  fold_left (fun m y => if Qltb m y then y else m) (repeat d n) d = d.
Proof.
  induction n as [|n IH]; [reflexivity|]. cbn. rewrite Qltb_irrefl. exact IH.
Qed.

(** The statistics of ten equal durations. *)
Lemma constant_sample_stats (fsqrt : Q -> Q) (d : Q) (rows : option nat) (e : DbStats) :
  db_entry fsqrt (repeat d 10) 10 rows = Ok e ->
  (db_average_ms e == d)%Q /\ (db_median_ms e == d)%Q /\
  db_min_ms e = d /\ db_max_ms e = d /\
  (db_success_rate e == 1)%Q /\
  exists v, (v == 0)%Q /\ db_std_dev_ms e = fsqrt v.
Proof.
  unfold db_entry, statistics.median, statistics.stdev, statistics.variance.
  rewrite py_sorted_repeat.
  change (py_min (repeat d 10))
    with (Ok (fold_left (fun m y => if Qltb y m then y else m) (repeat d 9) d)).
  change (py_max (repeat d 10))
    with (Ok (fold_left (fun m y => if Qltb m y then y else m) (repeat d 9) d)).
  rewrite fold_min_repeat, fold_max_repeat.
  cbn. intros H. injection H as <-. cbn.
  split; [unfold len; cbn; field|]. split; [field|].
  split; [reflexivity|]. split; [reflexivity|]. split; [reflexivity|].
  eexists. split; [|reflexivity]. unfold statistics.sum_sq_dev, len. cbn. field.
Qed.

(** X4: when the ten repetitions of a query all succeed with the same
    clock readings, its entry has mean, median, minimum and maximum equal
    to that duration, a success rate of 1, and the standard deviation is
    the square root of a variance of 0. *)
Theorem constant_durations_entry (fsqrt : Q -> Q) (w : World)
    (name sql : string) (t : timing) :
  (name, sql) ∈ queries ->
  (forall i, (i < 10)%nat -> exists n, db_execute w sql i = Ok (t, n)) ->
  exists res e,
    benchmark_database_performance fsqrt w = Ok res /\
    res !! name = Some e /\
    (db_average_ms e == elapsed_ms t)%Q /\
    (db_median_ms e == elapsed_ms t)%Q /\
    db_min_ms e = elapsed_ms t /\ db_max_ms e = elapsed_ms t /\
    (db_success_rate e == 1)%Q /\
    exists v, (v == 0)%Q /\ db_std_dev_ms e = fsqrt v.
Proof.
  intros Hq Hall.
  assert (db_durations w sql = repeat (elapsed_ms t) 10) as Hds.
  { unfold db_durations. rewrite (db_successes_all w sql t (seq 0 10)); [reflexivity|].
    intros i Hi. apply Hall. apply list_elem_of_In, in_seq in Hi. lia. }
  assert (exists conn,
            sqlite_connect w "benchmark_database_performance" = Ok conn)
    as [conn Hconn].
  { destruct (Hall 0%nat) as [n Hn]; [lia|]. unfold db_execute in Hn.
    destruct (sqlite_connect w "benchmark_database_performance") as [conn|e];
      [eauto | discriminate]. }
  destruct (db_results_spec fsqrt w conn Hconn) as (res & Hres & Hin & _).
  destruct (Hin name sql Hq) as [_ H].
  destruct H as (e & He & _ & rows & Hentry); [rewrite Hds; discriminate|].
  exists res, e. split; [exact Hres|]. split; [exact He|].
  rewrite Hds in Hentry. apply (constant_sample_stats fsqrt _ rows e Hentry).
Qed.

Lemma constant_durations_entry_witness :
  ("count_query", count_query_sql) ∈ queries /\
  (forall i, (i < 10)%nat ->
     exists n, db_execute calm_world count_query_sql i = Ok (ten_ms, n)) /\
  exists res e,
    benchmark_database_performance sqrt_floor calm_world = Ok res /\
    res !! "count_query" = Some e /\
    (db_average_ms e == elapsed_ms ten_ms)%Q /\
    (db_median_ms e == elapsed_ms ten_ms)%Q /\
    db_min_ms e = elapsed_ms ten_ms /\ db_max_ms e = elapsed_ms ten_ms /\
    (db_success_rate e == 1)%Q /\
    exists v, (v == 0)%Q /\ db_std_dev_ms e = sqrt_floor v.
Proof.
  assert (("count_query", count_query_sql) ∈ queries) as H1.
  { apply list_elem_of_In. vm_compute. tauto. }
  assert (forall i, (i < 10)%nat ->
            exists n, db_execute calm_world count_query_sql i = Ok (ten_ms, n)) as H2.
  { intros i _. exists 3%nat. reflexivity. }
  split; [exact H1|]. split; [exact H2|].
  exact (constant_durations_entry sqrt_floor calm_world "count_query"
           count_query_sql ten_ms H1 H2).
Defined.

Lemma api_test_step (w : World) (res : gmap string ApiStats) (test : ApiTest) :
  exists res',
    api_test w res test = Ok res' /\
    (api_durations w test = [] -> res' = res) /\
    (api_durations w test <> [] ->
       exists e, api_entry (api_durations w test) (length (api_durations w test))
                 = Ok e /\
                 res' = <[endpoint test := e]> res).
Proof.
  unfold api_test. rewrite api_attempts_spec. cbn [app Nat.add].
  fold (api_durations w test).
  destruct (api_durations w test) as [|d ds] eqn:E.
  - exists res. split; [reflexivity|]. split; [reflexivity | congruence].
  - destruct (api_entry_invariants (d :: ds)) as (e & He & _); [congruence| |].
    { rewrite <- E. apply (api_successes_length w test (seq 0 10)). }
    rewrite He. cbn [bind]. eexists. split; [reflexivity|].
    split; [congruence|]. intros _. exists e. split; reflexivity.
Qed.

(** X5: two of the four API tests have the endpoint [/api/lottery/draws]
    and the results are keyed by endpoint: the entry under that key is
    the one of the second test whenever one of its repetitions succeeded
    (the measurements of the first test are then overwritten), the one
    of the first test otherwise, and absent when neither had a success. *)
Theorem api_shared_endpoint_entry (w : World) :
  exists res,
    benchmark_api_performance w = Ok res /\
    let ds1 := api_durations w draws_first_test in
    let ds2 := api_durations w draws_second_test in
    (ds2 <> [] ->
       exists e, api_entry ds2 (length ds2) = Ok e /\
                 res !! "/api/lottery/draws" = Some e) /\
    (ds2 = [] -> ds1 <> [] ->
       exists e, api_entry ds1 (length ds1) = Ok e /\
                 res !! "/api/lottery/draws" = Some e) /\
    (ds2 = [] -> ds1 = [] -> res !! "/api/lottery/draws" = None).
Proof.
  unfold benchmark_api_performance, api_tests. cbn [foldM].
  fold draws_first_test. fold draws_second_test.
  destruct (api_test_step w ∅ draws_first_test) as (r1 & -> & H1nil & H1some).
  cbn [bind].
  destruct (api_test_step w r1 draws_second_test) as (r2 & -> & H2nil & H2some).
  cbn [bind].
  match goal with |- context [api_test w r2 ?t] =>
    destruct (api_test_step w r2 t) as (r3 & -> & H3nil & H3some) end.
  cbn [bind].
  match goal with |- context [api_test w r3 ?t] =>
    destruct (api_test_step w r3 t) as (r4 & -> & H4nil & H4some) end.
  cbn [bind]. exists r4. split; [reflexivity|]. cbn zeta.
  assert (r4 !! "/api/lottery/draws" = r2 !! "/api/lottery/draws") as Hkeep.
  { transitivity (r3 !! "/api/lottery/draws").
    - match type of H4nil with (?ds = [] -> _) => destruct ds eqn:E end.
      + rewrite H4nil; reflexivity.
      + destruct H4some as (e & _ & ->); [discriminate|].
        apply lookup_insert_ne. discriminate.
    - match type of H3nil with (?ds = [] -> _) => destruct ds eqn:E end.
      + rewrite H3nil; reflexivity.
      + destruct H3some as (e & _ & ->); [discriminate|].
        apply lookup_insert_ne. discriminate. }
  rewrite Hkeep. split; [|split].
  - intros Hne. destruct (H2some Hne) as (e & He & ->).
    exists e. split; [exact He | apply lookup_insert_eq].
  - intros E2 Hne. rewrite (H2nil E2). destruct (H1some Hne) as (e & He & ->).
    exists e. split; [exact He | apply lookup_insert_eq].
  - intros E2 E1. rewrite (H2nil E2), (H1nil E1). apply lookup_empty.
Qed.

Lemma cache_execute_on (w : World) (conn : Connection) (query : string)
    (k : nat) (r : timing * nat) :
  sqlite_connect w "benchmark_cache_performance" = Ok conn ->
  execute conn query k = Ok r ->
  cache_execute w query k = Ok (fst r).
Proof. intros Hconn H. unfold cache_execute. rewrite Hconn. cbn [bind]. rewrite H. reflexivity. Qed.

Lemma cache_query_returns (conn : Connection) (res : gmap string CacheStats)
    (q : string * string) (r1 r2 : timing * nat) :
  execute conn (snd q) 0 = Ok r1 ->
  execute conn (snd q) 1 = Ok r2 ->
  exists e, cache_query conn res q = Ok (<[fst q := e]> res) /\
            cache_entry_of (fst r1) (fst r2) e.
Proof.
  intros H1 H2. unfold cache_query. rewrite H1. cbn [bind]. rewrite H2. cbn [bind].
  destruct (Qltb 0 (elapsed_ms (fst r1))) eqn:E.
  - apply Qltb_lt in E. rewrite pydiv_nonzero by lra. cbn [bind].
    eexists. split; [reflexivity|]. unfold cache_entry_of. cbn.
    split; [reflexivity|]. split; [reflexivity|]. split; [reflexivity|]. lra.
  - apply Qltb_ge in E. cbn [bind].
    eexists. split; [reflexivity|]. unfold cache_entry_of. cbn.
    split; [reflexivity|]. split; [reflexivity|]. split; [lra | reflexivity].
Qed.

Lemma cache_query_raises (conn : Connection) (res : gmap string CacheStats)
    (q : string * string) (r : gmap string CacheStats) :
  cache_query conn res q = Ok r ->
  exists r1 r2, execute conn (snd q) 0 = Ok r1 /\
                execute conn (snd q) 1 = Ok r2.
Proof.
  unfold cache_query. intros H.
  apply bind_Ok in H as (r1 & H1 & H). apply bind_Ok in H as (r2 & H2 & _).
  eauto.
Qed.

Lemma cache_benchmark_connected (w : World) (res : gmap string CacheStats) :
  benchmark_cache_performance w = Ok res ->
  exists conn,
    sqlite_connect w "benchmark_cache_performance" = Ok conn /\
    foldM (cache_query conn) cache_queries ∅ = Ok res.
Proof.
  unfold benchmark_cache_performance. intros H.
  apply bind_Ok in H as (conn & Hconn & H). eauto.
Qed.

(** X6: the cache benchmark has no [try]: it returns exactly when
    [sqlite3.connect] returns a connection and the two executions of both
    of its queries on that connection return; an exception of the connect
    or of any execution leaves the benchmark.  The division for the
    effectiveness never raises. *)
Theorem cache_benchmark_returns_iff (w : World) :
  ((exists res, benchmark_cache_performance w = Ok res) <->
   (exists conn,
      sqlite_connect w "benchmark_cache_performance" = Ok conn /\
      forall name sql k, (name, sql) ∈ cache_queries -> (k < 2)%nat ->
        exists r, execute conn sql k = Ok r)) /\
  (forall e, sqlite_connect w "benchmark_cache_performance" = Raise e ->
     benchmark_cache_performance w = Raise e).
Proof.
  split; [split|].
  - intros [res H]. apply cache_benchmark_connected in H as (conn & Hconn & H).
    exists conn. split; [exact Hconn|].
    unfold cache_queries in *. cbn [foldM] in H.
    apply bind_Ok in H as (r1 & H1 & H).
    apply bind_Ok in H as (r2 & H2 & _).
    apply cache_query_raises in H1 as (a1 & a2 & Ha1 & Ha2).
    apply cache_query_raises in H2 as (b1 & b2 & Hb1 & Hb2).
    cbn [snd] in *. intros name sql k Hq Hk.
    apply elem_of_cons in Hq as [Hq|Hq]; [|apply elem_of_cons in Hq as [Hq|Hq]];
      [injection Hq as -> -> | injection Hq as -> -> | inversion Hq];
      (destruct k as [|[|k]]; [eauto | eauto | lia]).
  - intros (conn & Hconn & H).
    unfold benchmark_cache_performance. rewrite Hconn. cbn [bind].
    unfold cache_queries in *. cbn [foldM].
    destruct (H _ _ 0%nat (list_elem_of_here _ _)) as [a1 Ha1]; [lia|].
    destruct (H _ _ 1%nat (list_elem_of_here _ _)) as [a2 Ha2]; [lia|].
    destruct (H _ _ 0%nat (list_elem_of_further _ _ _ (list_elem_of_here _ _)))
      as [b1 Hb1]; [lia|].
    destruct (H _ _ 1%nat (list_elem_of_further _ _ _ (list_elem_of_here _ _)))
      as [b2 Hb2]; [lia|].
    match goal with |- context [cache_query conn ∅ ?q] =>
      destruct (cache_query_returns conn ∅ q a1 a2 Ha1 Ha2) as (e1 & -> & _) end.
    cbn [bind].
    match goal with |- context [cache_query conn ?r ?q] =>
      destruct (cache_query_returns conn r q b1 b2 Hb1 Hb2) as (e2 & -> & _) end.
    cbn [bind]. eauto.
  - intros e He. unfold benchmark_cache_performance. rewrite He. reflexivity.
Qed.

(** X7: an entry of the cache results holds the two measured times of
    its query; its effectiveness is [(first - second) / first * 100] when
    the first time is positive and 0 otherwise, and it is at most 100
    when the second time is not negative. *)
Theorem cache_entry_effectiveness (w : World) (res : gmap string CacheStats)
    (name : string) (e : CacheStats) :
  benchmark_cache_performance w = Ok res ->
  res !! name = Some e ->
  exists sql t1 t2,
    (name, sql) ∈ cache_queries /\
    cache_execute w sql 0 = Ok t1 /\ cache_execute w sql 1 = Ok t2 /\
    cache_entry_of t1 t2 e /\
    ((0 <= elapsed_ms t2)%Q -> (cache_effectiveness e <= 100)%Q).
Proof.
  intros H Hl. apply cache_benchmark_connected in H as (conn & Hconn & H).
  unfold cache_queries in *. cbn [foldM] in H.
  apply bind_Ok in H as (r1 & H1 & H). apply bind_Ok in H as (r2 & H2 & H).
  injection H as <-.
  destruct (cache_query_raises _ _ _ _ H1) as (a1 & a2 & Ha1 & Ha2).
  destruct (cache_query_raises _ _ _ _ H2) as (b1 & b2 & Hb1 & Hb2).
  destruct (cache_query_returns conn ∅ _ a1 a2 Ha1 Ha2) as (e1 & E1 & Hof1).
  destruct (cache_query_returns conn r1 _ b1 b2 Hb1 Hb2) as (e2 & E2 & Hof2).
  rewrite E1 in H1. injection H1 as <-. rewrite E2 in H2. injection H2 as <-.
  cbn [fst snd] in Hl, Ha1, Ha2, Hb1, Hb2.
  assert (forall t1 t2 e', cache_entry_of t1 t2 e' ->
            (0 <= elapsed_ms t2)%Q -> (cache_effectiveness e' <= 100)%Q) as Hbound.
  { intros t1 t2 e' (_ & _ & Hpos & Hzero) Hsecond.
    destruct (Qlt_le_dec 0 (elapsed_ms t1)) as [Hp|Hn].
    - rewrite (Hpos Hp).
      assert ((elapsed_ms t1 - elapsed_ms t2) / elapsed_ms t1 <= 1)%Q.
      { apply Qle_shift_div_r; lra. }
      lra.
    - rewrite (Hzero Hn). lra. }
  destruct (decide (name = "cache_miss_test")) as [->|Hne].
  - rewrite lookup_insert_eq in Hl. injection Hl as <-.
    eexists _, (fst b1), (fst b2).
    split; [apply list_elem_of_further, list_elem_of_here|].
    split; [exact (cache_execute_on w conn _ _ _ Hconn Hb1)|].
    split; [exact (cache_execute_on w conn _ _ _ Hconn Hb2)|].
    split; [exact Hof2|]. eauto.
  - rewrite lookup_insert_ne in Hl by congruence.
    destruct (decide (name = "cache_hit_test")) as [->|Hne'].
    + rewrite lookup_insert_eq in Hl. injection Hl as <-.
      eexists _, (fst a1), (fst a2). split; [apply list_elem_of_here|].
      split; [exact (cache_execute_on w conn _ _ _ Hconn Ha1)|].
      split; [exact (cache_execute_on w conn _ _ _ Hconn Ha2)|].
      split; [exact Hof1|]. eauto.
    + rewrite lookup_insert_ne, lookup_empty in Hl by congruence. discriminate.
Qed.

Lemma calm_cache_returns :
  exists res e,
    benchmark_cache_performance calm_world = Ok res /\
    res !! "cache_hit_test" = Some e.
Proof.
  unfold benchmark_cache_performance.
  change (sqlite_connect calm_world "benchmark_cache_performance")
    with (Ok calm_connection).
  cbn [bind]. unfold cache_queries. cbn [foldM].
  match goal with |- context [cache_query calm_connection ∅ ?q] =>
    destruct (cache_query_returns calm_connection ∅ q (ten_ms, 3%nat)
                (ten_ms, 3%nat) eq_refl eq_refl) as (e1 & -> & _) end.
  cbn [bind].
  match goal with |- context [cache_query calm_connection ?r ?q] =>
    destruct (cache_query_returns calm_connection r q (ten_ms, 3%nat)
                (ten_ms, 3%nat) eq_refl eq_refl) as (e2 & -> & _) end.
  cbn [bind fst]. eexists _, e1. split; [reflexivity|].
  rewrite lookup_insert_ne by discriminate. apply lookup_insert_eq.
Qed.

Lemma cache_entry_effectiveness_witness :
  exists res e,
    benchmark_cache_performance calm_world = Ok res /\
    res !! "cache_hit_test" = Some e /\
    exists sql t1 t2,
      ("cache_hit_test", sql) ∈ cache_queries /\
      cache_execute calm_world sql 0 = Ok t1 /\
      cache_execute calm_world sql 1 = Ok t2 /\
      cache_entry_of t1 t2 e /\
      ((0 <= elapsed_ms t2)%Q -> (cache_effectiveness e <= 100)%Q).
Proof.
  destruct calm_cache_returns as (res & e & E & El).
  exists res, e. split; [exact E|]. split; [exact El|].
  exact (cache_entry_effectiveness calm_world res "cache_hit_test" e E El).
Defined.

Lemma session_times_level (w : World) (users : nat) :
  session_times_of (level_sessions w users) = session_durations w users.
Proof. rewrite level_sessions_values. apply session_times_values. Qed.

Lemma session_durations_nonempty (w : World) (users : nat) :
  users <> 0%nat -> session_durations w users <> [].
Proof.
  intros H E. apply (f_equal (@length Q)) in E. unfold session_durations in E.
  rewrite length_map, length_seq in E. cbn in E. congruence.
Qed.

(** A level is recorded exactly when its total time is not 0. *)
Lemma load_level_spec (w : World) (users : nat) :
  users <> 0%nat ->
  ((elapsed_ms (level_clock w users) == 0)%Q ->
     load_level w users = Raise ZeroDivisionError) /\
  (~ (elapsed_ms (level_clock w users) == 0)%Q ->
     exists entry, load_level w users = Ok entry /\ load_entry_of w users entry).
Proof.
  intros Hu. unfold load_level.
  rewrite count_successful_level, session_times_level.
  destruct (pydiv_self users Hu) as (r & -> & Hr). cbn [bind].
  pose proof (session_durations_nonempty w users Hu) as Hne.
  destruct (session_durations w users) as [|d ds] eqn:E; [congruence|].
  rewrite mean_ok by congruence. cbn [bind]. split.
  - intros Hz. rewrite pydiv_zero; [reflexivity|]. rewrite Hz. reflexivity.
  - intros Hnz.
    assert (~ (elapsed_ms (level_clock w users) / 1000 == 0)%Q) as Hnz'.
    { intros Hz. apply Hnz.
      assert (elapsed_ms (level_clock w users)
              == elapsed_ms (level_clock w users) / 1000 * 1000)%Q as -> by field.
      rewrite Hz. reflexivity. }
    rewrite pydiv_nonzero by exact Hnz'. cbn [bind].
    eexists. split; [reflexivity|]. unfold load_entry_of. rewrite E.
    cbn [total_time_ms successful_sessions load_success_rate
         average_session_time_ms throughput_sessions_per_second].
    split; [reflexivity|]. split; [exact Hnz|]. split; [reflexivity|].
    split; [exact Hr|]. split; [apply mean_ok; congruence|]. field. exact Hnz.
Qed.

Lemma level_keys :
  level_key 1 = "1_users" /\ level_key 5 = "5_users" /\
  level_key 10 = "10_users" /\ level_key 20 = "20_users".
Proof. repeat split; vm_compute; reflexivity. Qed.

Lemma load_step_inv (w : World) (res res' : gmap string LoadLevel) (users : nat) :
  users <> 0%nat ->
  load_step w res users = Ok res' ->
  ~ (elapsed_ms (level_clock w users) == 0)%Q /\
  exists entry, load_entry_of w users entry /\
                res' = <[level_key users := entry]> res.
Proof.
  intros Hu H. unfold load_step in H. apply bind_Ok in H as (entry & He & H).
  injection H as <-. destruct (load_level_spec w users Hu) as [Hz Hnz].
  destruct (Qeq_dec (elapsed_ms (level_clock w users)) 0) as [E|E].
  - rewrite (Hz E) in He. discriminate.
  - split; [exact E|]. destruct (Hnz E) as (entry' & He' & Hof).
    exists entry. split; [|reflexivity]. congruence.
Qed.

(** X8: the load benchmark returns exactly when none of the four levels
    has a total time of 0; otherwise the division for the throughput
    raises and no level is reported. *)
Theorem load_benchmark_returns_iff (w : World) :
  (exists res, benchmark_load_performance w = Ok res) <->
  (forall users, users ∈ concurrent_users ->
     ~ (elapsed_ms (level_clock w users) == 0)%Q).
Proof.
  unfold benchmark_load_performance, concurrent_users. cbn [foldM]. split.
  - intros [res H].
    apply bind_Ok in H as (r1 & H1 & H). apply bind_Ok in H as (r2 & H2 & H).
    apply bind_Ok in H as (r3 & H3 & H). apply bind_Ok in H as (r4 & H4 & _).
    apply load_step_inv in H1 as [N1 _]; [|lia].
    apply load_step_inv in H2 as [N2 _]; [|lia].
    apply load_step_inv in H3 as [N3 _]; [|lia].
    apply load_step_inv in H4 as [N4 _]; [|lia].
    intros users Hin.
    repeat (apply elem_of_cons in Hin as [->|Hin]); try assumption.
    inversion Hin.
  - intros H. unfold load_step.
    destruct (load_level_spec w 1) as [_ L1]; [lia|].
    destruct L1 as (e1 & -> & _); [apply H; set_solver|]. cbn [bind].
    destruct (load_level_spec w 5) as [_ L2]; [lia|].
    destruct L2 as (e2 & -> & _); [apply H; set_solver|]. cbn [bind].
    destruct (load_level_spec w 10) as [_ L3]; [lia|].
    destruct L3 as (e3 & -> & _); [apply H; set_solver|]. cbn [bind].
    destruct (load_level_spec w 20) as [_ L4]; [lia|].
    destruct L4 as (e4 & -> & _); [apply H; set_solver|]. cbn [bind].
    eauto.
Qed.

(** X9: when the load benchmark returns, its results hold one entry per
    level, under the key of the level: with the measured total time,
    [successful_sessions = users], a success rate of 1, the mean of the
    session durations, and a throughput [t] with
    [t * total_time_ms == 1000 * users]; they hold no other key. *)
Theorem load_results_entries (w : World) (res : gmap string LoadLevel) :
  benchmark_load_performance w = Ok res ->
  (forall users, users ∈ concurrent_users ->
     exists entry, res !! level_key users = Some entry /\
                   load_entry_of w users entry) /\
  (forall key, is_Some (res !! key) ->
     exists users, users ∈ concurrent_users /\ key = level_key users).
Proof.
  unfold benchmark_load_performance, concurrent_users. cbn [foldM]. intros H.
  apply bind_Ok in H as (r1 & H1 & H). apply bind_Ok in H as (r2 & H2 & H).
  apply bind_Ok in H as (r3 & H3 & H). apply bind_Ok in H as (r4 & H4 & H).
  injection H as <-.
  apply load_step_inv in H1 as (_ & e1 & Hof1 & ->); [|lia].
  apply load_step_inv in H2 as (_ & e2 & Hof2 & ->); [|lia].
  apply load_step_inv in H3 as (_ & e3 & Hof3 & ->); [|lia].
  apply load_step_inv in H4 as (_ & e4 & Hof4 & ->); [|lia].
  destruct level_keys as (K1 & K5 & K10 & K20). rewrite K1, K5, K10, K20. split.
  - intros users Hin.
    repeat (apply elem_of_cons in Hin as [->|Hin]); [| | | |inversion Hin];
      rewrite ?K1, ?K5, ?K10, ?K20; eexists; (split; [|eassumption]);
      simplify_map_eq; reflexivity.
  - intros key [e He].
    destruct (decide (key = "20_users")) as [->|N20];
      [exists 20%nat; split; [set_solver | congruence]|].
    destruct (decide (key = "10_users")) as [->|N10];
      [exists 10%nat; split; [set_solver | congruence]|].
    destruct (decide (key = "5_users")) as [->|N5];
      [exists 5%nat; split; [set_solver | congruence]|].
    destruct (decide (key = "1_users")) as [->|N1];
      [exists 1%nat; split; [set_solver | congruence]|].
    simplify_map_eq.
Qed.

Lemma calm_load_returns :
  exists res, benchmark_load_performance calm_world = Ok res.
Proof.
  unfold benchmark_load_performance, concurrent_users, load_step. cbn [foldM].
  destruct (load_level_spec calm_world 1) as [_ L1]; [lia|].
  destruct L1 as (e1 & -> & _); [intros H; discriminate H|]. cbn [bind].
  destruct (load_level_spec calm_world 5) as [_ L2]; [lia|].
  destruct L2 as (e2 & -> & _); [intros H; discriminate H|]. cbn [bind].
  destruct (load_level_spec calm_world 10) as [_ L3]; [lia|].
  destruct L3 as (e3 & -> & _); [intros H; discriminate H|]. cbn [bind].
  destruct (load_level_spec calm_world 20) as [_ L4]; [lia|].
  destruct L4 as (e4 & -> & _); [intros H; discriminate H|]. cbn [bind].
  eauto.
Qed.

Lemma load_results_entries_witness :
  exists res,
    benchmark_load_performance calm_world = Ok res /\
    (forall users, users ∈ concurrent_users ->
       exists entry, res !! level_key users = Some entry /\
                     load_entry_of calm_world users entry) /\
    (forall key, is_Some (res !! key) ->
       exists users, users ∈ concurrent_users /\ key = level_key users).
Proof.
  destruct calm_load_returns as [res E].
  exists res. split; [exact E|].
  exact (load_results_entries calm_world res E).
Defined.

Lemma snapshots_of_length (reads : list (result Reading)) :
  (length (snapshots_of reads) + length (List.filter read_failed reads)
   = length reads)%nat.
Proof.
  induction reads as [|r reads IH]; [reflexivity|].
  destruct r as [x|e]; cbn [snapshots_of flat_map List.filter read_failed app length];
    fold (snapshots_of reads); lia.
Qed.

Lemma snapshots_of_network (reads : list (result Reading)) :
  Forall (fun m => network_io_sent_mb m = 0%Q /\ network_io_recv_mb m = 0%Q)
         (snapshots_of reads).
Proof.
  induction reads as [|r reads IH]; [constructor|].
  destruct r as [x|e]; cbn [snapshots_of flat_map app]; fold (snapshots_of reads);
    [constructor; [split; reflexivity | exact IH] | exact IH].
Qed.

(** X10: the sampler only appends: it leaves [results] alone and keeps
    the snapshots already in [metrics_history] in front; it adds one
    snapshot per read that succeeds, in order, and none for a read that
    fails (which does not stop the sampling); the network fields of an
    added snapshot are 0. *)
Theorem sampler_appends_successful_reads (w : World) (duration : Q) (st : Run) :
  let st' := collect_system_metrics w duration st in
  let reads := sampler_reads w duration in
  results (self st') = results (self st) /\
  metrics_history (self st')
  = metrics_history (self st) ++ snapshots_of reads /\
  (length (snapshots_of reads) + length (List.filter read_failed reads)
   = length reads)%nat /\
  Forall (fun m => network_io_sent_mb m = 0%Q /\ network_io_recv_mb m = 0%Q)
         (snapshots_of reads).
Proof.
  cbn zeta. rewrite collect_system_metrics_spec. cbn [self results metrics_history].
  split; [reflexivity|]. split; [reflexivity|].
  split; [apply snapshots_of_length | apply snapshots_of_network].
Qed.

Lemma count_success_failed (rs : list BenchmarkResult) :
  (count_success rs + count_failed rs = length rs)%nat.
Proof.
  unfold count_success, count_failed.
  induction rs as [|r rs IH]; [reflexivity|].
  cbn [List.filter]. destruct (success r); cbn [negb length]; lia.
Qed.

Lemma count_success_durations (rs : list BenchmarkResult) :
  length (successful_durations rs) = count_success rs.
Proof. unfold successful_durations, count_success. apply length_map. Qed.

Lemma or_zero_within (f : list Q -> result Q) (xs : list Q) (a : Q) :
  or_zero f xs = Ok a -> (xs = [] /\ a = 0%Q) \/ (xs <> [] /\ f xs = Ok a).
Proof.
  destruct xs as [|x xs]; cbn; intros H.
  - left. split; [reflexivity | congruence].
  - right. split; [congruence | exact H].
Qed.

(** What [generate_summary] computes from a non-empty list of results,
    before the system metrics are added. *)
Lemma generate_summary_inv (b : PerformanceBenchmark) (s : gmap string Q) :
  results b <> [] ->
  generate_summary b = Ok s ->
  exists rate average med hi lo,
    let ds := successful_durations (results b) in
    pydiv (of_nat (count_success (results b))) (of_nat (length (results b)))
    = Ok rate /\
    or_zero statistics.mean ds = Ok average /\
    or_zero statistics.median ds = Ok med /\
    or_zero py_max ds = Ok hi /\
    or_zero py_min ds = Ok lo /\
    s !! "total_tests" = Some (of_nat (length (results b))) /\
    s !! "successful_tests" = Some (of_nat (count_success (results b))) /\
    s !! "failed_tests" = Some (of_nat (count_failed (results b))) /\
    s !! "success_rate" = Some rate /\
    s !! "average_response_time_ms" = Some average /\
    s !! "median_response_time_ms" = Some med /\
    s !! "max_response_time_ms" = Some hi /\
    s !! "min_response_time_ms" = Some lo.
Proof.
  intros Hne H. unfold generate_summary in H.
  destruct (results b) as [|r rs] eqn:Er; [congruence|].
  apply bind_Ok in H as (rate & Hrate & H).
  apply bind_Ok in H as (average & Ha & H).
  apply bind_Ok in H as (med & Hm & H).
  apply bind_Ok in H as (hi & Hhi & H).
  apply bind_Ok in H as (lo & Hlo & H).
  exists rate, average, med, hi, lo. cbn zeta.
  repeat (split; [assumption|]).
  destruct (metrics_history b) as [|x xs].
  - injection H as <-. repeat split; reflexivity.
  - apply bind_Ok in H as (c1 & _ & H). apply bind_Ok in H as (c2 & _ & H).
    apply bind_Ok in H as (c3 & _ & H). apply bind_Ok in H as (c4 & _ & H).
    apply bind_Ok in H as (c5 & _ & H). injection H as <-.
    repeat split; reflexivity.
Qed.

Lemma or_zero_stats_within (ds : list Q) (average med hi lo : Q) :
  ds <> [] ->
  or_zero statistics.mean ds = Ok average ->
  or_zero statistics.median ds = Ok med ->
  or_zero py_max ds = Ok hi ->
  or_zero py_min ds = Ok lo ->
  within lo hi med /\ within lo hi average.
Proof.
  intros Hne Ha Hm Hhi Hlo.
  destruct ds as [|d ds]; [congruence|]. cbn [or_zero] in *.
  eapply stats_within; eassumption.
Qed.

(** X11: the summary of a non-empty list of results is consistent: the
    successful and the failed tests add up to the total, the success rate
    is their share (between 0 and 1); with no successful result the four
    response-time figures are 0 (nothing raises), otherwise the average
    and the median lie between the minimum and the maximum. *)
Theorem summary_counts_and_bounds (b : PerformanceBenchmark) (s : gmap string Q) :
  results b <> [] ->
  generate_summary b = Ok s ->
  exists total passed failed rate average med hi lo,
    s !! "total_tests" = Some total /\
    s !! "successful_tests" = Some passed /\
    s !! "failed_tests" = Some failed /\
    s !! "success_rate" = Some rate /\
    s !! "average_response_time_ms" = Some average /\
    s !! "median_response_time_ms" = Some med /\
    s !! "max_response_time_ms" = Some hi /\
    s !! "min_response_time_ms" = Some lo /\
    (passed + failed == total)%Q /\
    (rate * total == passed)%Q /\
    within 0 1 rate /\
    (count_success (results b) = 0%nat ->
       average = 0%Q /\ med = 0%Q /\ hi = 0%Q /\ lo = 0%Q) /\
    (count_success (results b) <> 0%nat ->
       within lo hi med /\ within lo hi average).
Proof.
  intros Hne H.
  destruct (generate_summary_inv b s Hne H)
    as (rate & average & med & hi & lo & Hrate & Ha & Hm & Hhi & Hlo
        & L1 & L2 & L3 & L4 & L5 & L6 & L7 & L8).
  cbn zeta in *.
  exists (of_nat (length (results b))), (of_nat (count_success (results b))),
    (of_nat (count_failed (results b))), rate, average, med, hi, lo.
  repeat (split; [assumption|]).
  pose proof (count_success_failed (results b)) as Hsum.
  assert (0 < length (results b))%nat as Hlen.
  { destruct (results b); [congruence | simpl; lia]. }
  assert (0 < of_nat (length (results b)))%Q as Hpos.
  { unfold of_nat. change 0%Q with (inject_Z 0). rewrite <- Zlt_Qlt. lia. }
  rewrite pydiv_nonzero in Hrate by lra. injection Hrate as <-.
  assert (0 <= of_nat (count_success (results b)))%Q as Hp0.
  { unfold of_nat. change 0%Q with (inject_Z 0). rewrite <- Zle_Qle. lia. }
  assert (of_nat (count_success (results b)) <= of_nat (length (results b)))%Q
    as Hple by (apply of_nat_le; lia).
  split; [|split; [|split; [|split]]].
  - unfold of_nat. rewrite <- inject_Z_plus, <- Nat2Z.inj_add, Hsum. reflexivity.
  - field. lra.
  - split.
    + apply Qle_shift_div_l; lra.
    + apply Qle_shift_div_r; lra.
  - intros Hz. rewrite <- count_success_durations in Hz.
    assert (successful_durations (results b) = []) as E
      by (destruct (successful_durations (results b)); [reflexivity | discriminate]).
    rewrite E in *. cbn in Ha, Hm, Hhi, Hlo.
    repeat split; congruence.
  - intros Hnz. rewrite <- count_success_durations in Hnz.
    eapply or_zero_stats_within; try eassumption.
    intros E. rewrite E in Hnz. cbn in Hnz. congruence.
Qed.

Lemma summary_counts_and_bounds_witness :
  results bench_half_failed <> [] /\
  exists s,
    generate_summary bench_half_failed = Ok s /\
    exists total passed failed rate average med hi lo,
      s !! "total_tests" = Some total /\
      s !! "successful_tests" = Some passed /\
      s !! "failed_tests" = Some failed /\
      s !! "success_rate" = Some rate /\
      s !! "average_response_time_ms" = Some average /\
      s !! "median_response_time_ms" = Some med /\
      s !! "max_response_time_ms" = Some hi /\
      s !! "min_response_time_ms" = Some lo /\
      (passed + failed == total)%Q /\
      (rate * total == passed)%Q /\
      within 0 1 rate /\
      (count_success (results bench_half_failed) = 0%nat ->
         average = 0%Q /\ med = 0%Q /\ hi = 0%Q /\ lo = 0%Q) /\
      (count_success (results bench_half_failed) <> 0%nat ->
         within lo hi med /\ within lo hi average).
Proof.
  assert (results bench_half_failed <> []) as H1 by discriminate.
  split; [exact H1|].
  destruct (generate_summary_ok bench_half_failed) as [s E].
  exists s. split; [exact E|].
  exact (summary_counts_and_bounds bench_half_failed s H1 E).
Defined.

(** X12: the system figures enter the summary only with a non-empty
    metrics history (and a non-empty list of results); then the average
    CPU and memory percentages are at most the maxima reported next to
    them, and [peak_memory_mb] is at least the memory of every snapshot. *)
Theorem summary_system_figures (b : PerformanceBenchmark) (s : gmap string Q) :
  results b <> [] ->
  generate_summary b = Ok s ->
  (metrics_history b = [] ->
     s !! "average_cpu_percent" = None /\ s !! "max_cpu_percent" = None /\
     s !! "average_memory_percent" = None /\ s !! "max_memory_percent" = None /\
     s !! "peak_memory_mb" = None) /\
  (metrics_history b <> [] ->
     exists avg_cpu max_cpu avg_mem max_mem peak,
       s !! "average_cpu_percent" = Some avg_cpu /\
       s !! "max_cpu_percent" = Some max_cpu /\
       s !! "average_memory_percent" = Some avg_mem /\
       s !! "max_memory_percent" = Some max_mem /\
       s !! "peak_memory_mb" = Some peak /\
       (avg_cpu <= max_cpu)%Q /\ (avg_mem <= max_mem)%Q /\
       Forall (fun m => memory_mb m <= peak)%Q (metrics_history b)).
Proof.
  intros Hne H. unfold generate_summary in H.
  destruct (results b) as [|r rs] eqn:Er; [congruence|].
  apply bind_Ok in H as (rate & _ & H). apply bind_Ok in H as (average & _ & H).
  apply bind_Ok in H as (med & _ & H). apply bind_Ok in H as (hi & _ & H).
  apply bind_Ok in H as (lo & _ & H).
  destruct (metrics_history b) as [|x xs] eqn:Em.
  - injection H as <-. split; [|congruence]. intros _. repeat split; reflexivity.
  - split; [discriminate|]. intros _.
    apply bind_Ok in H as (c1 & H1 & H). apply bind_Ok in H as (c2 & H2 & H).
    apply bind_Ok in H as (c3 & H3 & H). apply bind_Ok in H as (c4 & H4 & H).
    apply bind_Ok in H as (c5 & H5 & H). injection H as <-.
    exists c1, c2, c3, c4, c5. repeat (split; [reflexivity|]).
    assert (forall (l : list Q) a m, statistics.mean l = Ok a -> py_max l = Ok m ->
              (a <= m)%Q) as Hle.
    { intros l a m Ha Hm. assert (l <> []) as Hl by (intros ->; discriminate).
      destruct (py_min_ok l Hl) as [lo' Hlo'].
      destruct (median_ok l Hl) as [med' Hmed'].
      destruct (stats_within l a med' lo' m Ha Hmed' Hlo' Hm) as [_ [_ Hub]].
      exact Hub. }
    split; [eapply Hle; eassumption|]. split; [eapply Hle; eassumption|].
    destruct (py_max_spec (map memory_mb (x :: xs))) as (p & Hp & _ & Hall);
      [discriminate|].
    assert (p = c5) as -> by congruence.
    rewrite List.Forall_forall in *. intros m Hm. apply Hall.
    apply in_map. exact Hm.
Qed.

Lemma summary_system_figures_witness :
  results bench_with_metrics <> [] /\
  exists s,
    generate_summary bench_with_metrics = Ok s /\
    (metrics_history bench_with_metrics = [] ->
       s !! "average_cpu_percent" = None /\ s !! "max_cpu_percent" = None /\
       s !! "average_memory_percent" = None /\ s !! "max_memory_percent" = None /\
       s !! "peak_memory_mb" = None) /\
    (metrics_history bench_with_metrics <> [] ->
       exists avg_cpu max_cpu avg_mem max_mem peak,
         s !! "average_cpu_percent" = Some avg_cpu /\
         s !! "max_cpu_percent" = Some max_cpu /\
         s !! "average_memory_percent" = Some avg_mem /\
         s !! "max_memory_percent" = Some max_mem /\
         s !! "peak_memory_mb" = Some peak /\
         (avg_cpu <= max_cpu)%Q /\ (avg_mem <= max_mem)%Q /\
         Forall (fun m => memory_mb m <= peak)%Q (metrics_history bench_with_metrics)).
Proof.
  assert (results bench_with_metrics <> []) as H1 by discriminate.
  split; [exact H1|].
  destruct (generate_summary_ok bench_with_metrics) as [s E].
  exists s. split; [exact E|].
  exact (summary_system_figures bench_with_metrics s H1 E).
Defined.

Lemma successful_durations_nil (rs : list BenchmarkResult) :
  successful_durations rs = [] <-> count_success rs = 0%nat.
Proof.
  rewrite <- count_success_durations.
  destruct (successful_durations rs); cbn; split; congruence.
Qed.

(** The memory part of the recommendations never raises. *)
Lemma memory_recommendations_ok (ms : list PerformanceMetrics) :
  exists l,
    match ms with
    | [] => Ok []
    | _ =>
      let* avg_memory := statistics.mean (map memory_percent ms) in
      let* max_memory := py_max (map memory_percent ms) in
      Ok (when (Qltb 70 avg_memory)
            "High memory usage - implement memory optimization and leak detection"
          ++ when (Qltb 90 max_memory)
            "Critical memory usage - immediate optimization required")
    end = Ok l /\
    (length l <= 2)%nat /\
    ~ In "Very high response times - implement aggressive caching strategies" l.
Proof.
  destruct ms as [|m ms]; [exists []; split; [reflexivity | cbn; split; [lia | tauto]]|].
  rewrite mean_ok by discriminate. cbn [bind].
  destruct (py_max_ok (map memory_percent (m :: ms))) as [hi ->]; [discriminate|].
  cbn [bind]. eexists. split; [reflexivity|]. unfold when.
  destruct (Qltb 70 _), (Qltb 90 _); cbn; (split; [lia|]);
    intros H; repeat (destruct H as [H|H]; [discriminate|]); exact H.
Qed.

(** What the recommendations are, and when they raise. *)
Lemma generate_recommendations_spec (b : PerformanceBenchmark) :
  (results b <> [] /\ count_success (results b) = 0%nat ->
     generate_recommendations b = Raise StatisticsError) /\
  (results b = [] \/ count_success (results b) <> 0%nat ->
     exists response memory,
       generate_recommendations b
       = Ok (response ++ memory ++ general_recommendations) /\
       (length response <= 2)%nat /\ (length memory <= 2)%nat /\
       (results b = [] -> response = []) /\
       ~ In "Very high response times - implement aggressive caching strategies"
            memory /\
       (In "Very high response times - implement aggressive caching strategies"
           response ->
        In "High average response time detected - consider optimizing database queries and API endpoints"
           response)).
Proof.
  unfold generate_recommendations. split.
  - intros [Hne Hz]. destruct (results b) as [|r rs] eqn:Er; [congruence|].
    apply successful_durations_nil in Hz. rewrite Hz. reflexivity.
  - intros H. destruct (memory_recommendations_ok (metrics_history b))
      as (memory & Hmem & Hlen & Hnot).
    destruct (results b) as [|r rs] eqn:Er.
    + cbn [bind]. rewrite Hmem. cbn [bind]. exists [], memory.
      split; [reflexivity|]. split; [cbn; lia|]. split; [exact Hlen|].
      split; [reflexivity|]. split; [exact Hnot|]. intros [].
    + destruct H as [H|H]; [discriminate|].
      assert (successful_durations (r :: rs) <> []) as Hne.
      { intros E. apply successful_durations_nil in E. congruence. }
      rewrite mean_ok by exact Hne. cbn [bind]. rewrite Hmem. cbn [bind].
      eexists _, memory. split; [reflexivity|].
      set (avg := (py_sum (successful_durations (r :: rs))
                   / len (successful_durations (r :: rs)))%Q).
      split; [|split; [exact Hlen|split; [discriminate|split; [exact Hnot|]]]].
      * rewrite length_app. unfold when.
        destruct (Qltb 500 avg), (Qltb 1000 avg); cbn; lia.
      * intros Hin. unfold when in *.
        destruct (Qltb 1000 avg) eqn:E1000.
        -- apply Qltb_lt in E1000. assert (500 < avg)%Q as H500 by lra.
           apply Qltb_lt in H500. rewrite H500. left. reflexivity.
        -- rewrite app_nil_r in Hin.
           destruct (Qltb 500 avg); cbn in Hin; [|destruct Hin].
           destruct Hin as [Hin|[]]. discriminate.
Qed.

Lemma recommendations_cases (b : PerformanceBenchmark) :
  (results b <> [] /\ count_success (results b) = 0%nat) \/
  (results b = [] \/ count_success (results b) <> 0%nat).
Proof.
  destruct (results b) as [|r rs]; [right; left; reflexivity|].
  destruct (Nat.eq_dec (count_success (r :: rs)) 0) as [E|E];
    [left; split; [discriminate | exact E] | right; right; exact E].
Qed.

(** X13: the recommendations raise [StatisticsError] exactly when there
    are results and none of them succeeded ([statistics.mean] of an empty
    list, not guarded as in the summary); otherwise they are returned. *)
Theorem recommendations_raise_iff_no_success (b : PerformanceBenchmark) :
  (generate_recommendations b = Raise StatisticsError <->
   results b <> [] /\ count_success (results b) = 0%nat) /\
  ((exists l, generate_recommendations b = Ok l) <->
   results b = [] \/ count_success (results b) <> 0%nat).
Proof.
  destruct (generate_recommendations_spec b) as [Hraise Hok].
  pose proof (recommendations_cases b) as Hcases.
  split; split.
  - intros H. destruct Hcases as [Hc|Hc]; [exact Hc|].
    destruct (Hok Hc) as (x & y & E & _). congruence.
  - exact Hraise.
  - intros [l H]. destruct Hcases as [Hc|Hc]; [|exact Hc].
    rewrite (Hraise Hc) in H. discriminate.
  - intros Hc. destruct (Hok Hc) as (x & y & E & _). eauto.
Qed.

(** X14: recommendations that are returned end with the five general
    ones, preceded by at most two about the response time and at most
    two about memory; the one for very high response times never comes
    without the one for high response times. *)
Theorem recommendations_shape (b : PerformanceBenchmark) (l : list string) :
  generate_recommendations b = Ok l ->
  exists response memory,
    l = response ++ memory ++ general_recommendations /\
    (length response <= 2)%nat /\ (length memory <= 2)%nat /\
    (5 <= length l <= 9)%nat /\
    (In "Very high response times - implement aggressive caching strategies" l ->
     In "High average response time detected - consider optimizing database queries and API endpoints" l).
Proof.
  intros H. destruct (generate_recommendations_spec b) as [Hraise Hok].
  destruct (recommendations_cases b) as [Hc|Hc];
    [rewrite (Hraise Hc) in H; discriminate|].
  destruct (Hok Hc) as (response & memory & E & Hr & Hm & _ & Hnot & Himp).
  assert (l = response ++ memory ++ general_recommendations) as -> by congruence.
  exists response, memory. split; [reflexivity|]. split; [exact Hr|].
  split; [exact Hm|]. split.
  - rewrite !length_app. cbn [general_recommendations length]. lia.
  - intros Hin. apply in_or_app. left. apply Himp.
    apply in_app_or in Hin as [Hin|Hin]; [exact Hin|]. exfalso.
    apply in_app_or in Hin as [Hin|Hin]; [exact (Hnot Hin)|].
    cbn in Hin. repeat (destruct Hin as [Hin|Hin]; [discriminate|]). exact Hin.
Qed.

Lemma recommendations_shape_witness :
  exists l,
    generate_recommendations bench_with_metrics = Ok l /\
    exists response memory,
      l = response ++ memory ++ general_recommendations /\
      (length response <= 2)%nat /\ (length memory <= 2)%nat /\
      (5 <= length l <= 9)%nat /\
      (In "Very high response times - implement aggressive caching strategies" l ->
       In "High average response time detected - consider optimizing database queries and API endpoints" l).
Proof.
  destruct (generate_recommendations_spec bench_with_metrics) as [_ Hok].
  destruct Hok as (x & y & E & _); [right; vm_compute; discriminate|].
  eexists. split; [exact E|].
  exact (recommendations_shape bench_with_metrics _ E).
Defined.

Lemma generate_recommendations_no_results (b : PerformanceBenchmark) :
  results b = [] -> exists l, generate_recommendations b = Ok l.
Proof.
  intros H. destruct (generate_recommendations_spec b) as [_ Hok].
  destruct (Hok (or_introl H)) as (x & y & E & _). eauto.
Qed.

(** Once the connection of the database benchmark opens, a run reaches
    its report whenever the cache and load benchmarks return. *)
Lemma run_returns (fsqrt : Q -> Q) (w : World) (conn : Connection) :
  sqlite_connect w "benchmark_database_performance" = Ok conn ->
  (exists c, benchmark_cache_performance w = Ok c) ->
  (exists l, benchmark_load_performance w = Ok l) ->
  exists r st, main_run fsqrt w = Ok (r, st).
Proof.
  intros Hconn [c Hc] [l Hl]. unfold main_run. rewrite run_unfold.
  destruct (db_results_spec fsqrt w conn Hconn) as (db & -> & _).
  destruct (api_results_invariants w) as (api & -> & _).
  rewrite Hc, Hl. cbn [bind]. cbn zeta.
  rewrite collect_system_metrics_spec. cbn [self trace results metrics_history init].
  cbn [generate_summary results bind].
  match goal with |- context [generate_recommendations ?b] =>
    destruct (generate_recommendations_no_results b eq_refl) as [recs ->] end.
  cbn [bind]. eauto.
Qed.

(** X15: a run reaches its assembled report exactly when
    [sqlite3.connect] of the database benchmark returns a connection and
    the cache benchmark and the load benchmark return: the warm-up, the
    queries of the database benchmark, the API benchmark, the sampler,
    the summary and the recommendations never end a run; a connect of the
    database benchmark that raises ends it with that exception. *)
Theorem run_completes_iff (fsqrt : Q -> Q) (w : World) :
  ((exists r st, main_run fsqrt w = Ok (r, st)) <->
   (exists conn,
      sqlite_connect w "benchmark_database_performance" = Ok conn) /\
   (exists c, benchmark_cache_performance w = Ok c) /\
   (exists l, benchmark_load_performance w = Ok l)) /\
  (forall e, sqlite_connect w "benchmark_database_performance" = Raise e ->
     main_run fsqrt w = Raise e).
Proof.
  split; [split|].
  - unfold main_run. rewrite run_unfold. intros (r & st & H).
    apply bind_Ok in H as (db & Hdb & H). apply bind_Ok in H as (api & _ & H).
    apply bind_Ok in H as (cache & Hc & H). apply bind_Ok in H as (load & Hl & _).
    split; [exact (db_benchmark_connected fsqrt w db Hdb)|]. eauto.
  - intros ([conn Hconn] & Hc & Hl). exact (run_returns fsqrt w conn Hconn Hc Hl).
  - intros e He. unfold main_run. rewrite run_unfold.
    unfold benchmark_database_performance. rewrite He. reflexivity.
Qed.

(** X17: with a loaded baseline, [performance_changes] has an entry for
    a metric exactly when the metric is one of the four compared and its
    baseline value is positive; the entry holds that baseline value. *)
Theorem change_recorded_iff_positive_baseline (w : World)
    (b : PerformanceBenchmark) (baseline : Baseline) (c : Comparison)
    (metric : string) :
  compare_with_baseline w b (Ok baseline) = Compared c ->
  let base := default 0%Q (default ∅ (baseline_summary_field baseline) !! metric) in
  (is_Some (performance_changes c !! metric) <->
   metric ∈ metrics_to_compare /\ (0 < base)%Q) /\
  (forall ch, performance_changes c !! metric = Some ch -> ch_baseline ch = base).
Proof.
  intros H. cbn zeta.
  destruct (compare_with_baseline_spec w b baseline)
    as (cs & c' & _ & Hc & Hpc & _).
  assert (c' = c) as -> by congruence.
  set (bs := default ∅ (baseline_summary_field baseline)) in *.
  rewrite Hpc. unfold metric_change.
  destruct (Qltb 0 (default 0%Q (bs !! metric))) eqn:E.
  - apply Qltb_lt in E. destruct (bool_decide (metric ∈ metrics_to_compare)) eqn:Em.
    + apply bool_decide_eq_true in Em. split.
      * split; [intros _; split; assumption | eauto].
      * intros ch Hch. injection Hch as <-. reflexivity.
    + apply bool_decide_eq_false in Em. split.
      * split; [intros [? ?]; discriminate | intros [? _]; contradiction].
      * discriminate.
  - apply Qltb_ge in E. split.
    + split; [intros [? ?]; discriminate | intros [_ ?]; lra].
    + discriminate.
Qed.

Lemma change_recorded_iff_positive_baseline_witness :
  exists c,
    compare_with_baseline calm_world bench_half_failed (Ok baseline_100)
    = Compared c /\
    let base := default 0%Q (default ∅ (baseline_summary_field baseline_100)
                             !! "success_rate") in
    (is_Some (performance_changes c !! "success_rate") <->
     "success_rate" ∈ metrics_to_compare /\ (0 < base)%Q) /\
    (forall ch, performance_changes c !! "success_rate" = Some ch ->
                ch_baseline ch = base).
Proof.
  destruct (compare_with_baseline_spec calm_world bench_half_failed baseline_100)
    as (cs & c & _ & E & _).
  exists c. split; [exact E|].
  exact (change_recorded_iff_positive_baseline calm_world bench_half_failed
           baseline_100 c "success_rate" E).
Defined.

(** What an element of the regressions is. *)
Lemma regression_elem (cs bs : gmap string Q) (l : list string) (r : Regression) :
  In r (flat_map (metric_regressions cs bs) l) ->
  exists ch,
    In (reg_metric r) l /\
    metric_change cs bs (reg_metric r) = Some ch /\
    reg_change_percent r = ch_change_percent ch /\
    (10 < ch_change_percent ch)%Q /\
    member (reg_metric r) higher_is_worse = true /\
    reg_severity r = (if Qltb 50 (ch_change_percent ch) then "high" else "medium").
Proof.
  intros H. apply in_flat_map in H as (m & Hm & Hr).
  unfold metric_regressions in Hr.
  destruct (metric_change cs bs m) as [ch|] eqn:E; [|destruct Hr].
  unfold regression_of in Hr.
  destruct (Qltb 10 (ch_change_percent ch)) eqn:E10; [|destruct Hr].
  destruct (member m higher_is_worse) eqn:Emem; [|destruct Hr].
  destruct Hr as [<-|[]]. cbn. exists ch.
  apply Qltb_lt in E10. repeat split; assumption.
Qed.

Lemma improvement_elem (cs bs : gmap string Q) (l : list string) (i : Improvement) :
  In i (flat_map (metric_improvements cs bs) l) ->
  exists ch,
    In (imp_metric i) l /\
    metric_change cs bs (imp_metric i) = Some ch /\
    imp_improvement_percent i = Qabs (ch_change_percent ch) /\
    (ch_change_percent ch < -10)%Q /\
    member (imp_metric i) improvable = true.
Proof.
  intros H. apply in_flat_map in H as (m & Hm & Hi).
  unfold metric_improvements in Hi.
  destruct (metric_change cs bs m) as [ch|] eqn:E; [|destruct Hi].
  unfold improvement_of in Hi.
  destruct (Qltb (ch_change_percent ch) (-10)) eqn:E10; [|destruct Hi].
  cbn [andb] in Hi. rewrite andb_true_r in Hi.
  destruct (member m ["average_response_time_ms"] || String.eqb m "success_rate")
    eqn:Emem; [|destruct Hi].
  destruct Hi as [<-|[]]. cbn [imp_metric imp_improvement_percent]. exists ch.
  apply Qltb_lt in E10. repeat split; try assumption.
  unfold improvable, member in *. cbn [existsb] in *.
  destruct (String.eqb m "average_response_time_ms"),
    (String.eqb m "success_rate"); cbn in *; congruence.
Qed.

Lemma member_elem (m : string) (l : list string) : member m l = true <-> m ∈ l.
Proof.
  unfold member. rewrite existsb_exists. split.
  - intros (x & Hx & E). apply String.eqb_eq in E as ->.
    apply list_elem_of_In. exact Hx.
  - intros H. exists m. split; [apply list_elem_of_In; exact H|].
    apply String.eqb_refl.
Qed.

(** X18: every regression listed is for a higher-is-worse metric (never
    for [success_rate]) whose recorded change is above 10, with severity
    high above 50 and medium otherwise; every improvement listed is for
    the response time or the success rate (never for CPU or memory), for
    a recorded change below -10, and its percentage is the absolute
    value of that change, above 10. *)
Theorem flagged_entries_sound (w : World) (b : PerformanceBenchmark)
    (baseline : Baseline) (c : Comparison) :
  compare_with_baseline w b (Ok baseline) = Compared c ->
  Forall (fun r =>
            reg_metric r ∈ higher_is_worse /\
            exists ch, performance_changes c !! reg_metric r = Some ch /\
              reg_change_percent r = ch_change_percent ch /\
              (10 < reg_change_percent r)%Q /\
              ((50 < reg_change_percent r)%Q /\ reg_severity r = "high" \/
               (reg_change_percent r <= 50)%Q /\ reg_severity r = "medium"))
         (regressions_detected c) /\
  Forall (fun i =>
            imp_metric i ∈ improvable /\
            exists ch, performance_changes c !! imp_metric i = Some ch /\
              (ch_change_percent ch < -10)%Q /\
              (imp_improvement_percent i == - ch_change_percent ch)%Q /\
              (10 < imp_improvement_percent i)%Q)
         (improvements_detected c).
Proof.
  intros H.
  destruct (compare_with_baseline_spec w b baseline)
    as (cs & c' & _ & Hc & Hpc & Hrs & His).
  assert (c' = c) as -> by congruence.
  set (bs := default ∅ (baseline_summary_field baseline)) in *.
  split; apply List.Forall_forall.
  - intros r Hr. rewrite Hrs in Hr.
    apply regression_elem in Hr as (ch & Hin & Hch & Hpct & H10 & Hmem & Hsev).
    split; [apply member_elem; exact Hmem|]. exists ch. rewrite Hpc, Hch.
    rewrite bool_decide_eq_true_2 by (apply list_elem_of_In; exact Hin).
    split; [reflexivity|]. split; [exact Hpct|]. rewrite Hpct.
    split; [exact H10|].
    destruct (Qltb 50 (ch_change_percent ch)) eqn:E50.
    + left. apply Qltb_lt in E50. split; assumption.
    + right. apply Qltb_ge in E50. split; assumption.
  - intros i Hi. rewrite His in Hi.
    apply improvement_elem in Hi as (ch & Hin & Hch & Hpct & H10 & Hmem).
    split; [apply member_elem; exact Hmem|]. exists ch. rewrite Hpc, Hch.
    rewrite bool_decide_eq_true_2 by (apply list_elem_of_In; exact Hin).
    split; [reflexivity|]. split; [exact H10|].
    assert (Qabs (ch_change_percent ch) == - ch_change_percent ch)%Q as Habs
      by (apply Qabs_neg; lra).
    rewrite Hpct. split; [exact Habs|]. rewrite Habs. lra.
Qed.

Lemma flagged_entries_sound_witness :
  exists c,
    compare_with_baseline calm_world bench_half_failed (Ok baseline_100)
    = Compared c /\
    Forall (fun r =>
              reg_metric r ∈ higher_is_worse /\
              exists ch, performance_changes c !! reg_metric r = Some ch /\
                reg_change_percent r = ch_change_percent ch /\
                (10 < reg_change_percent r)%Q /\
                ((50 < reg_change_percent r)%Q /\ reg_severity r = "high" \/
                 (reg_change_percent r <= 50)%Q /\ reg_severity r = "medium"))
           (regressions_detected c) /\
    Forall (fun i =>
              imp_metric i ∈ improvable /\
              exists ch, performance_changes c !! imp_metric i = Some ch /\
                (ch_change_percent ch < -10)%Q /\
                (imp_improvement_percent i == - ch_change_percent ch)%Q /\
                (10 < imp_improvement_percent i)%Q)
           (improvements_detected c).
Proof.
  destruct (compare_with_baseline_spec calm_world bench_half_failed baseline_100)
    as (cs & c & _ & E & _).
  exists c. split; [exact E|].
  exact (flagged_entries_sound calm_world bench_half_failed baseline_100 c E).
Defined.

Lemma metric_regressions_shape (cs bs : gmap string Q) (m : string) :
  metric_regressions cs bs m = [] \/
  exists r, metric_regressions cs bs m = [r] /\ reg_metric r = m /\
            member m higher_is_worse = true.
Proof.
  unfold metric_regressions, regression_of.
  destruct (metric_change cs bs m) as [ch|]; [|left; reflexivity].
  destruct (Qltb 10 (ch_change_percent ch)); [|left; reflexivity].
  destruct (member m higher_is_worse) eqn:E; [|left; reflexivity].
  right. eexists. split; [reflexivity|]. split; reflexivity.
Qed.

Lemma metric_improvements_shape (cs bs : gmap string Q) (m : string) :
  metric_improvements cs bs m = [] \/
  exists i, metric_improvements cs bs m = [i] /\ imp_metric i = m /\
            member m improvable = true.
Proof.
  destruct (metric_improvements cs bs m) as [|i l] eqn:E; [left; reflexivity|].
  right. unfold metric_improvements, improvement_of in E.
  destruct (metric_change cs bs m) as [ch|]; [|discriminate].
  destruct (Qltb (ch_change_percent ch) (-10)); [|discriminate].
  cbn [andb] in E. rewrite andb_true_r in E.
  destruct (member m ["average_response_time_ms"] || String.eqb m "success_rate")
    eqn:Emem; [|discriminate].
  injection E as <- <-. eexists. split; [reflexivity|]. split; [reflexivity|].
  unfold improvable, member in *. cbn [existsb] in *.
  destruct (String.eqb m "average_response_time_ms"),
    (String.eqb m "success_rate"); cbn in *; congruence.
Qed.

(** X19: a comparison lists a metric at most once among the regressions
    and at most once among the improvements, and never in both; there
    are at most three regressions and at most two improvements. *)
Theorem flagged_lists_disjoint (w : World) (b : PerformanceBenchmark)
    (baseline : Baseline) (c : Comparison) :
  compare_with_baseline w b (Ok baseline) = Compared c ->
  NoDup (map reg_metric (regressions_detected c)) /\
  NoDup (map imp_metric (improvements_detected c)) /\
  (length (regressions_detected c) <= 3)%nat /\
  (length (improvements_detected c) <= 2)%nat /\
  (forall r i, In r (regressions_detected c) -> In i (improvements_detected c) ->
               reg_metric r <> imp_metric i).
Proof.
  intros H.
  destruct (compare_with_baseline_spec w b baseline)
    as (cs & c' & _ & Hc & _ & Hrs & His).
  assert (c' = c) as -> by congruence.
  set (bs := default ∅ (baseline_summary_field baseline)) in *.
  split; [|split; [|split; [|split]]].
  - rewrite Hrs. unfold metrics_to_compare. cbn [flat_map].
    destruct (metric_regressions_shape cs bs "average_response_time_ms")
      as [->|(r1 & -> & E1 & _)];
    destruct (metric_regressions_shape cs bs "success_rate")
      as [->|(r2 & -> & E2 & M2)]; try (cbn in M2; discriminate);
    destruct (metric_regressions_shape cs bs "average_cpu_percent")
      as [->|(r3 & -> & E3 & _)];
    destruct (metric_regressions_shape cs bs "average_memory_percent")
      as [->|(r4 & -> & E4 & _)];
    cbn [app map]; rewrite ?E1, ?E3, ?E4;
    apply (bool_decide_unpack _); vm_compute; exact I.
  - rewrite His. unfold metrics_to_compare. cbn [flat_map].
    destruct (metric_improvements_shape cs bs "average_response_time_ms")
      as [->|(i1 & -> & E1 & _)];
    destruct (metric_improvements_shape cs bs "success_rate")
      as [->|(i2 & -> & E2 & _)];
    destruct (metric_improvements_shape cs bs "average_cpu_percent")
      as [->|(i3 & -> & E3 & M3)]; try (cbn in M3; discriminate);
    destruct (metric_improvements_shape cs bs "average_memory_percent")
      as [->|(i4 & -> & E4 & M4)]; try (cbn in M4; discriminate);
    cbn [app map]; rewrite ?E1, ?E2;
    apply (bool_decide_unpack _); vm_compute; exact I.
  - rewrite Hrs. unfold metrics_to_compare. cbn [flat_map].
    destruct (metric_regressions_shape cs bs "average_response_time_ms")
      as [->|(r1 & -> & _)];
    destruct (metric_regressions_shape cs bs "success_rate")
      as [->|(r2 & -> & E2 & M2)]; try (cbn in M2; discriminate);
    destruct (metric_regressions_shape cs bs "average_cpu_percent")
      as [->|(r3 & -> & _)];
    destruct (metric_regressions_shape cs bs "average_memory_percent")
      as [->|(r4 & -> & _)];
    cbn; lia.
  - rewrite His. unfold metrics_to_compare. cbn [flat_map].
    destruct (metric_improvements_shape cs bs "average_response_time_ms")
      as [->|(i1 & -> & _)];
    destruct (metric_improvements_shape cs bs "success_rate")
      as [->|(i2 & -> & _)];
    destruct (metric_improvements_shape cs bs "average_cpu_percent")
      as [->|(i3 & -> & E3 & M3)]; try (cbn in M3; discriminate);
    destruct (metric_improvements_shape cs bs "average_memory_percent")
      as [->|(i4 & -> & E4 & M4)]; try (cbn in M4; discriminate);
    cbn; lia.
  - intros r i Hr Hi E. rewrite Hrs in Hr. rewrite His in Hi.
    apply regression_elem in Hr as (ch & _ & Hch & _ & H10 & _).
    apply improvement_elem in Hi as (ch' & _ & Hch' & _ & H10' & _).
    rewrite E in Hch. assert (ch = ch') as -> by congruence. lra.
Qed.

Lemma flagged_lists_disjoint_witness :
  exists c,
    compare_with_baseline calm_world bench_half_failed (Ok baseline_100)
    = Compared c /\
    NoDup (map reg_metric (regressions_detected c)) /\
    NoDup (map imp_metric (improvements_detected c)) /\
    (length (regressions_detected c) <= 3)%nat /\
    (length (improvements_detected c) <= 2)%nat /\
    (forall r i, In r (regressions_detected c) -> In i (improvements_detected c) ->
                 reg_metric r <> imp_metric i).
Proof.
  destruct (compare_with_baseline_spec calm_world bench_half_failed baseline_100)
    as (cs & c & _ & E & _).
  exists c. split; [exact E|].
  exact (flagged_lists_disjoint calm_world bench_half_failed baseline_100 c E).
Defined.

(** Comparing an instance without results: every current value is 0. *)
Lemma compare_without_results (w : World) (b : PerformanceBenchmark)
    (baseline : Baseline) (c : Comparison) :
  results b = [] ->
  compare_with_baseline w b (Ok baseline) = Compared c ->
  regressions_detected c = [] /\
  Forall (fun i => imp_metric i ∈ improvable /\
                   (imp_improvement_percent i == 100)%Q)
         (improvements_detected c) /\
  (forall m ch, performance_changes c !! m = Some ch ->
      ch_current ch = 0%Q /\ (ch_change_percent ch == -100)%Q).
Proof.
  intros Hb H.
  destruct (compare_with_baseline_spec w b baseline)
    as (cs & c' & Hcs & Hc & Hpc & Hrs & His).
  assert (c' = c) as -> by congruence.
  unfold generate_summary in Hcs. rewrite Hb in Hcs. injection Hcs as <-.
  set (bs := default ∅ (baseline_summary_field baseline)) in *.
  assert (forall m ch, metric_change ∅ bs m = Some ch ->
            ch_current ch = 0%Q /\ (ch_change_percent ch == -100)%Q) as Hch.
  { intros m ch E. unfold metric_change in E. rewrite lookup_empty in E.
    destruct (Qltb 0 (default 0%Q (bs !! m))) eqn:Eb; [|discriminate].
    apply Qltb_lt in Eb. injection E as <-. cbn. split; [reflexivity|].
    field. lra. }
  split; [|split].
  - destruct (regressions_detected c) as [|r rs] eqn:E; [reflexivity|].
    exfalso. assert (In r (flat_map (metric_regressions ∅ bs) metrics_to_compare))
      as Hin by (rewrite <- Hrs; left; reflexivity).
    apply regression_elem in Hin as (ch & _ & E' & _ & H10 & _).
    destruct (Hch _ _ E') as [_ Hminus]. lra.
  - apply List.Forall_forall. intros i Hi. rewrite His in Hi.
    apply improvement_elem in Hi as (ch & _ & E' & Hpct & _ & Hmem).
    split; [apply member_elem; exact Hmem|].
    destruct (Hch _ _ E') as [_ Hminus]. rewrite Hpct, Hminus. reflexivity.
  - intros m ch Hl. rewrite Hpc in Hl.
    destruct (metric_change ∅ bs m) as [ch'|] eqn:E; [|discriminate].
    destruct (bool_decide (m ∈ metrics_to_compare)); [|discriminate].
    injection Hl as <-. eapply Hch. exact E.
Qed.

(** X20: [main] compares the instance it has just run, whose results are
    empty, so every current value is 0: whatever the baseline holds, no
    regression is ever listed, and every improvement listed (response
    time or success rate with a positive baseline value) is one of 100
    percent. *)
Theorem main_lists_no_regression (fsqrt : Q -> Q) (w : World)
    (baseline_file : option (result Baseline)) (out : MainOutcome) :
  main fsqrt w baseline_file = Ok out ->
  listed_regressions out = [] /\
  Forall (fun i => imp_metric i ∈ improvable /\
                   (imp_improvement_percent i == 100)%Q)
         (listed_improvements out).
Proof.
  unfold main. intros H. apply bind_Ok in H as ([r st] & Hrun & H).
  destruct (main_run_inv fsqrt w r st Hrun) as (Hself & _).
  cbn [fst snd] in H.
  destruct baseline_file as [[baseline|e]|].
  - destruct (compare_with_baseline w (self st) (Ok baseline)) as [c|e] eqn:Ec.
    + injection H as <-. cbn.
      assert (results (self st) = []) as Hres by (rewrite Hself; reflexivity).
      destruct (compare_without_results w (self st) baseline c Hres Ec)
        as (Hr & Hi & _).
      split; assumption.
    + injection H as <-. cbn. split; [reflexivity | constructor].
  - injection H as <-. cbn. split; [reflexivity | constructor].
  - injection H as <-. cbn. split; [reflexivity | constructor].
Qed.

Lemma calm_main_returns :
  exists out, main sqrt_floor calm_world (Some (Ok baseline_100)) = Ok out.
Proof.
  unfold main.
  destruct (run_returns sqrt_floor calm_world calm_connection eq_refl)
    as (r & st & ->).
  - destruct calm_cache_returns as (cache & e & E & _). eauto.
  - exact calm_load_returns.
  - cbn [bind]. eauto.
Qed.

Lemma main_lists_no_regression_witness :
  exists out,
    main sqrt_floor calm_world (Some (Ok baseline_100)) = Ok out /\
    listed_regressions out = [] /\
    Forall (fun i => imp_metric i ∈ improvable /\
                     (imp_improvement_percent i == 100)%Q)
           (listed_improvements out).
Proof.
  destruct calm_main_returns as [out E].
  exists out. split; [exact E|].
  exact (main_lists_no_regression sqrt_floor calm_world
           (Some (Ok baseline_100)) out E).
Defined.

(** *** A query all of whose repetitions fail *)

(** C3, as the code has it: once the connection of the database
    benchmark is open, a query whose ten repetitions all fail stops
    neither the database benchmark, which returns its results, nor the
    run, which reaches its report whenever the cache and load benchmarks
    return; the query has no entry in the results of the benchmark or in
    the report of the run (it is left out, not recorded with zeros). *)
Theorem all_failed_query_is_omitted (fsqrt : Q -> Q) (w : World)
    (conn : Connection) (name sql : string) :
  sqlite_connect w "benchmark_database_performance" = Ok conn ->
  (name, sql) ∈ queries ->
  (forall i, (i < 10)%nat -> raises (execute conn sql i)) ->
  (exists res,
     benchmark_database_performance fsqrt w = Ok res /\ res !! name = None) /\
  ((exists c, benchmark_cache_performance w = Ok c) ->
   (exists l, benchmark_load_performance w = Ok l) ->
   exists r st, main_run fsqrt w = Ok (r, st)) /\
  (forall r st, main_run fsqrt w = Ok (r, st) ->
     database_performance r !! name = None).
Proof.
  intros Hconn Hq Hfail.
  destruct (db_results_spec fsqrt w conn Hconn) as (res & Hres & Hin & _).
  assert (res !! name = None) as Hnone.
  { apply (Hin name sql Hq). apply all_raise_no_durations.
    intros i Hi. rewrite (db_execute_on w conn sql i Hconn). exact (Hfail i Hi). }
  split; [exists res; split; assumption|]. split.
  - intros Hc Hl. exact (run_returns fsqrt w conn Hconn Hc Hl).
  - intros r st Hrun.
    destruct (main_run_inv fsqrt w r st Hrun) as (_ & _ & _ & _ & Hdb & _).
    assert (database_performance r = res) as -> by congruence. exact Hnone.
Qed.

Lemma all_failed_query_is_omitted_witness :
  sqlite_connect flaky_world "benchmark_database_performance"
  = Ok {| execute := flaky_db |} /\
  ("index_test", index_test_sql) ∈ queries /\
  (forall i, (i < 10)%nat -> raises (flaky_db index_test_sql i)) /\
  (exists res,
     benchmark_database_performance sqrt_floor flaky_world = Ok res /\
     res !! "index_test" = None) /\
  ((exists c, benchmark_cache_performance flaky_world = Ok c) ->
   (exists l, benchmark_load_performance flaky_world = Ok l) ->
   exists r st, main_run sqrt_floor flaky_world = Ok (r, st)) /\
  (forall r st, main_run sqrt_floor flaky_world = Ok (r, st) ->
     database_performance r !! "index_test" = None).
Proof.
  assert (("index_test", index_test_sql) ∈ queries) as Hq.
  { apply list_elem_of_In. vm_compute. tauto. }
  assert (forall i, (i < 10)%nat -> raises (flaky_db index_test_sql i)) as Hfail.
  { intros i _. vm_compute. exact I. }
  split; [reflexivity|]. split; [exact Hq|]. split; [exact Hfail|].
  exact (all_failed_query_is_omitted sqrt_floor flaky_world
           {| execute := flaky_db |} "index_test" index_test_sql
           flaky_connected Hq Hfail).
Defined.

(** The run of [flaky_world] reaches its report, without an entry for
    [index_test]. *)
Lemma flaky_run_omits_index_test :
  exists r st,
    main_run sqrt_floor flaky_world = Ok (r, st) /\
    database_performance r !! "index_test" = None /\
    is_Some (database_performance r !! "count_query").
Proof.
  destruct (run_returns sqrt_floor flaky_world _ flaky_connected)
    as (r & st & Hrun).
  - destruct calm_cache_returns as (cache & e & E & _). exists cache. exact E.
  - exact calm_load_returns.
  - exists r, st. split; [exact Hrun|].
    destruct (main_run_inv sqrt_floor flaky_world r st Hrun)
      as (_ & _ & _ & _ & Hdb & _).
    destruct (db_results_spec sqrt_floor flaky_world _ flaky_connected)
      as (res & Hres & Hin & _).
    assert (database_performance r = res) as -> by congruence.
    split.
    + apply (Hin "index_test" index_test_sql).
      * apply list_elem_of_In. vm_compute. tauto.
      * vm_compute. reflexivity.
    + destruct (Hin "count_query" count_query_sql) as [_ Hsome].
      { apply list_elem_of_In. vm_compute. tauto. }
      destruct Hsome as (e & He & _); [vm_compute; discriminate|]. eauto.
Qed.

(** Without a connection the warm-up gives up quietly, and the database
    benchmark, whose connect is outside every [try], ends the run. *)
Lemma offline_run_raises :
  warm_up_application offline_world = Ok tt /\
  benchmark_database_performance sqrt_floor offline_world
  = Raise (OtherError "unable to open database file") /\
  benchmark_cache_performance offline_world
  = Raise (OtherError "unable to open database file") /\
  main_run sqrt_floor offline_world
  = Raise (OtherError "unable to open database file").
Proof. repeat split; vm_compute; reflexivity. Qed.
